(** * prediction_app: the projection path of [src/app.py] and [src/predict.py]

    A shallow embedding of the request path of the price-projection
    application: the great-circle distance and the nearest-station lookup,
    the stacked-model inference of [get_prediction], the chart range of
    [calculate_y_axis_range] and the [index] route that drives them.

    Modelling conventions.
    - Python exceptions are values of [exn]; a computation that may raise
      has type [result A] and is sequenced with [x ← m; k].
    - Numbers come in two embeddings.  In [Py], [Chart], [Geo] and the
      routes a Python number is an exact rational [Q] and the
      trigonometric chain of [haversine] is over the real numbers [R]:
      this serves the properties that rounding does not touch (which
      branch is taken, what is raised, what reaches the template, the
      symmetry of the distance).  The exact magnitude [Chart.floor_log10]
      and the exact comparison of distances in [Geo.first_min] are not
      what the floats of the code compute just below a power of ten, or on
      distances that differ in the last bits.  Where a property depends
      on that, [Chart64] and [Geo64] embed the same functions over
      binary64 numbers: every operation is the exact one followed by
      [Double.round], and the functions of the C library are a parameter
      [Libm].
    - A dict, and a one-row DataFrame seen as a dict from column name to
      cell, is a [gmap string _]. *)

From Stdlib Require Import ZArith QArith Qround Qabs Qpower Qreals.
From Stdlib Require Import Reals Psatz DecimalString.
From Stdlib Require Floats Uint63.
From stdpp Require Import base option list strings gmap.

#[local] Set Warnings "-clear-no-such-hyp".

Local Open Scope string_scope.

(** ** Python values, exceptions and the error monad *)

(** The values that reach the chart code: a number, or the text that
    [get_prediction] returns in place of one. *)
Inductive PyVal : Type :=
| PNum (q : Q)
| PStr (s : string).

(** Exceptions.  [ValueError], [TypeError] and [FileNotFoundError] carry
    the text or file name they are raised with.  The text of the other
    four is produced by the interpreter or a library from the recorded
    operands: [EmptyArg] and [DomainError] are Python [ValueError]s,
    [BadOperands] a [TypeError], and [KeyError] the pandas error for
    columns that a frame lacks. *)
Inductive exn : Type :=
| ValueError (msg : string)
| TypeError (msg : string)
| FileNotFoundError (filename : string)
| EmptyArg (fn : string)
| DomainError (fn : string)
| BadOperands (op : string) (a b : PyVal)
| KeyError (missing : list string)
| LibraryError (msg : string).

Inductive result (A : Type) : Type :=
| Ok (a : A)
| Raise (e : exn).
Arguments Ok {A} a.
Arguments Raise {A} e.

#[global] Instance result_ret : MRet result := fun A a => Ok a.
#[global] Instance result_bind : MBind result := fun A B f m =>
  match m with
  | Ok a => f a
  | Raise e => Raise e
  end.

(** ** Operators and builtins on Python values *)

Module Py.

(** [a < b] and [a > b]: numbers by value, strings lexicographically;
    a number against a string raises. *)
Definition lt (a b : PyVal) : result bool :=
  match a, b with
  | PNum x, PNum y => Ok (negb (Qle_bool y x))
  | PStr s, PStr t => Ok (String.ltb s t)
  | _, _ => Raise (BadOperands "<" a b)
  end.

Definition gt (a b : PyVal) : result bool :=
  match a, b with
  | PNum x, PNum y => Ok (negb (Qle_bool x y))
  | PStr s, PStr t => Ok (String.ltb t s)
  | _, _ => Raise (BadOperands ">" a b)
  end.

(** [a == b] never raises; values of different kinds are unequal. *)
Definition eqb (a b : PyVal) : bool :=
  match a, b with
  | PNum x, PNum y => Qeq_bool x y
  | PStr s, PStr t => String.eqb s t
  | _, _ => false
  end.

(** [isinstance(v, str)] *)
Definition is_str (v : PyVal) : bool :=
  match v with PStr _ => true | PNum _ => false end.

(** The scan of the builtins [min] and [max]: the running best is
    replaced only by a strictly better item, so the first of several
    equal extremes is the one returned. *)
Fixpoint scan (better : PyVal → PyVal → result bool)
         (best : PyVal) (items : list PyVal) : result PyVal :=
  match items with
  | [] => Ok best
  | item :: rest =>
      b ← better item best;
      scan better (if b : bool then item else best) rest
  end.

Definition min (xs : list PyVal) : result PyVal :=
  match xs with
  | [] => Raise (EmptyArg "min")
  | x :: rest => scan lt x rest
  end.

Definition max (xs : list PyVal) : result PyVal :=
  match xs with
  | [] => Raise (EmptyArg "max")
  | x :: rest => scan gt x rest
  end.

(** [v * 0.1] *)
Definition mul_float (v : PyVal) (f : Q) : result Q :=
  match v with
  | PNum x => Ok (x * f)%Q
  | PStr _ => Raise (TypeError "can't multiply sequence by non-int of type 'float'")
  end.

(** [a - p] and [a + p] for a number [p]. *)
Definition sub_num (a : PyVal) (p : Q) : result Q :=
  match a with
  | PNum x => Ok (x - p)%Q
  | PStr _ => Raise (BadOperands "-" a (PNum p))
  end.

Definition add_num (a : PyVal) (p : Q) : result Q :=
  match a with
  | PNum x => Ok (x + p)%Q
  | PStr _ => Raise (BadOperands "+" a (PNum p))
  end.

End Py.

(** ** The chart range: [calculate_y_axis_range] *)

Module Chart.

(** The floor of the logarithm to base ten of a positive [x], computed
    exactly (what [math.floor(math.log10(x))] is up to the rounding of
    [math.log10], for which see [Chart64]):
    [digits_up] counts the divisions by ten that bring [x ≥ 1] below
    ten, [digits_down] the multiplications by ten that bring [x < 1] up
    to one.  The binary size of the numerator, or of the denominator,
    bounds the count. *)
Fixpoint digits_up (fuel : nat) (x : Q) : nat :=
  match fuel with
  | O => O
  | S fuel' => if Qle_bool 10 x then S (digits_up fuel' (x / 10)) else O
  end.

Fixpoint digits_down (fuel : nat) (x : Q) : nat :=
  match fuel with
  | O => 1
  | S fuel' => if Qle_bool 1 (x * 10) then 1 else S (digits_down fuel' (x * 10))
  end.

Definition floor_log10 (x : Q) : Z :=
  if Qle_bool 1 x
  then Z.of_nat (digits_up (Z.to_nat (Z.log2 (Qnum x))) x)
  else - Z.of_nat (digits_down (Z.to_nat (Z.log2 (Zpos (Qden x)))) x).

(** The logarithm that the exact computation stands for. *)
Definition log10 (x : R) : R := (ln x / ln 10)%R.

(** [math.floor(math.log10(v))]: [math.log10] rejects text and numbers
    that are not positive. *)
Definition math_floor_log10 (v : PyVal) : result Z :=
  match v with
  | PStr _ => Raise (TypeError "must be real number, not str")
  | PNum x => if Qle_bool x 0 then Raise (DomainError "log10") else Ok (floor_log10 x)
  end.

(** [v / unit] for a number [unit]. *)
Definition div_num (v : PyVal) (unit : Q) : result Q :=
  match v with
  | PNum x => Ok (x / unit)%Q
  | PStr _ => Raise (BadOperands "/" v (PNum unit))
  end.

Definition calculate_y_axis_range (predictions : list PyVal) : result (Q * Q) :=
  min_val ← Py.min predictions;
  max_val ← Py.max predictions;
  if Py.eqb min_val max_val then
    padding ← (if negb (Py.eqb min_val (PNum 0))
               then t ← Py.mul_float min_val (1 # 10); Ok (Qabs t)
               else Ok 1%Q);
    lo ← Py.sub_num min_val padding;
    hi ← Py.add_num max_val padding;
    Ok (lo, hi)
  else
    order_of_magnitude ← math_floor_log10 max_val;
    let rounding_unit := (10 ^ (order_of_magnitude - 1))%Q in
    a ← div_num min_val rounding_unit;
    let y_min := (inject_Z (Qfloor a) * rounding_unit)%Q in
    b ← div_num max_val rounding_unit;
    let y_max := (inject_Z (Qceiling b) * rounding_unit)%Q in
    if Qeq_bool y_min y_max
    then Ok (y_min - rounding_unit, y_max + rounding_unit)%Q
    else Ok (y_min, y_max).

End Chart.

(** ** Distance and nearest station: [haversine], [find_closest_metro] *)

(** A row of [metro_df] after the numeric coercion and [dropna] of the
    loader.  The frame is the list of its rows in file order; a row's
    position stands for its index label, which the loader keeps unique. *)
Record MetroRow : Type := {
  name : string;
  latitude : Q;
  longitude : Q
}.

Module Geo.

Local Open Scope R_scope.

Definition radians (x : R) : R := x * (PI / 180).

(** [math.sqrt] and [math.asin] raise outside their domain. *)
Definition math_sqrt (x : R) : result R :=
  if Rlt_dec x 0 then Raise (DomainError "sqrt") else Ok (sqrt x).

Definition math_asin (x : R) : result R :=
  if Rlt_dec x (-1) then Raise (DomainError "asin")
  else if Rlt_dec 1 x then Raise (DomainError "asin")
  else Ok (asin x).

Definition haversine (lon1 lat1 lon2 lat2 : R) : result R :=
  let lon1 := radians lon1 in
  let lat1 := radians lat1 in
  let lon2 := radians lon2 in
  let lat2 := radians lat2 in
  let dlon := lon2 - lon1 in
  let dlat := lat2 - lat1 in
  let a := sin (dlat / 2) ^ 2 + cos lat1 * cos lat2 * sin (dlon / 2) ^ 2 in
  s ← math_sqrt a;
  t ← math_asin s;
  let c := 2 * t in
  let r := 6371 in
  Ok (c * r).

(** [Series.idxmin]: the position of the first least entry. *)
Fixpoint first_min (best_i : nat) (best : R) (i : nat) (ds : list R) : nat :=
  match ds with
  | [] => best_i
  | d :: rest =>
      if Rlt_dec d best
      then first_min i d (S i) rest
      else first_min best_i best (S i) rest
  end.

Definition idxmin (ds : list R) : result nat :=
  match ds with
  | [] => Raise (EmptyArg "idxmin")
  | d :: rest => Ok (first_min 0 d 1 rest)
  end.

(** [lambda row: haversine(user_lon, user_lat, row['longitude'], row['latitude'])] *)
Definition distance_to (user_lat user_lon : Q) (row : MetroRow) : result R :=
  haversine (Q2R user_lon) (Q2R user_lat) (Q2R (longitude row)) (Q2R (latitude row)).

(** [metro_df.apply(..., axis=1)] *)
Definition distances (metro_df : list MetroRow) (user_lat user_lon : Q)
  : result (list R) :=
  mapM (distance_to user_lat user_lon) metro_df.

(** [None] stands for the Python [None] returned on an empty frame.  The
    last branch is the [KeyError] of [metro_df.loc] on a label the frame
    lacks; [idxmin] never returns one. *)
Definition find_closest_metro (metro_df : list MetroRow) (user_lat user_lon : Q)
  : result (option MetroRow) :=
  match metro_df with
  | [] => Ok None
  | _ =>
      ds ← distances metro_df user_lat user_lon;
      closest_idx ← idxmin ds;
      match metro_df !! closest_idx with
      | Some row => Ok (Some row)
      | None => Raise (LibraryError "KeyError")
      end
  end.

End Geo.

(** ** Runtime services that the code calls but does not define

    The parsers return finite numbers only: the texts [nan] and [inf],
    which [float] accepts, are outside the model. *)

Record Runtime : Type := {
  py_float : string → result Q;      (* [float(s)] on form text *)
  py_int : string → result Z;        (* [int(s)] on form text *)
  format_aed : Q → string;           (* [f"{x:,.2f} AED"] *)
  format_exc : exn → string;         (* [traceback.format_exc()] *)
  exn_text : exn → string            (* [str(e)] where the interpreter or a
                                        library writes the text *)
}.

Definition newline : string := String (Ascii.ascii_of_nat 10) EmptyString.

(** [str(e)] *)
Definition exn_str (rt : Runtime) (e : exn) : string :=
  match e with
  | ValueError msg | TypeError msg | LibraryError msg => msg
  | FileNotFoundError f => "[Errno 2] No such file or directory: '" +:+ f +:+ "'"
  | _ => exn_text rt e
  end.

(** ** Stacked-model inference: [get_prediction] *)

(** The pre-trained objects, opaque behind their calls.  Both take the
    cells of the one-row frame they are handed, in column order; a
    regressor returns entry [0] of its prediction array. *)
Record Scaler : Type := { transform : list PyVal → result (list Q) }.

(** [feature_names] is the attribute [feature_names_in_] of a base model
    and [feature_names_] of the meta model. *)
Record Regressor : Type := {
  feature_names : list string;
  predict : list PyVal → result Q
}.

(** What [joblib.load] finds at a path: no file, a file it cannot read,
    or the stored object. *)
Inductive File (A : Type) : Type :=
| Missing
| Corrupt (msg : string)
| Stored (a : A).
Arguments Missing {A}.
Arguments Corrupt {A} msg.
Arguments Stored {A} a.

Record ModelDir : Type := {
  model_folder_path : string;
  scaler_joblib : File Scaler;
  scaled_features_list_joblib : File (list string);
  random_forest_joblib : File Regressor;
  xgboost_joblib : File Regressor;
  linear_reg_joblib : File Regressor;
  meta_model_joblib : File Regressor
}.

(** Some artifact file is absent from the model directory. *)
Definition some_file_missing (dir : ModelDir) : Prop :=
  scaler_joblib dir = Missing
  ∨ scaled_features_list_joblib dir = Missing
  ∨ random_forest_joblib dir = Missing
  ∨ xgboost_joblib dir = Missing
  ∨ linear_reg_joblib dir = Missing
  ∨ meta_model_joblib dir = Missing.

(** The six artifact files by name, for statements about one of them. *)
Inductive Artifact : Type :=
| ScalerFile | FeaturesFile | RandomForestFile | XgboostFile | LinearRegFile | MetaModelFile.

Definition artifact_filename (a : Artifact) : string :=
  match a with
  | ScalerFile => "scaler.joblib"
  | FeaturesFile => "scaled_features_list.joblib"
  | RandomForestFile => "random_forest.joblib"
  | XgboostFile => "xgboost.joblib"
  | LinearRegFile => "linear_reg.joblib"
  | MetaModelFile => "meta_model.joblib"
  end.

(** The position of a file in the order in which [get_prediction] loads. *)
Definition artifact_rank (a : Artifact) : nat :=
  match a with
  | ScalerFile => 0 | FeaturesFile => 1 | RandomForestFile => 2
  | XgboostFile => 3 | LinearRegFile => 4 | MetaModelFile => 5
  end.

Definition artifact_missing (dir : ModelDir) (a : Artifact) : Prop :=
  match a with
  | ScalerFile => scaler_joblib dir = Missing
  | FeaturesFile => scaled_features_list_joblib dir = Missing
  | RandomForestFile => random_forest_joblib dir = Missing
  | XgboostFile => xgboost_joblib dir = Missing
  | LinearRegFile => linear_reg_joblib dir = Missing
  | MetaModelFile => meta_model_joblib dir = Missing
  end.

Definition artifact_stored (dir : ModelDir) (a : Artifact) : Prop :=
  match a with
  | ScalerFile => ∃ x, scaler_joblib dir = Stored x
  | FeaturesFile => ∃ x, scaled_features_list_joblib dir = Stored x
  | RandomForestFile => ∃ x, random_forest_joblib dir = Stored x
  | XgboostFile => ∃ x, xgboost_joblib dir = Stored x
  | LinearRegFile => ∃ x, linear_reg_joblib dir = Stored x
  | MetaModelFile => ∃ x, meta_model_joblib dir = Stored x
  end.

(** Exactly the file [a] is absent; the other five load. *)
Definition only_missing (dir : ModelDir) (a : Artifact) : Prop :=
  artifact_missing dir a ∧ ∀ b, b ≠ a → artifact_stored dir b.

Module Predict.

Definition resource_path (dir : ModelDir) (filename_in_model_dir : string) : string :=
  model_folder_path dir +:+ "/" +:+ filename_in_model_dir.

(** [joblib.load(path)] of a file whose content is [f]. *)
Definition joblib_load {A} (path : string) (f : File A) : result A :=
  match f with
  | Missing => Raise (FileNotFoundError path)
  | Corrupt msg => Raise (LibraryError msg)
  | Stored a => Ok a
  end.

Definition base_model_file (dir : ModelDir) (model_name : string) : File Regressor :=
  if String.eqb model_name "random_forest" then random_forest_joblib dir
  else if String.eqb model_name "xgboost" then xgboost_joblib dir
  else if String.eqb model_name "linear_reg" then linear_reg_joblib dir
  else Missing.

(** The safety net: [for col in cols: if col not in df.columns: df[col] = 0] *)
Definition fill_missing (df : gmap string PyVal) (cols : list string)
  : gmap string PyVal :=
  foldl (λ df col, match df !! col with
                   | Some _ => df
                   | None => <[col := PNum 0]> df
                   end) df cols.

(** [df[cols]]: the cells of the listed columns, in list order. *)
Definition select (df : gmap string PyVal) (cols : list string)
  : result (list PyVal) :=
  match mapM (λ col, df !! col) cols with
  | Some cells => Ok cells
  | None => Raise (KeyError (filter (λ col, df !! col = None) cols))
  end.

(** [df[cols] = data] *)
Definition assign (df : gmap string PyVal) (cols : list string) (data : list Q)
  : result (gmap string PyVal) :=
  if Nat.eqb (length cols) (length data)
  then Ok (foldl (λ df cv, <[cv.1 := PNum cv.2]> df) df (zip cols data))
  else Raise (ValueError "Columns must be same length as key").

Definition apply_scaling (scaler : Scaler) (num_cols_to_scale : list string)
           (processed_df : gmap string PyVal) : result (gmap string PyVal) :=
  match num_cols_to_scale with
  | [] => Ok processed_df
  | _ =>
      let processed_df := fill_missing processed_df num_cols_to_scale in
      data_to_scale ← select processed_df num_cols_to_scale;
      scaled_data ← transform scaler data_to_scale;
      assign processed_df num_cols_to_scale scaled_data
  end.

(** The body of the [try]. *)
Definition predict_body (dir : ModelDir) (input_df : gmap string PyVal) : result Q :=
  scaler ← joblib_load (resource_path dir "scaler.joblib") (scaler_joblib dir);
  num_cols_to_scale ← joblib_load (resource_path dir "scaled_features_list.joblib")
                                  (scaled_features_list_joblib dir);
  processed_df ← apply_scaling scaler num_cols_to_scale input_df;
  models ← mapM (λ model_name,
                   m ← joblib_load (resource_path dir (model_name +:+ ".joblib"))
                                   (base_model_file dir model_name);
                   Ok (model_name, m))
                ["random_forest"; "xgboost"; "linear_reg"];
  meta_model ← joblib_load (resource_path dir "meta_model.joblib") (meta_model_joblib dir);
  base_predictions ← mapM (λ nm : string * Regressor,
                             x ← select processed_df (feature_names nm.2);
                             pred ← predict nm.2 x;
                             Ok (nm.1, pred))
                          models;
  let meta_features_df : gmap string PyVal :=
    foldl (λ df np, <[np.1 := PNum np.2]> df) ∅ base_predictions in
  x ← select meta_features_df (feature_names meta_model);
  predict meta_model x.

Definition get_prediction (rt : Runtime) (dir : ModelDir)
           (input_df : gmap string PyVal) (raw_output : bool) : PyVal :=
  match predict_body dir input_df with
  | Ok final_prediction =>
      if raw_output then PNum final_prediction
      else PStr (format_aed rt final_prediction)
  | Raise (FileNotFoundError filename) =>
      PStr ("Error: A required model file was not found. Please check your 'model' directory. Missing file: "
            +:+ filename)
  | Raise e =>
      PStr ("An unexpected error occurred in prediction: " +:+ exn_str rt e
            +:+ newline +:+ format_exc rt e)
  end.

End Predict.

(** ** The projection route: [index] *)

Inductive ProjectionData : Type :=
| Projection (labels : list string) (values : list PyVal) (y_min y_max : Q)
| ProjectionError (error : string).

(** What [index] hands to the template. *)
Record Rendered : Type := {
  projection_data : option ProjectionData;
  form_data : gmap string string;
  closest_metro_name : option string
}.

(** The process state a request reads: the frame loaded at import, the
    model directory and the calendar. *)
Record App : Type := {
  metro_df : list MetroRow;
  model_dir : ModelDir;
  today_year : Z
}.

Inductive Method : Type := GET | POST.

Module Route.

(** [str(n)] for an int. *)
Definition py_str_int (n : Z) : string := NilZero.string_of_int (Z.to_int n).

(** [range(a, b)] *)
Definition py_range (a b : Z) : list Z := seqZ a (b - a).

Definition form_float (rt : Runtime) (form : gmap string string)
           (key : string) (default : Q) : result Q :=
  match form !! key with
  | Some s => py_float rt s
  | None => Ok default
  end.

Definition form_int (rt : Runtime) (form : gmap string string)
           (key : string) (default : Z) : result Z :=
  match form !! key with
  | Some s => py_int rt s
  | None => Ok default
  end.

(** The [try] body up to the assignment of [closest_metro_name]. *)
Definition locate (rt : Runtime) (app : App) (form : gmap string string)
  : result (Q * Q * MetroRow) :=
  user_lat ← form_float rt form "latitude" (252048 # 10000);
  user_lon ← form_float rt form "longitude" (552708 # 10000);
  closest_metro ← Geo.find_closest_metro (metro_df app) user_lat user_lon;
  match closest_metro with
  | None => Raise (ValueError "Could not find closest metro. Check data file.")
  | Some row => Ok (user_lat, user_lon, row)
  end.

Definition base_input_data (closest_metro : MetroRow) (rooms : Z)
           (user_lat user_lon : Q) : gmap string PyVal :=
  <["longitude_metro" := PNum (longitude closest_metro)]>
  (<["latitude_metro" := PNum (latitude closest_metro)]>
  (<["longitude" := PNum user_lon]>
  (<["latitude" := PNum user_lat]>
  (<["rooms_en" := PNum (inject_Z rooms)]>
  (<["area_name_en" := PStr (name closest_metro)]> ∅))))).

(** [iter_df = base_df.copy(); iter_df["year"] = year] *)
Definition iter_df (base_df : gmap string PyVal) (year : Z) : gmap string PyVal :=
  <["year" := PNum (inject_Z year)]> base_df.

(** The rest of the [try] body. *)
Definition project (rt : Runtime) (app : App) (form : gmap string string)
           (user_lat user_lon : Q) (closest_metro : MetroRow)
  : result ProjectionData :=
  rooms ← form_int rt form "rooms" 1;
  let base_df := base_input_data closest_metro rooms user_lat user_lon in
  let current_year := today_year app in
  let years_to_predict := py_range current_year (current_year + 4) in
  let predictions :=
    map (λ year, Predict.get_prediction rt (model_dir app) (iter_df base_df year) true)
        years_to_predict in
  range ← Chart.calculate_y_axis_range predictions;
  Ok (Projection (map py_str_int years_to_predict) predictions range.1 range.2).

Definition error_data (rt : Runtime) (e : exn) : ProjectionData :=
  ProjectionError ("Error: " +:+ exn_str rt e).

Definition index (rt : Runtime) (app : App) (method : Method)
           (form : gmap string string) : Rendered :=
  match method with
  | GET => {| projection_data := None; form_data := ∅; closest_metro_name := None |}
  | POST =>
      match locate rt app form with
      | Raise e =>
          {| projection_data := Some (error_data rt e);
             form_data := form;
             closest_metro_name := None |}
      | Ok (user_lat, user_lon, closest_metro) =>
          {| projection_data :=
               Some (match project rt app form user_lat user_lon closest_metro with
                     | Ok data => data
                     | Raise e => error_data rt e
                     end);
             form_data := form;
             closest_metro_name := Some (name closest_metro) |}
      end
  end.

End Route.

(** ** The station file: the loader at the top of [app.py] *)

(** A row of the file as [read_csv] sees it, the two coordinates still as
    the text of their cells. *)
Record CsvRow : Type := {
  csv_name : string;
  csv_latitude : string;
  csv_longitude : string
}.

(** The file at [_metro_csv_path]: absent, or read into rows.  A file
    that is present but unreadable, or lacks a coordinate column, raises
    something other than [FileNotFoundError] and stops the import; that
    case is outside the model. *)
Inductive CsvFile : Type :=
| NoFile
| CsvRows (rows : list CsvRow).

Module Loader.

(** [dropna(subset=['latitude', 'longitude'])] over the three columns. *)
Fixpoint dropna (names : list string) (lat lon : list (option Q)) : list MetroRow :=
  match names, lat, lon with
  | n :: names', Some la :: lat', Some lo :: lon' =>
      {| name := n; latitude := la; longitude := lo |} :: dropna names' lat' lon'
  | _ :: names', _ :: lat', _ :: lon' => dropna names' lat' lon'
  | _, _, _ => []
  end.

(** [to_numeric] is [pd.to_numeric(..., errors='coerce')] on one cell:
    [None] stands for the NaN of a cell that is empty or not a number. *)
Definition load_metro (to_numeric : string → option Q) (file : CsvFile) : list MetroRow :=
  match file with
  | NoFile => []
  | CsvRows rows =>
      let latitude_col := to_numeric <$> (csv_latitude <$> rows) in
      let longitude_col := to_numeric <$> (csv_longitude <$> rows) in
      dropna (csv_name <$> rows) latitude_col longitude_col
  end.

End Loader.

(** ** The export route: [download_excel] *)

#[local] Set Warnings "-register-all".

(** A decoded JSON value; an object is the list of its members, each key
    once. *)
Inductive Json : Type :=
| JNull
| JBool (b : bool)
| JNum (q : Q)
| JStr (s : string)
| JArr (items : list Json)
| JObj (members : list (string * Json)).

(** What the route calls but does not define.  [frame_of_objects] is the
    [pd.DataFrame] constructor on columns of which one is a JSON object;
    [to_excel] writes the two-column sheet and returns the bytes of the
    file. *)
Record ExportRuntime : Type := {
  json_loads : string → result Json;
  subscript_error : Json → exn;
  frame_of_objects : Json → Json → result (list (Json * Json));
  to_excel : list (Json * Json) → result string
}.

Inductive Response : Type :=
| Body (text : string) (status : Z)
| Attachment (content mimetype download_name : string).

Module Download.

(** [data[key]] for a string key. *)
Definition getitem (ert : ExportRuntime) (data : Json) (key : string) : result Json :=
  match data with
  | JObj members =>
      match list_find (λ kv, kv.1 = key) members with
      | Some (_, kv) => Ok kv.2
      | None => Raise (KeyError [key])
      end
  | _ => Raise (subscript_error ert data)
  end.

(** [pd.DataFrame({'Year': labels, 'Projected Price (AED)': values})]: the
    rows of the frame.  Two arrays need one length; a scalar beside an
    array is repeated along it; two scalars have no index. *)
Definition make_frame (ert : ExportRuntime) (labels values : Json)
  : result (list (Json * Json)) :=
  match labels, values with
  | JObj _, _ | _, JObj _ => frame_of_objects ert labels values
  | JArr ls, JArr vs =>
      if Nat.eqb (length ls) (length vs) then Ok (zip ls vs)
      else Raise (ValueError "All arrays must be of the same length")
  | JArr ls, v => Ok ((λ l, (l, v)) <$> ls)
  | l, JArr vs => Ok ((λ v, (l, v)) <$> vs)
  | _, _ => Raise (ValueError "If using all scalar values, you must pass an index")
  end.

Definition download_excel (rt : Runtime) (ert : ExportRuntime)
           (form : gmap string string) : Response :=
  match form !! "projection_data" with
  | None | Some EmptyString => Body "Error: No data received." 400
  | Some data_str =>
      match (data ← json_loads ert data_str;
             labels ← getitem ert data "labels";
             values ← getitem ert data "values";
             df ← make_frame ert labels values;
             to_excel ert df) with
      | Ok output =>
          Attachment output
            "application/vnd.openxmlformats-officedocument.spreadsheetml.sheet"
            "price_projection.xlsx"
      | Raise e => Body (exn_str rt e) 500
      end
  end.

End Download.

(** ** Binary floating point

    The rounding branch of the chart range and the choice of the nearest
    station depend on how the floats of the code round.  For them the
    code is embedded a second time, over doubles: [Chart64] and [Geo64]
    below.  A finite double is the rational that it denotes; the sign of
    a zero is not kept, the code never looks at it. *)

Module Double.

Local Open Scope Q_scope.

(** [floor (log2 q)] for a positive [q]. *)
Definition ilog2 (q : Q) : Z :=
  let e := (Z.log2 (Qnum q) - Z.log2 (Zpos (Qden q)))%Z in
  if Qle_bool (2 ^ e) q
  then (if Qle_bool (2 ^ (e + 1)) q then e + 1 else e)%Z
  else (e - 1)%Z.

(** The double nearest to a positive [q], a tie going to the even
    significand.  The unit in the last place is [2^e]: 53 bits of
    significand, and nothing finer than [2^-1074].  There is no bound
    above; [round] adds it. *)
Definition nearest_pos (q : Q) : Q :=
  let e := Z.max (ilog2 q - 52) (-1074) in
  let s := q / 2 ^ e in
  let m := Qfloor s in
  let m' := match (s - inject_Z m) ?= (1 # 2) with
            | Lt => m
            | Gt => (m + 1)%Z
            | Eq => if Z.even m then m else (m + 1)%Z
            end in
  Qred (inject_Z m' * 2 ^ e).

Definition nearest (q : Q) : Q :=
  let r := Qred q in
  match r ?= 0 with
  | Eq => 0
  | Gt => nearest_pos r
  | Lt => - nearest_pos (- r)
  end.

(** The largest finite double. *)
Definition max_finite : Q := (2 ^ 53 - 1) * 2 ^ 971.

Inductive t : Type :=
| Finite (q : Q)
| Infinite (negative : bool)
| NaN.

Definition negative (q : Q) : bool := negb (Qle_bool 0 q).

(** The double that an exact result [q] becomes. *)
Definition round (q : Q) : t :=
  let v := nearest q in
  if Qle_bool (Qabs v) max_finite then Finite v else Infinite (negative v).

(** A decimal literal [digits * 10^exponent] of the source text. *)
Definition literal (digits exponent : Z) : Q :=
  nearest (inject_Z digits * 10 ^ exponent).

Definition opp (x : t) : t :=
  match x with
  | Finite q => Finite (- q)
  | Infinite s => Infinite (negb s)
  | NaN => NaN
  end.

Definition abs (x : t) : t :=
  match x with
  | Finite q => Finite (Qabs q)
  | Infinite _ => Infinite false
  | NaN => NaN
  end.

Definition add (x y : t) : t :=
  match x, y with
  | Finite p, Finite q => round (p + q)
  | Infinite s, Finite _ | Finite _, Infinite s => Infinite s
  | Infinite s, Infinite s' => if Bool.eqb s s' then Infinite s else NaN
  | _, _ => NaN
  end.

Definition sub (x y : t) : t := add x (opp y).

Definition mul (x y : t) : t :=
  match x, y with
  | Finite p, Finite q => round (p * q)
  | Infinite s, Finite q | Finite q, Infinite s =>
      if Qeq_bool q 0 then NaN else Infinite (xorb s (negative q))
  | Infinite s, Infinite s' => Infinite (xorb s s')
  | _, _ => NaN
  end.

(** [x / y] for a [y] other than zero. *)
Definition div (x y : t) : t :=
  match x, y with
  | Finite p, Finite q => round (p / q)
  | Finite _, Infinite _ => Finite 0
  | Infinite s, Finite q => Infinite (xorb s (negative q))
  | _, _ => NaN
  end.

Definition eqb (x y : t) : bool :=
  match x, y with
  | Finite p, Finite q => Qeq_bool p q
  | Infinite s, Infinite s' => Bool.eqb s s'
  | _, _ => false
  end.

End Double.

(** The kernel's own binary64 numbers, against which [Double] is
    checked below. *)
Module Kernel.

Definition to_double (f : PrimFloat.float) : Double.t :=
  match FloatOps.Prim2SF f with
  | SpecFloat.S754_zero _ => Double.Finite 0
  | SpecFloat.S754_finite s m e =>
      Double.Finite (Qred ((if s then -1 else 1) * inject_Z (Zpos m) * 2 ^ e))
  | SpecFloat.S754_infinity s => Double.Infinite s
  | SpecFloat.S754_nan => Double.NaN
  end.

(** An integer below [2^53], and [m * 2^e]. *)
Definition of_int (n : Z) : PrimFloat.float := PrimFloat.of_uint63 (Uint63.of_Z n).

Definition dyadic (m e : Z) : PrimFloat.float := FloatOps.Z.ldexp (of_int m) e.

Definition same (x y : Double.t) : bool :=
  match x, y with
  | Double.Finite p, Double.Finite q => Qeq_bool p q
  | Double.Infinite s, Double.Infinite s' => Bool.eqb s s'
  | Double.NaN, Double.NaN => true
  | _, _ => false
  end.

(** The four operations agree on the pair [a], [b]; the division is
    looked at for a divisor other than zero. *)
Definition agree (a b : PrimFloat.float) : bool :=
  same (to_double (PrimFloat.add a b)) (Double.add (to_double a) (to_double b))
  && same (to_double (PrimFloat.sub a b)) (Double.sub (to_double a) (to_double b))
  && same (to_double (PrimFloat.mul a b)) (Double.mul (to_double a) (to_double b))
  && (same (to_double b) (Double.Finite 0)
      || same (to_double (PrimFloat.div a b)) (Double.div (to_double a) (to_double b))).

(** Zero, decimal fractions as quotients of integers, the constants of
    the code, the least subnormal numbers, the least normal number and
    the largest finite one, and an infinity. *)
Definition samples : list PrimFloat.float := [
  of_int 0;
  of_int 1;
  PrimFloat.opp (of_int 3);
  PrimFloat.div (of_int 1) (of_int 10);
  PrimFloat.div (of_int 7) (of_int 10);
  PrimFloat.div (of_int 9) (of_int 10);
  PrimFloat.div (of_int 1) (of_int 100);
  PrimFloat.div (of_int 7000000000000001) (of_int 10000000000000000);
  of_int 70;
  of_int 6371;
  of_int 999999999999999;
  dyadic 884279719003555 (-48);
  PrimFloat.opp (PrimFloat.div (of_int 24375) (of_int 1000));
  dyadic 1 (-1074);
  dyadic 3 (-1074);
  dyadic 1 (-1022);
  dyadic 9007199254740991 971;
  PrimFloat.div (of_int 1) (of_int 0)
].

End Kernel.

(** The functions of the C library behind Python's [math] module and [**]
    on floats.  The code calls them; it does not define them, and the C
    standard does not fix their last bit.  Each takes and returns finite
    doubles, as reduced fractions. *)
Record Libm : Type := {
  libm_log10 : Q → Q;    (* on a positive argument *)
  libm_pow : Q → Z → Q;  (* [pow(x, n)] for an integral [n] *)
  libm_sin : Q → Q;
  libm_cos : Q → Q;
  libm_sqrt : Q → Q;     (* on an argument that is not negative *)
  libm_asin : Q → Q      (* on an argument between -1 and 1 *)
}.

Module Math.

Definition log10 (lm : Libm) (x : Q) : Q := libm_log10 lm (Qred x).
Definition pow (lm : Libm) (x : Q) (n : Z) : Q := libm_pow lm (Qred x) n.
Definition sin (lm : Libm) (x : Q) : Q := libm_sin lm (Qred x).
Definition cos (lm : Libm) (x : Q) : Q := libm_cos lm (Qred x).
Definition sqrt (lm : Libm) (x : Q) : Q := libm_sqrt lm (Qred x).
Definition asin (lm : Libm) (x : Q) : Q := libm_asin lm (Qred x).

End Math.

(** A Python number: an [int], or a [float]. *)
Inductive Num : Type :=
| NInt (n : Z)
| NFloat (x : Double.t).

(** Python's arithmetic on numbers.  [OverflowError] and
    [ZeroDivisionError] are carried by [LibraryError] with their text. *)
Module Py64.

(** An operand that meets a float: an [int] is converted first. *)
Definition float (a : Num) : result Double.t :=
  match a with
  | NFloat x => Ok x
  | NInt n =>
      match Double.round (inject_Z n) with
      | Double.Finite q => Ok (Double.Finite q)
      | _ => Raise (LibraryError "int too large to convert to float")
      end
  end.

Definition arith (int_op : Z → Z → Z) (float_op : Double.t → Double.t → Double.t)
           (a b : Num) : result Num :=
  match a, b with
  | NInt m, NInt n => Ok (NInt (int_op m n))
  | _, _ => x ← float a; y ← float b; Ok (NFloat (float_op x y))
  end.

Definition add : Num → Num → result Num := arith Z.add Double.add.
Definition sub : Num → Num → result Num := arith Z.sub Double.sub.
Definition mul : Num → Num → result Num := arith Z.mul Double.mul.

(** [x / b] for a float [x].  A Python float raises on a divisor that is
    zero; a numpy float returns an infinity or a NaN there, and the
    [math.floor] that follows in the code raises in its place. *)
Definition truediv (x : Double.t) (b : Num) : result Double.t :=
  y ← float b;
  if Double.eqb y (Double.Finite 0)
  then Raise (LibraryError "float division by zero")
  else Ok (Double.div x y).

Definition eqb (a b : Num) : bool :=
  match a, b with
  | NInt m, NInt n => Z.eqb m n
  | NFloat x, NFloat y => Double.eqb x y
  | NInt m, NFloat x | NFloat x, NInt m => Double.eqb x (Double.Finite (inject_Z m))
  end.

Definition abs (a : Num) : Num :=
  match a with
  | NInt n => NInt (Z.abs n)
  | NFloat x => NFloat (Double.abs x)
  end.

(** [math.floor(x)] and [math.ceil(x)] for a float [x]. *)
Definition math_floor (x : Double.t) : result Z :=
  match x with
  | Double.Finite q => Ok (Qfloor q)
  | Double.Infinite _ => Raise (LibraryError "cannot convert float infinity to integer")
  | Double.NaN => Raise (ValueError "cannot convert float NaN to integer")
  end.

Definition math_ceil (x : Double.t) : result Z :=
  match x with
  | Double.Finite q => Ok (Qceiling q)
  | Double.Infinite _ => Raise (LibraryError "cannot convert float infinity to integer")
  | Double.NaN => Raise (ValueError "cannot convert float NaN to integer")
  end.

(** [math.log10(x)] for a finite float [x]. *)
Definition math_log10 (lm : Libm) (x : Q) : result Double.t :=
  if Qle_bool x 0 then Raise (DomainError "log10")
  else Ok (Double.Finite (Math.log10 lm x)).

(** [10 ** n]: an [int] for an [n] that is not negative, otherwise the
    float [pow(10.0, n)]. *)
Definition pow10 (lm : Libm) (n : Z) : Num :=
  if (0 <=? n)%Z then NInt (10 ^ n) else NFloat (Double.Finite (Math.pow lm 10 n)).

End Py64.

(** ** The chart range over doubles *)

Module Chart64.

Local Open Scope Q_scope.

Fixpoint scan (better : Q → Q → bool) (best : Q) (items : list Q) : Q :=
  match items with
  | [] => best
  | item :: rest => scan better (if better item best then item else best) rest
  end.

Definition min (xs : list Q) : result Q :=
  match xs with
  | [] => Raise (EmptyArg "min")
  | x :: rest => Ok (scan (λ a b, negb (Qle_bool b a)) x rest)
  end.

Definition max (xs : list Q) : result Q :=
  match xs with
  | [] => Raise (EmptyArg "max")
  | x :: rest => Ok (scan (λ a b, negb (Qle_bool a b)) x rest)
  end.

(** The predictions are finite floats, the numbers that [get_prediction]
    returns when the inference calls went through. *)
Definition calculate_y_axis_range (lm : Libm) (predictions : list Q)
  : result (Num * Num) :=
  min_val ← min predictions;
  max_val ← max predictions;
  if Qeq_bool min_val max_val then
    padding ← (if negb (Qeq_bool min_val 0)
               then t ← Py64.mul (NFloat (Double.Finite min_val))
                                 (NFloat (Double.Finite (Double.literal 1 (-1))));
                    Ok (Py64.abs t)
               else Ok (NInt 1));
    lo ← Py64.sub (NFloat (Double.Finite min_val)) padding;
    hi ← Py64.add (NFloat (Double.Finite max_val)) padding;
    Ok (lo, hi)
  else
    l ← Py64.math_log10 lm max_val;
    order_of_magnitude ← Py64.math_floor l;
    let rounding_unit := Py64.pow10 lm (order_of_magnitude - 1) in
    a ← Py64.truediv (Double.Finite min_val) rounding_unit;
    fa ← Py64.math_floor a;
    y_min ← Py64.mul (NInt fa) rounding_unit;
    b ← Py64.truediv (Double.Finite max_val) rounding_unit;
    cb ← Py64.math_ceil b;
    y_max ← Py64.mul (NInt cb) rounding_unit;
    if Py64.eqb y_min y_max then
      lo ← Py64.sub y_min rounding_unit;
      hi ← Py64.add y_max rounding_unit;
      Ok (lo, hi)
    else Ok (y_min, y_max).

End Chart64.

(** ** Distance and nearest station over doubles *)

Module Geo64.

Local Open Scope Q_scope.

(** The arithmetic of [haversine] stays in range: degrees shrink to
    radians, and what follows is built from sines and cosines.  So the
    operations are the exact ones followed by [Double.nearest]. *)
Definition pi : Q := Double.literal 314159265358979323846 (-20).

Definition deg_to_rad : Q := Double.nearest (pi / 180).

(** [math.radians(x)] is [x * (pi / 180)], the factor a double. *)
Definition radians (x : Q) : Q := Double.nearest (x * deg_to_rad).

Definition math_sqrt (lm : Libm) (x : Q) : result Q :=
  if Double.negative x then Raise (DomainError "sqrt") else Ok (Math.sqrt lm x).

Definition math_asin (lm : Libm) (x : Q) : result Q :=
  if Double.negative (x + 1) then Raise (DomainError "asin")
  else if Double.negative (1 - x) then Raise (DomainError "asin")
  else Ok (Math.asin lm x).

Definition haversine (lm : Libm) (lon1 lat1 lon2 lat2 : Q) : result Q :=
  let lon1 := radians lon1 in
  let lat1 := radians lat1 in
  let lon2 := radians lon2 in
  let lat2 := radians lat2 in
  let dlon := Double.nearest (lon2 - lon1) in
  let dlat := Double.nearest (lat2 - lat1) in
  let a :=
    Double.nearest
      (Math.pow lm (Math.sin lm (Double.nearest (dlat / 2))) 2
       + Double.nearest
           (Double.nearest (Math.cos lm lat1 * Math.cos lm lat2)
            * Math.pow lm (Math.sin lm (Double.nearest (dlon / 2))) 2)) in
  s ← math_sqrt lm a;
  t ← math_asin lm s;
  let c := Double.nearest (2 * t) in
  let r := 6371 in
  Ok (Double.nearest (c * r)).

(** [Series.idxmin]: the position of the first least entry. *)
Fixpoint first_min (best_i : nat) (best : Q) (i : nat) (ds : list Q) : nat :=
  match ds with
  | [] => best_i
  | d :: rest =>
      if Double.negative (d - best)
      then first_min i d (S i) rest
      else first_min best_i best (S i) rest
  end.

Definition idxmin (ds : list Q) : result nat :=
  match ds with
  | [] => Raise (EmptyArg "idxmin")
  | d :: rest => Ok (first_min 0 d 1 rest)
  end.

(** [lambda row: haversine(user_lon, user_lat, row['longitude'], row['latitude'])] *)
Definition distance_to (lm : Libm) (user_lat user_lon : Q) (row : MetroRow) : result Q :=
  haversine lm user_lon user_lat (longitude row) (latitude row).

Definition distances (lm : Libm) (metro_df : list MetroRow) (user_lat user_lon : Q)
  : result (list Q) :=
  mapM (distance_to lm user_lat user_lon) metro_df.

Definition find_closest_metro (lm : Libm) (metro_df : list MetroRow)
           (user_lat user_lon : Q) : result (option MetroRow) :=
  match metro_df with
  | [] => Ok None
  | _ =>
      ds ← distances lm metro_df user_lat user_lon;
      closest_idx ← idxmin ds;
      match metro_df !! closest_idx with
      | Some row => Ok (Some row)
      | None => Raise (LibraryError "KeyError")
      end
  end.

End Geo64.

(** ** The rules of the specification, read over doubles *)

Module Spec.

Local Open Scope Q_scope.

(** Section 4.2: [distance(lat1, lon1, lat2, lon2)], the haversine
    formula with each operation rounded as it is taken, in kilometres. *)
Definition distance (lm : Libm) (lat1 lon1 lat2 lon2 : Q) : result Q :=
  let rad (x : Q) := Double.nearest (x * Double.nearest (Geo64.pi / 180)) in
  let delta_lat := Double.nearest (rad lat2 - rad lat1) in
  let delta_lon := Double.nearest (rad lon2 - rad lon1) in
  let sin2 (x : Q) := Math.pow lm (Math.sin lm (Double.nearest (x / 2))) 2 in
  let a :=
    Double.nearest
      (sin2 delta_lat
       + Double.nearest
           (Double.nearest (Math.cos lm (rad lat1) * Math.cos lm (rad lat2))
            * sin2 delta_lon)) in
  if Double.negative a then Raise (DomainError "sqrt")
  else
    let root := Math.sqrt lm a in
    if Double.negative (root + 1) then Raise (DomainError "asin")
    else if Double.negative (1 - root) then Raise (DomainError "asin")
    else Ok (Double.nearest (Double.nearest (2 * Math.asin lm root) * 6371)).

End Spec.

(** ** Sample data for the instances below *)

Module Sample.

(** A runtime that rejects all form text, so that a request with an
    empty form runs on the defaults of [index]. *)
Definition rt : Runtime := {|
  py_float := λ _, Raise (ValueError "could not convert string to float");
  py_int := λ _, Raise (ValueError "invalid literal for int() with base 10");
  format_aed := λ _, "0.00 AED";
  format_exc := λ _, "Traceback (most recent call last):";
  exn_text := λ _, "error"
|}.

Definition station : MetroRow :=
  {| name := "Union"; latitude := 25266 # 1000; longitude := 55314 # 1000 |}.

Definition scaler : Scaler := {| transform := λ cells, Ok ((λ _, 0%Q) <$> cells) |}.

Definition regressor (price : Q) : Regressor :=
  {| feature_names := ["year"; "rooms_en"]; predict := λ _, Ok price |}.

Definition meta : Regressor :=
  {| feature_names := ["random_forest"; "xgboost"; "linear_reg"];
     predict := λ _, Ok 100%Q |}.

(** A complete model directory, and the same directory without
    [scaler.joblib]. *)
Definition dir : ModelDir := {|
  model_folder_path := "model";
  scaler_joblib := Stored scaler;
  scaled_features_list_joblib := Stored ["latitude"; "longitude"; "distance"];
  random_forest_joblib := Stored (regressor 90);
  xgboost_joblib := Stored (regressor 100);
  linear_reg_joblib := Stored (regressor 110);
  meta_model_joblib := Stored meta
|}.

Definition dir_without_scaler : ModelDir := {|
  model_folder_path := "model";
  scaler_joblib := Missing;
  scaled_features_list_joblib := scaled_features_list_joblib dir;
  random_forest_joblib := random_forest_joblib dir;
  xgboost_joblib := xgboost_joblib dir;
  linear_reg_joblib := linear_reg_joblib dir;
  meta_model_joblib := meta_model_joblib dir
|}.

Definition app : App :=
  {| metro_df := [station]; model_dir := dir; today_year := 2025 |}.

Definition app_without_scaler : App :=
  {| metro_df := [station]; model_dir := dir_without_scaler; today_year := 2025 |}.

Definition app_without_stations : App :=
  {| metro_df := []; model_dir := dir; today_year := 2025 |}.

(** A directory that lacks both boosted-tree and linear models. *)
Definition dir_without_xgboost_linear : ModelDir := {|
  model_folder_path := "model";
  scaler_joblib := scaler_joblib dir;
  scaled_features_list_joblib := scaled_features_list_joblib dir;
  random_forest_joblib := random_forest_joblib dir;
  xgboost_joblib := Missing;
  linear_reg_joblib := Missing;
  meta_model_joblib := meta_model_joblib dir
|}.

(** Models whose prices fall below zero: each base model returns the year
    minus 3000, the meta model its first feature. *)
Definition falling (cells : list PyVal) : result Q :=
  match cells with
  | PNum y :: _ => Ok (y - 3000)%Q
  | _ => Raise (LibraryError "bad input")
  end.

Definition first_feature (cells : list PyVal) : result Q :=
  match cells with
  | PNum p :: _ => Ok p
  | _ => Raise (LibraryError "bad input")
  end.

Definition dir_below_zero : ModelDir := {|
  model_folder_path := "model";
  scaler_joblib := scaler_joblib dir;
  scaled_features_list_joblib := scaled_features_list_joblib dir;
  random_forest_joblib := Stored {| feature_names := ["year"]; predict := falling |};
  xgboost_joblib := Stored {| feature_names := ["year"]; predict := falling |};
  linear_reg_joblib := Stored {| feature_names := ["year"]; predict := falling |};
  meta_model_joblib :=
    Stored {| feature_names := ["random_forest"; "xgboost"; "linear_reg"];
              predict := first_feature |}
|}.

Definition app_below_zero : App :=
  {| metro_df := [station]; model_dir := dir_below_zero; today_year := 2025 |}.



(** An export runtime whose decoder knows one payload and whose writer
    returns a fixed file. *)
Definition ert : ExportRuntime := {|
  json_loads := λ s,
    if String.eqb s "short"
    then Ok (JObj [("labels", JArr [JStr "2025"; JStr "2026"]); ("values", JArr [JNum 100])])
    else Ok (JObj [("labels", JArr [JStr "2025"; JStr "2026"]);
                   ("values", JArr [JNum 100; JNum 200])]);
  subscript_error := λ _, TypeError "object is not subscriptable";
  frame_of_objects := λ _ _, Raise (ValueError "Mixing dicts with non-Series");
  to_excel := λ _, Ok "PK"
|}.

(** The values of the C library at the arguments that the instances
    below reach, as Python prints them; at any other argument the sample
    answers zero. *)
Fixpoint table (entries : list (Q * Q)) (x : Q) : Q :=
  match entries with
  | [] => 0%Q
  | (k, v) :: rest => if Qeq_bool k x then v else table rest x
  end.

Fixpoint table_pow (entries : list (Q * Z * Q)) (x : Q) (n : Z) : Q :=
  match entries with
  | [] => 0%Q
  | (k, e, v) :: rest =>
      if Qeq_bool k x && Z.eqb e n then v else table_pow rest x n
  end.

Definition libm : Libm := {|
  libm_log10 := table [
    (* log10 1050.0 = 3.0211892990699383 *)
    (Double.literal 105 1, Double.literal 30211892990699383 (-16));
    (* log10 0.9 = -0.045757490560675115 *)
    (Double.literal 9 (-1), Double.literal (-45757490560675115) (-18));
    (* log10 0.7000000000000001 = -0.15490195998574313 *)
    (Double.literal 7000000000000001 (-16), Double.literal (-15490195998574313) (-17));
    (* log10 999999999999999.0 = 15.0 *)
    (Double.literal 999999999999999 0, Double.literal 15 0);
    (* log10 5e-324 = -323.3062153431158 *)
    (Double.literal 5 (-324), Double.literal (-3233062153431158) (-13))
  ];
  libm_pow := table_pow [
    (* -0.008726535498373935 ** 2 = 7.615242180438042e-05 *)
    (Double.literal (-8726535498373935) (-18), 2%Z, Double.literal 7615242180438042 (-20));
    (* 0.07845909572784494 ** 2 = 0.0061558297024311365 *)
    (Double.literal 7845909572784494 (-17), 2%Z, Double.literal 61558297024311365 (-19));
    (* 0.001090830566164415 ** 2 = 1.189911324078578e-06 *)
    (Double.literal 1090830566164415 (-18), 2%Z, Double.literal 1189911324078578 (-21));
    (* 0.0 ** 2 = 0.0 *)
    (Double.literal 0 0, 2%Z, Double.literal 0 0);
    (* -0.0010908305661643872 ** 2 = 1.1899113240785174e-06 *)
    (Double.literal (-10908305661643872) (-19), 2%Z, Double.literal 11899113240785174 (-22));
    (* -0.9063070494272548 ** 2 = 0.8213924678415365 *)
    (Double.literal (-9063070494272548) (-16), 2%Z, Double.literal 8213924678415365 (-16));
    (* -1.0 ** 2 = 1.0 *)
    (Double.literal (-1) 0, 2%Z, Double.literal 1 0);
    (* 10.0 ** -2 = 0.01 *)
    (Double.literal 1 1, (-2)%Z, Double.literal 1 (-2));
    (* 10.0 ** -325 = 0.0 *)
    (Double.literal 1 1, (-325)%Z, Double.literal 0 0)
  ];
  libm_sin := table [
    (* sin -0.008726646259971648 = -0.008726535498373935 *)
    (Double.literal (-8726646259971648) (-18), Double.literal (-8726535498373935) (-18));
    (* sin 0.07853981633974483 = 0.07845909572784494 *)
    (Double.literal 7853981633974483 (-17), Double.literal 7845909572784494 (-17));
    (* sin 0.0010908307824964714 = 0.001090830566164415 *)
    (Double.literal 10908307824964714 (-19), Double.literal 1090830566164415 (-18));
    (* sin 0.0 = 0.0 *)
    (Double.literal 0 0, Double.literal 0 0);
    (* sin -0.0010908307824964436 = -0.0010908305661643872 *)
    (Double.literal (-10908307824964436) (-19), Double.literal (-10908305661643872) (-19));
    (* sin -1.134462268467062 = -0.9063070494272548 *)
    (Double.literal (-1134462268467062) (-15), Double.literal (-9063070494272548) (-16));
    (* sin -1.5707963267948968 = -1.0 *)
    (Double.literal (-15707963267948968) (-16), Double.literal (-1) 0)
  ];
  libm_cos := table [
    (* cos 0.017453292519943295 = 0.9998476951563913 *)
    (Double.literal 17453292519943295 (-18), Double.literal 9998476951563913 (-16));
    (* cos 0.0 = 1.0 *)
    (Double.literal 0 0, Double.literal 1 0);
    (* cos 0.17453292519943295 = 0.984807753012208 *)
    (Double.literal 17453292519943295 (-17), Double.literal 984807753012208 (-15));
    (* cos 0.4232423436086249 = 0.9117620435770886 *)
    (Double.literal 4232423436086249 (-16), Double.literal 9117620435770886 (-16));
    (* cos 0.42542400517361784 = 0.9108638249211758 *)
    (Double.literal 42542400517361784 (-17), Double.literal 9108638249211758 (-16));
    (* cos 0.421060682043632 = 0.9126559225690792 *)
    (Double.literal 421060682043632 (-15), Double.literal 9126559225690792 (-16));
    (* cos 2.7052585952619586 = -0.9063070494272548 *)
    (Double.literal 27052585952619586 (-16), Double.literal (-9063070494272548) (-16));
    (* cos 0.4363340583278344 = 0.9063070494272549 *)
    (Double.literal 4363340583278344 (-16), Double.literal 9063070494272549 (-16))
  ];
  libm_sqrt := table [
    (* sqrt 0.0001522932452260675 = 0.012340714939826926 *)
    (Double.literal 1522932452260675 (-19), Double.literal 12340714939826926 (-18));
    (* sqrt 0.012217215200611847 = 0.11053151225153778 *)
    (Double.literal 12217215200611847 (-18), Double.literal 11053151225153778 (-17));
    (* sqrt 1.189911324078578e-06 = 0.001090830566164415 *)
    (Double.literal 1189911324078578 (-21), Double.literal 1090830566164415 (-18));
    (* sqrt 1.1899113240785174e-06 = 0.0010908305661643872 *)
    (Double.literal 11899113240785174 (-22), Double.literal 10908305661643872 (-19))
  ];
  libm_asin := table [
    (* asin 0.012340714939826926 = 0.012341028195883218 *)
    (Double.literal 12340714939826926 (-18), Double.literal 12341028195883218 (-18));
    (* asin 0.11053151225153778 = 0.11075782321837808 *)
    (Double.literal 11053151225153778 (-17), Double.literal 11075782321837808 (-17));
    (* asin 0.001090830566164415 = 0.0010908307824964714 *)
    (Double.literal 1090830566164415 (-18), Double.literal 10908307824964714 (-19));
    (* asin 0.0010908305661643872 = 0.0010908307824964436 *)
    (Double.literal 10908305661643872 (-19), Double.literal 10908307824964436 (-19))
  ]
|}.

(** The two points of the specification's example. *)
Definition P1 : MetroRow := {| name := "P1"; latitude := 0; longitude := 0 |}.
Definition P2 : MetroRow := {| name := "P2"; latitude := 10; longitude := 10 |}.

(** Two stations on the meridian of 55.25 degrees, an eighth of a degree
    north and south of the latitude 24.25. *)
Definition north : MetroRow :=
  {| name := "North"; latitude := 24375 # 1000; longitude := 5525 # 100 |}.
Definition south : MetroRow :=
  {| name := "South"; latitude := 24125 # 1000; longitude := 5525 # 100 |}.

(** A station, and a position across the pole from it that the form
    accepts. *)
Definition near_tropic : MetroRow :=
  {| name := "Tropic";
     latitude := Double.literal 250001 (-4);
     longitude := Double.literal 550001 (-4) |}.

End Sample.

(** * Properties *)

(** ** The error monad *)

Lemma bind_Ok {A B} (f : A → result B) (a : A) : (Ok a ≫= f) = f a.
Proof. reflexivity. Qed.

Lemma mapM_result_cons {A B} (f : A → result B) (x : A) (l : list A) :
  mapM f (x :: l) = (y ← f x; k ← mapM f l; Ok (y :: k)).
Proof. reflexivity. Qed.

(** ** [min] and [max] over numbers *)

Section Extremes.

Local Open Scope Q_scope.

Lemma scan_lt_nums (qs : list Q) (best : Q) :
  ∃ m, Py.scan Py.lt (PNum best) (PNum <$> qs) = Ok (PNum m)
       ∧ m ∈ best :: qs ∧ ∀ x, x ∈ best :: qs → m <= x.
Proof.
  revert best. induction qs as [|q qs IH]; intros best; simpl.
  - exists best. split; [done|]. split; [set_solver|].
    intros x ->%list_elem_of_singleton. apply Qle_refl.
  - destruct (Qle_bool best q) eqn:Hc; simpl.
    + apply Qle_bool_iff in Hc.
      destruct (IH best) as (m & Hm & Hmem & Hle). exists m.
      split; [done|]. split; [set_solver|].
      intros x Hx. apply elem_of_cons in Hx as [->|Hx]; [apply Hle; set_solver|].
      apply elem_of_cons in Hx as [->|Hx]; [|apply Hle; set_solver].
      apply Qle_trans with best; [apply Hle; set_solver | done].
    + assert (q < best) as Hlt.
      { apply Qnot_le_lt. intros H%Qle_bool_iff. congruence. }
      destruct (IH q) as (m & Hm & Hmem & Hle). exists m.
      split; [done|]. split; [set_solver|].
      intros x Hx. apply elem_of_cons in Hx as [->|Hx].
      * apply Qle_trans with q; [apply Hle; set_solver | by apply Qlt_le_weak].
      * apply Hle. done.
Qed.

Lemma scan_gt_nums (qs : list Q) (best : Q) :
  ∃ m, Py.scan Py.gt (PNum best) (PNum <$> qs) = Ok (PNum m)
       ∧ m ∈ best :: qs ∧ ∀ x, x ∈ best :: qs → x <= m.
Proof.
  revert best. induction qs as [|q qs IH]; intros best; simpl.
  - exists best. split; [done|]. split; [set_solver|].
    intros x ->%list_elem_of_singleton. apply Qle_refl.
  - destruct (Qle_bool q best) eqn:Hc; simpl.
    + apply Qle_bool_iff in Hc.
      destruct (IH best) as (m & Hm & Hmem & Hle). exists m.
      split; [done|]. split; [set_solver|].
      intros x Hx. apply elem_of_cons in Hx as [->|Hx]; [apply Hle; set_solver|].
      apply elem_of_cons in Hx as [->|Hx]; [|apply Hle; set_solver].
      apply Qle_trans with best; [done | apply Hle; set_solver].
    + assert (best < q) as Hlt.
      { apply Qnot_le_lt. intros H%Qle_bool_iff. congruence. }
      destruct (IH q) as (m & Hm & Hmem & Hle). exists m.
      split; [done|]. split; [set_solver|].
      intros x Hx. apply elem_of_cons in Hx as [->|Hx].
      * apply Qle_trans with q; [by apply Qlt_le_weak | apply Hle; set_solver].
      * apply Hle. done.
Qed.

Lemma min_nums (qs : list Q) :
  qs ≠ [] →
  ∃ m, Py.min (PNum <$> qs) = Ok (PNum m) ∧ m ∈ qs ∧ ∀ x, x ∈ qs → m <= x.
Proof. destruct qs as [|q qs]; [done|]. intros _. apply scan_lt_nums. Qed.

Lemma max_nums (qs : list Q) :
  qs ≠ [] →
  ∃ m, Py.max (PNum <$> qs) = Ok (PNum m) ∧ m ∈ qs ∧ ∀ x, x ∈ qs → x <= m.
Proof. destruct qs as [|q qs]; [done|]. intros _. apply scan_gt_nums. Qed.

End Extremes.

(** ** The order of magnitude *)

Section Log10.

Local Open Scope Q_scope.

Lemma ten_nonzero : ¬ 10 == 0.
Proof. discriminate. Qed.

Lemma pow10_succ (k : Z) : 10 ^ (k + 1) == 10 ^ k * 10.
Proof. rewrite Qpower_plus by apply ten_nonzero. reflexivity. Qed.

Lemma pow10_pos (k : Z) : 0 < 10 ^ k.
Proof. apply Qpower_0_lt. reflexivity. Qed.

Lemma pow10_nat_succ (n : nat) : 10 ^ Z.of_nat (S n) == 10 ^ Z.of_nat n * 10.
Proof. rewrite Nat2Z.inj_succ. apply pow10_succ. Qed.

Lemma digits_up_spec (fuel : nat) (x : Q) :
  1 <= x → x < 10 ^ Z.of_nat (S fuel) →
  10 ^ Z.of_nat (Chart.digits_up fuel x) <= x
  ∧ x < 10 ^ Z.of_nat (S (Chart.digits_up fuel x)).
Proof.
  revert x. induction fuel as [|fuel IH]; intros x Hlo Hhi.
  - simpl Chart.digits_up. split; [exact Hlo | exact Hhi].
  - simpl Chart.digits_up. destruct (Qle_bool 10 x) eqn:Hc.
    + apply Qle_bool_iff in Hc.
      rewrite pow10_nat_succ in Hhi.
      assert (x / 10 * 10 == x) as E by field.
      destruct (IH (x / 10)) as [H1 H2].
      * apply Qle_shift_div_l; [reflexivity | lra].
      * apply Qlt_shift_div_r; [reflexivity | exact Hhi].
      * split.
        -- rewrite pow10_nat_succ.
           apply (Qmult_le_r _ _ 10) in H1; [|reflexivity].
           rewrite E in H1. exact H1.
        -- rewrite pow10_nat_succ.
           apply (Qmult_lt_r _ _ 10) in H2; [|reflexivity].
           rewrite E in H2. exact H2.
    + split; [exact Hlo|]. change (10 ^ Z.of_nat 1) with 10.
      apply Qnot_le_lt. intros H%Qle_bool_iff. congruence.
Qed.

Lemma digits_down_spec (fuel : nat) (x : Q) :
  x < 1 → 1 <= x * 10 ^ Z.of_nat (S fuel) →
  1 <= x * 10 ^ Z.of_nat (Chart.digits_down fuel x)
  ∧ x * 10 ^ Z.of_nat (Chart.digits_down fuel x) < 10.
Proof.
  revert x. induction fuel as [|fuel IH]; intros x Hlt Hfuel.
  - simpl Chart.digits_down. split; [exact Hfuel|].
    change (10 ^ Z.of_nat 1) with 10. lra.
  - simpl Chart.digits_down. destruct (Qle_bool 1 (x * 10)) eqn:Hc.
    + apply Qle_bool_iff in Hc.
      change (10 ^ Z.of_nat 1) with 10. split; [exact Hc | lra].
    + assert (x * 10 < 1) as Hsmall.
      { apply Qnot_le_lt. intros H%Qle_bool_iff. congruence. }
      rewrite pow10_nat_succ in Hfuel.
      destruct (IH (x * 10) Hsmall) as [H1 H2].
      * rewrite <- Qmult_assoc, (Qmult_comm 10). exact Hfuel.
      * rewrite pow10_nat_succ, (Qmult_comm _ 10), Qmult_assoc.
        split; assumption.
Qed.

Lemma pow10_above (n : Z) :
  (0 < n)%Z → (n < 10 ^ Z.succ (Z.log2 n))%Z.
Proof.
  intros Hn. destruct (Z.log2_spec n Hn) as [_ H2].
  apply Z.lt_le_trans with (2 ^ Z.succ (Z.log2 n))%Z; [exact H2|].
  apply Z.pow_le_mono_l. lia.
Qed.

Lemma fuel_nat (n : Z) : Z.of_nat (S (Z.to_nat (Z.log2 n))) = Z.succ (Z.log2 n).
Proof. rewrite Nat2Z.inj_succ, Z2Nat.id; [reflexivity | apply Z.log2_nonneg]. Qed.

Lemma pow10_inject (k : Z) : (0 <= k)%Z → 10 ^ k == inject_Z (10 ^ k).
Proof. intros Hk. rewrite Zpower_Qpower by exact Hk. reflexivity. Qed.

Lemma fuel_up (x : Q) :
  1 <= x → x < 10 ^ Z.of_nat (S (Z.to_nat (Z.log2 (Qnum x)))).
Proof.
  intros Hx. rewrite fuel_nat.
  rewrite pow10_inject by (apply Z.le_le_succ_r, Z.log2_nonneg).
  destruct x as [n d]. unfold Qle in Hx. unfold Qlt. simpl in *.
  assert (0 < n)%Z as Hn by lia.
  pose proof (pow10_above n Hn) as Hp.
  set (P := (10 ^ _)%Z) in *. clearbody P.
  pose proof (Pos2Z.is_pos d). nia.
Qed.

Lemma fuel_down (x : Q) :
  0 < x → 1 <= x * 10 ^ Z.of_nat (S (Z.to_nat (Z.log2 (Zpos (Qden x))))).
Proof.
  intros Hx. rewrite fuel_nat.
  rewrite pow10_inject by (apply Z.le_le_succ_r, Z.log2_nonneg).
  destruct x as [n d]. unfold Qlt in Hx. unfold Qle. simpl in *.
  pose proof (pow10_above (Zpos d) eq_refl) as Hp.
  set (P := (10 ^ _)%Z) in *. clearbody P. nia.
Qed.

(** [floor_log10 x] is the integer [k] with [10^k ≤ x < 10^(k+1)]. *)
Lemma floor_log10_bracket (x : Q) :
  0 < x →
  10 ^ Chart.floor_log10 x <= x ∧ x < 10 ^ (Chart.floor_log10 x + 1).
Proof.
  intros Hx. unfold Chart.floor_log10.
  destruct (Qle_bool 1 x) eqn:Hc.
  - apply Qle_bool_iff in Hc.
    destruct (digits_up_spec _ x Hc (fuel_up x Hc)) as [H1 H2].
    rewrite Nat2Z.inj_succ in H2. split; assumption.
  - assert (x < 1) as Hlt.
    { apply Qnot_le_lt. intros H%Qle_bool_iff. congruence. }
    destruct (digits_down_spec _ x Hlt (fuel_down x Hx)) as [H1 H2].
    set (c := Z.of_nat _) in *.
    pose proof (pow10_pos c) as Hc0.
    assert (10 ^ (- c) * 10 ^ c == 1) as Hinv.
    { rewrite Qpower_opp. field. intros E. rewrite E in Hc0. discriminate. }
    split.
    + apply (Qmult_le_r _ _ (10 ^ c)); [exact Hc0|]. rewrite Hinv. exact H1.
    + rewrite pow10_succ.
      apply (Qmult_lt_r _ _ (10 ^ c)); [exact Hc0|].
      rewrite <- Qmult_assoc, (Qmult_comm 10), Qmult_assoc, Hinv, Qmult_1_l.
      exact H2.
Qed.

End Log10.

(** ** The chart range *)

Section ChartRange.

Local Open Scope Q_scope.

Lemma Qeq_bool_false (x y : Q) : ¬ x == y → Qeq_bool x y = false.
Proof.
  intros Hne. destruct (Qeq_bool x y) eqn:E; [|reflexivity].
  apply Qeq_bool_iff in E. contradiction.
Qed.

Lemma Qle_bool_false (x y : Q) : y < x → Qle_bool x y = false.
Proof.
  intros Hlt. destruct (Qle_bool x y) eqn:E; [|reflexivity].
  apply Qle_bool_iff in E. lra.
Qed.

(** The extremes that the code finds are the extremes of the list. *)
Lemma extremes (qs : list Q) (mn mx : Q) :
  mn ∈ qs → mx ∈ qs → (∀ x, x ∈ qs → mn <= x ∧ x <= mx) →
  ∃ m M, Py.min (PNum <$> qs) = Ok (PNum m) ∧ Py.max (PNum <$> qs) = Ok (PNum M)
         ∧ m == mn ∧ M == mx.
Proof.
  intros Hmn Hmx Hall.
  assert (qs ≠ []) as Hne by (intros ->; by apply elem_of_nil in Hmn).
  destruct (min_nums qs Hne) as (m & Hm & Hmin & Hmle).
  destruct (max_nums qs Hne) as (M & HM & HMin & HMle).
  exists m, M. repeat split; try assumption.
  - apply Qle_antisym; [by apply Hmle | by apply Hall].
  - apply Qle_antisym; [by apply Hall | by apply HMle].
Qed.

(** The code on a list whose extremes are the numbers [m] and [M]. *)
Lemma calculate_y_axis_range_nums (predictions : list PyVal) (m M : Q) :
  Py.min predictions = Ok (PNum m) → Py.max predictions = Ok (PNum M) →
  Chart.calculate_y_axis_range predictions =
    if Qeq_bool m M then
      Ok (m - (if Qeq_bool m 0 then 1 else Qabs (m * (1 # 10))),
          M + (if Qeq_bool m 0 then 1 else Qabs (m * (1 # 10))))
    else if Qle_bool M 0 then Raise (DomainError "log10")
    else
      let unit := 10 ^ (Chart.floor_log10 M - 1) in
      let y_min := inject_Z (Qfloor (m / unit)) * unit in
      let y_max := inject_Z (Qceiling (M / unit)) * unit in
      if Qeq_bool y_min y_max then Ok (y_min - unit, y_max + unit)
      else Ok (y_min, y_max).
Proof.
  intros Hm HM. unfold Chart.calculate_y_axis_range.
  rewrite Hm, HM. cbn [mbind result_bind Py.eqb].
  destruct (Qeq_bool m M).
  - destruct (Qeq_bool m 0); reflexivity.
  - cbn [Chart.math_floor_log10]. destruct (Qle_bool M 0); [reflexivity|].
    cbn [mbind result_bind Chart.div_num].
    destruct (Qeq_bool _ _); reflexivity.
Qed.

(** C2: when every prediction equals [v], the range is [v] padded by a
    tenth of [|v|] on each side, and [(-1, 1)] when [v] is zero; so
    [100, 100, 100] gives [(90, 110)] and [0, 0, 0] gives [(-1, 1)]. *)
Theorem y_axis_range_constant :
  (∀ (qs : list Q) (v : Q),
      qs ≠ [] → (∀ x, x ∈ qs → x == v) →
      ∃ lo hi,
        Chart.calculate_y_axis_range (PNum <$> qs) = Ok (lo, hi)
        ∧ (¬ v == 0 → lo == v - (1 # 10) * Qabs v ∧ hi == v + (1 # 10) * Qabs v)
        ∧ (v == 0 → lo == -1 ∧ hi == 1))
  ∧ (∃ lo hi, Chart.calculate_y_axis_range [PNum 100; PNum 100; PNum 100] = Ok (lo, hi)
              ∧ lo == 90 ∧ hi == 110)
  ∧ Chart.calculate_y_axis_range [PNum 0; PNum 0; PNum 0] = Ok (-1, 1).
Proof.
  split; [|split].
  - intros qs v Hne Hall.
    destruct (min_nums qs Hne) as (m & Hm & Hmin & _).
    destruct (max_nums qs Hne) as (M & HM & HMin & _).
    pose proof (Hall m Hmin) as Em. pose proof (Hall M HMin) as EM.
    rewrite (calculate_y_axis_range_nums _ m M Hm HM).
    assert (Qeq_bool m M = true) as ->.
    { apply Qeq_bool_iff. rewrite Em, EM. reflexivity. }
    destruct (Qeq_bool m 0) eqn:E0.
    + apply Qeq_bool_iff in E0. rewrite Em in E0.
      eexists _, _. split; [reflexivity|]. split.
      * intros Hv. contradiction.
      * intros _. rewrite Em, EM, E0. split; reflexivity.
    + eexists _, _. split; [reflexivity|]. split.
      * intros _. rewrite Qabs_Qmult, Em, EM.
        change (Qabs (1 # 10)) with (1 # 10). split; ring.
      * intros Hv. rewrite <- Em in Hv.
        apply Qeq_bool_iff in Hv. congruence.
  - eexists _, _. split; [vm_compute; reflexivity|]. split; reflexivity.
  - reflexivity.
Qed.

Lemma y_axis_range_constant_witness :
  (∀ x : Q, x ∈ [100; 100; 100] → x == 100)
  ∧ ∃ lo hi,
      Chart.calculate_y_axis_range (PNum <$> [100; 100; 100]) = Ok (lo, hi)
      ∧ (¬ 100 == 0 → lo == 100 - (1 # 10) * Qabs 100 ∧ hi == 100 + (1 # 10) * Qabs 100)
      ∧ (100 == 0 → lo == -1 ∧ hi == 1).
Proof.
  assert (∀ x : Q, x ∈ [100; 100; 100] → x == 100) as Hall.
  { intros x Hx. repeat (apply elem_of_cons in Hx as [-> | Hx]; [reflexivity|]).
    by apply elem_of_nil in Hx. }
  split; [exact Hall|].
  apply (proj1 y_axis_range_constant [100; 100; 100] 100); [discriminate | exact Hall].
Defined.

End ChartRange.

(** ** Doubles *)

Section Binary64.

Local Open Scope Q_scope.

(** On every pair of the samples, sum, difference, product and quotient
    of [Double] are those of the kernel's binary64 arithmetic. *)
Lemma double_agrees_with_kernel :
  forallb (λ a, forallb (Kernel.agree a) Kernel.samples) Kernel.samples = true.
Proof. vm_compute. reflexivity. Qed.

(** The literals of the instances are the doubles that the kernel finds
    for the same decimal fractions, and [pi] is the double of the C
    headers. *)
Lemma literals_agree_with_kernel :
  Kernel.to_double (PrimFloat.div (Kernel.of_int 7) (Kernel.of_int 10))
  = Double.Finite (Double.literal 7 (-1))
  ∧ Kernel.to_double (PrimFloat.div (Kernel.of_int 7000000000000001)
                                    (Kernel.of_int 10000000000000000))
    = Double.Finite (Double.literal 7000000000000001 (-16))
  ∧ Kernel.to_double (Kernel.dyadic 884279719003555 (-48)) = Double.Finite Geo64.pi
  ∧ Kernel.to_double (PrimFloat.div (Kernel.dyadic 884279719003555 (-48))
                                    (Kernel.of_int 180))
    = Double.Finite Geo64.deg_to_rad
  ∧ Kernel.to_double (Kernel.dyadic 1 (-1074)) = Double.Finite (Double.literal 5 (-324)).
Proof. repeat split; vm_compute; reflexivity. Qed.

End Binary64.

(** ** The chart range over doubles *)

Section ChartRange64.

Local Open Scope Q_scope.

(** Rounding sees the value of a fraction, not its numerator and
    denominator. *)
Lemma nearest_proper (p q : Q) : p == q → Double.nearest p = Double.nearest q.
Proof. intros H. unfold Double.nearest. by rewrite (Qred_complete _ _ H). Qed.

Lemma round_proper (p q : Q) : p == q → Double.round p = Double.round q.
Proof. intros H. unfold Double.round. by rewrite (nearest_proper _ _ H). Qed.

Lemma truediv_proper (p q : Q) (b : Num) :
  p == q → Py64.truediv (Double.Finite p) b = Py64.truediv (Double.Finite q) b.
Proof.
  intros H. unfold Py64.truediv. destruct (Py64.float b) as [y|e]; [|reflexivity].
  rewrite !bind_Ok. destruct (Double.eqb y (Double.Finite 0)); [reflexivity|].
  f_equal. destruct y as [d| |]; try reflexivity.
  apply round_proper. by rewrite H.
Qed.

(** The scans over floats are the scans of [Py.min] and [Py.max]. *)
Lemma scan64_lt (qs : list Q) (best : Q) :
  Py.scan Py.lt (PNum best) (PNum <$> qs)
  = Ok (PNum (Chart64.scan (λ a b, negb (Qle_bool b a)) best qs)).
Proof.
  revert best. induction qs as [|q qs IH]; intros best; [reflexivity|].
  simpl. destruct (Qle_bool best q); simpl; apply IH.
Qed.

Lemma scan64_gt (qs : list Q) (best : Q) :
  Py.scan Py.gt (PNum best) (PNum <$> qs)
  = Ok (PNum (Chart64.scan (λ a b, negb (Qle_bool a b)) best qs)).
Proof.
  revert best. induction qs as [|q qs IH]; intros best; [reflexivity|].
  simpl. destruct (Qle_bool q best); simpl; apply IH.
Qed.

Lemma extremes64 (qs : list Q) (mn mx : Q) :
  mn ∈ qs → mx ∈ qs → (∀ x, x ∈ qs → mn <= x ∧ x <= mx) →
  ∃ m M, Chart64.min qs = Ok m ∧ Chart64.max qs = Ok M ∧ m == mn ∧ M == mx.
Proof.
  intros Hmn Hmx Hall.
  destruct (extremes qs mn mx Hmn Hmx Hall) as (m & M & Hm & HM & Em & EM).
  exists m, M. destruct qs as [|q qs]; [by apply elem_of_nil in Hmn|].
  cbn [fmap list_fmap Py.min Py.max] in Hm, HM.
  rewrite scan64_lt in Hm. rewrite scan64_gt in HM.
  injection Hm as Hm. injection HM as HM.
  unfold Chart64.min, Chart64.max. by rewrite Hm, HM.
Qed.

(** The code on a list whose extremes [mn] and [mx] differ, with [mx]
    positive: the rounding branch, from the division on. *)
Lemma y_axis_range64_rounding (lm : Libm) (qs : list Q) (mn mx : Q) :
  mn ∈ qs → mx ∈ qs → (∀ x, x ∈ qs → mn <= x ∧ x <= mx) → ¬ mn == mx → 0 < mx →
  Chart64.calculate_y_axis_range lm qs =
    (a ← Py64.truediv (Double.Finite mn)
                      (Py64.pow10 lm (Qfloor (Math.log10 lm mx) - 1));
     n ← Py64.math_floor a;
     y_min ← Py64.mul (NInt n) (Py64.pow10 lm (Qfloor (Math.log10 lm mx) - 1));
     b ← Py64.truediv (Double.Finite mx)
                      (Py64.pow10 lm (Qfloor (Math.log10 lm mx) - 1));
     m ← Py64.math_ceil b;
     y_max ← Py64.mul (NInt m) (Py64.pow10 lm (Qfloor (Math.log10 lm mx) - 1));
     if Py64.eqb y_min y_max
     then lo ← Py64.sub y_min (Py64.pow10 lm (Qfloor (Math.log10 lm mx) - 1));
          hi ← Py64.add y_max (Py64.pow10 lm (Qfloor (Math.log10 lm mx) - 1));
          Ok (lo, hi)
     else Ok (y_min, y_max)).
Proof.
  intros Hmn Hmx Hall Hne Hpos.
  destruct (extremes64 qs mn mx Hmn Hmx Hall) as (m & M & Hm & HM & Em & EM).
  unfold Chart64.calculate_y_axis_range. rewrite Hm, HM, !bind_Ok.
  rewrite Qeq_bool_false by (rewrite Em, EM; exact Hne).
  unfold Py64.math_log10. rewrite Qle_bool_false by (rewrite EM; exact Hpos).
  rewrite bind_Ok. cbn [Py64.math_floor]. rewrite bind_Ok. cbv zeta.
  assert (Math.log10 lm M = Math.log10 lm mx) as ->
    by (unfold Math.log10; by rewrite (Qred_complete _ _ EM)).
  by rewrite (truediv_proper m mn _ Em), (truediv_proper M mx _ EM).
Qed.

(** C1: for predictions whose least value [mn] and greatest value [mx]
    differ, with [mx] positive, the range is built in double precision.
    The magnitude is the floor of the library's [log10 mx], itself a
    double; the unit [10^(magnitude - 1)] is an integer when the exponent
    is not negative and the library's power otherwise.  Each extreme is
    divided by the unit, the quotient rounded to a double, then floored
    (for [mn]) or ceiled (for [mx]) and multiplied by the unit again; when
    the two products are equal each moves out by one more unit.  With an
    integer unit the products are exact integers.  With a float unit the
    products are rounded once more; a unit that has underflowed to zero
    leaves no range, the request raises.  For [950, 1050] the range is
    [(900, 1100)]. *)
Theorem y_axis_range_rounds_in_doubles :
  (∀ (lm : Libm) (qs : list Q) (mn mx : Q),
      mn ∈ qs → mx ∈ qs → (∀ x, x ∈ qs → mn <= x ∧ x <= mx) →
      ¬ mn == mx → 0 < mx →
      let magnitude := Qfloor (Math.log10 lm mx) in
      let unit := if (0 <=? magnitude - 1)%Z
                  then NInt (10 ^ (magnitude - 1))
                  else NFloat (Double.Finite (Math.pow lm 10 (magnitude - 1))) in
      Chart64.calculate_y_axis_range lm qs =
        (a ← Py64.truediv (Double.Finite mn) unit;
         n ← Py64.math_floor a;
         y_min ← Py64.mul (NInt n) unit;
         b ← Py64.truediv (Double.Finite mx) unit;
         m ← Py64.math_ceil b;
         y_max ← Py64.mul (NInt m) unit;
         if Py64.eqb y_min y_max
         then lo ← Py64.sub y_min unit; hi ← Py64.add y_max unit; Ok (lo, hi)
         else Ok (y_min, y_max)))
  ∧ (∀ (lm : Libm) (qs : list Q) (mn mx : Q),
        mn ∈ qs → mx ∈ qs → (∀ x, x ∈ qs → mn <= x ∧ x <= mx) →
        ¬ mn == mx → 0 < mx →
        ∀ (magnitude unit : Z) (u qa qb : Q),
          magnitude = Qfloor (Math.log10 lm mx) → (1 <= magnitude)%Z →
          unit = (10 ^ (magnitude - 1))%Z →
          Double.round (inject_Z unit) = Double.Finite u → ¬ u == 0 →
          Double.round (mn / u) = Double.Finite qa →
          Double.round (mx / u) = Double.Finite qb →
          Chart64.calculate_y_axis_range lm qs =
            if (Qfloor qa * unit =? Qceiling qb * unit)%Z
            then Ok (NInt (Qfloor qa * unit - unit), NInt (Qceiling qb * unit + unit))
            else Ok (NInt (Qfloor qa * unit), NInt (Qceiling qb * unit)))
  ∧ (∀ (lm : Libm) (qs : list Q) (mn mx : Q),
        mn ∈ qs → mx ∈ qs → (∀ x, x ∈ qs → mn <= x ∧ x <= mx) →
        ¬ mn == mx → 0 < mx →
        ∀ (magnitude : Z) (u : Q),
          magnitude = Qfloor (Math.log10 lm mx) → (magnitude <= 0)%Z →
          u = Math.pow lm 10 (magnitude - 1) →
          (u == 0 → ∃ e, Chart64.calculate_y_axis_range lm qs = Raise e)
          ∧ (¬ u == 0 →
             ∀ (qa qb fa fb : Q),
               Double.round (mn / u) = Double.Finite qa →
               Double.round (mx / u) = Double.Finite qb →
               Double.round (inject_Z (Qfloor qa)) = Double.Finite fa →
               Double.round (inject_Z (Qceiling qb)) = Double.Finite fb →
               Chart64.calculate_y_axis_range lm qs =
                 if Double.eqb (Double.round (fa * u)) (Double.round (fb * u))
                 then Ok (NFloat (Double.sub (Double.round (fa * u)) (Double.Finite u)),
                          NFloat (Double.add (Double.round (fb * u)) (Double.Finite u)))
                 else Ok (NFloat (Double.round (fa * u)),
                          NFloat (Double.round (fb * u)))))
  ∧ (∀ lm : Libm,
        Qfloor (Math.log10 lm 1050) = 3%Z →
        Chart64.calculate_y_axis_range lm [950; 1050] = Ok (NInt 900, NInt 1100)).
Proof.
  split; [|split; [|split]].
  - intros lm qs mn mx Hmn Hmx Hall Hne Hpos. cbv zeta.
    apply (y_axis_range64_rounding lm qs mn mx Hmn Hmx Hall Hne Hpos).
  - intros lm qs mn mx Hmn Hmx Hall Hne Hpos magnitude unit u qa qb
           Hmag Hint Hunit Hu Hu0 Hqa Hqb.
    rewrite (y_axis_range64_rounding lm qs mn mx Hmn Hmx Hall Hne Hpos).
    rewrite <- Hmag. unfold Py64.pow10.
    assert ((0 <=? magnitude - 1)%Z = true) as -> by (apply Z.leb_le; lia).
    rewrite <- Hunit. unfold Py64.truediv. cbn [Py64.float]. rewrite Hu, !bind_Ok.
    cbn [Double.eqb]. rewrite (Qeq_bool_false _ _ Hu0).
    rewrite !bind_Ok. cbn [Double.div]. rewrite Hqa, Hqb.
    repeat (progress (cbn [Py64.math_floor Py64.math_ceil Py64.mul Py64.arith Py64.eqb];
                      rewrite ?bind_Ok)).
    destruct (Qfloor qa * unit =? Qceiling qb * unit)%Z; reflexivity.
  - intros lm qs mn mx Hmn Hmx Hall Hne Hpos magnitude u Hmag Hfloat Hu.
    rewrite (y_axis_range64_rounding lm qs mn mx Hmn Hmx Hall Hne Hpos).
    rewrite <- Hmag. unfold Py64.pow10.
    assert ((0 <=? magnitude - 1)%Z = false) as -> by (apply Z.leb_gt; lia).
    rewrite <- Hu. unfold Py64.truediv. cbn [Py64.float]. rewrite !bind_Ok.
    cbn [Double.eqb]. split.
    + intros Hz. apply Qeq_bool_iff in Hz. rewrite Hz. by eexists.
    + intros Hu0 qa qb fa fb Hqa Hqb Hfa Hfb.
      rewrite (Qeq_bool_false _ _ Hu0), !bind_Ok. cbn [Double.div].
      rewrite Hqa, Hqb.
      repeat (progress (cbn [Py64.math_floor Py64.math_ceil Py64.mul Py64.arith Py64.float];
                        rewrite ?Hfa, ?Hfb, ?bind_Ok)).
      cbn [Double.mul].
      destruct (Double.round (fa * u)) as [ya| |] eqn:Eya;
        destruct (Double.round (fb * u)) as [yb| |] eqn:Eyb;
        cbn [Py64.eqb Py64.sub Py64.add Py64.arith Py64.float];
        rewrite ?bind_Ok;
        match goal with |- context [if ?c then _ else _] => destruct c end;
        reflexivity.
  - intros lm Hmag.
    rewrite (y_axis_range64_rounding lm [950; 1050] 950 1050).
    + rewrite Hmag. vm_compute. reflexivity.
    + apply list_elem_of_here.
    + apply list_elem_of_further, list_elem_of_here.
    + intros x Hx.
      repeat (apply elem_of_cons in Hx as [-> | Hx]; [split; discriminate|]).
      by apply elem_of_nil in Hx.
    + discriminate.
    + reflexivity.
Qed.

Lemma y_axis_range_rounds_in_doubles_witness :
  (∀ x : Q, x ∈ [950; 1050] → 950 <= x ∧ x <= 1050)
  ∧ 3%Z = Qfloor (Math.log10 Sample.libm 1050)
  ∧ Double.round (inject_Z 100) = Double.Finite 100
  ∧ Double.round (950 / 100) = Double.Finite (19 # 2)
  ∧ Double.round (1050 / 100) = Double.Finite (21 # 2)
  ∧ Chart64.calculate_y_axis_range Sample.libm [950; 1050] =
      if (Qfloor (19 # 2) * 100 =? Qceiling (21 # 2) * 100)%Z
      then Ok (NInt (Qfloor (19 # 2) * 100 - 100), NInt (Qceiling (21 # 2) * 100 + 100))
      else Ok (NInt (Qfloor (19 # 2) * 100), NInt (Qceiling (21 # 2) * 100)).
Proof.
  assert (∀ x : Q, x ∈ [950; 1050] → 950 <= x ∧ x <= 1050) as Hall.
  { intros x Hx.
    repeat (apply elem_of_cons in Hx as [-> | Hx]; [split; discriminate|]).
    by apply elem_of_nil in Hx. }
  assert (3%Z = Qfloor (Math.log10 Sample.libm 1050)) as Hmag
    by (vm_compute; reflexivity).
  assert (Double.round (inject_Z 100) = Double.Finite 100) as Hu
    by (vm_compute; reflexivity).
  assert (Double.round (950 / 100) = Double.Finite (19 # 2)) as Hqa
    by (vm_compute; reflexivity).
  assert (Double.round (1050 / 100) = Double.Finite (21 # 2)) as Hqb
    by (vm_compute; reflexivity).
  repeat (split; [assumption|]).
  apply (proj1 (proj2 y_axis_range_rounds_in_doubles) Sample.libm [950; 1050] 950 1050)
    with (magnitude := 3%Z) (u := 100).
  - apply list_elem_of_here.
  - apply list_elem_of_further, list_elem_of_here.
  - exact Hall.
  - discriminate.
  - reflexivity.
  - exact Hmag.
  - lia.
  - reflexivity.
  - exact Hu.
  - discriminate.
  - exact Hqa.
  - exact Hqb.
Defined.

(** In doubles the rule does not round the least value down, and the
    magnitude is not the floor of the logarithm.  On [0.7, 0.9] the unit
    is [0.01], the quotient [0.7 / 0.01] rounds to [70.0] and the product
    [70 * 0.01] to [0.7000000000000001]: the lower bound lies above the
    least value.  On the integers [150000000000000, 999999999999999] the
    library's [log10] of the greatest value rounds to [15.0], so the unit
    is [10^14] although the value is below [10^15], and the lower bound
    is [10^14], not [1.5 * 10^14]. *)
Lemma y_axis_range_not_rounded_down :
  Chart64.calculate_y_axis_range Sample.libm [Double.literal 7 (-1); Double.literal 9 (-1)]
  = Ok (NFloat (Double.Finite (Double.literal 7000000000000001 (-16))),
        NFloat (Double.Finite (Double.literal 9 (-1))))
  ∧ Double.literal 7 (-1) < Double.literal 7000000000000001 (-16)
  ∧ Chart64.calculate_y_axis_range Sample.libm [150000000000000; 999999999999999]
    = Ok (NInt (10 ^ 14), NInt (10 ^ 15))
  ∧ 10 ^ 14 <= 999999999999999 < 10 ^ 15.
Proof.
  split; [vm_compute; reflexivity|]. split; [vm_compute; reflexivity|].
  split; [vm_compute; reflexivity|]. split; [discriminate | reflexivity].
Qed.

End ChartRange64.

(** ** The great-circle distance *)

Section Haversine.

Local Open Scope R_scope.

Lemma sin_half_sqr (x : R) : sin (x / 2) ^ 2 = (1 - cos x) / 2.
Proof.
  pose proof (cos_2a_sin (x / 2)) as H.
  replace (2 * (x / 2)) with x in H by field. simpl. lra.
Qed.

(** The argument of the square root lies in [[0, 1]], whatever the
    coordinates: neither [math.sqrt] nor [math.asin] can raise. *)
Lemma hav_bounds (p1 p2 dl : R) :
  0 <= sin ((p2 - p1) / 2) ^ 2 + cos p1 * cos p2 * sin (dl / 2) ^ 2 <= 1.
Proof.
  rewrite !sin_half_sqr, cos_minus.
  pose proof (COS_bound (p2 - p1)) as Hm. rewrite cos_minus in Hm.
  pose proof (COS_bound (p1 + p2)) as Hp. rewrite cos_plus in Hp.
  pose proof (COS_bound dl) as Hd.
  set (c1 := cos p1) in *. set (c2 := cos p2) in *.
  set (s1 := sin p1) in *. set (s2 := sin p2) in *.
  set (t := (1 - cos dl) / 2).
  assert (0 <= t <= 1) as Ht by (unfold t; lra).
  clearbody t c1 c2 s1 s2.
  set (A := (1 - (c2 * c1 + s2 * s1)) / 2).
  assert (0 <= A <= 1) as HA by (unfold A; lra).
  assert (0 <= A + c1 * c2 <= 1) as HB by (unfold A; lra).
  clearbody A. nra.
Qed.

Lemma haversine_value (lon1 lat1 lon2 lat2 : R) :
  Geo.haversine lon1 lat1 lon2 lat2 =
    Ok (2 * asin (sqrt (sin ((Geo.radians lat2 - Geo.radians lat1) / 2) ^ 2
                        + cos (Geo.radians lat1) * cos (Geo.radians lat2)
                          * sin ((Geo.radians lon2 - Geo.radians lon1) / 2) ^ 2))
        * 6371).
Proof.
  unfold Geo.haversine. cbv zeta.
  pose proof (hav_bounds (Geo.radians lat1) (Geo.radians lat2)
                (Geo.radians lon2 - Geo.radians lon1)) as [H0 H1].
  set (a := sin _ ^ 2 + _) in *.
  unfold Geo.math_sqrt. destruct (Rlt_dec a 0) as [Hneg|_]; [lra|].
  cbn [mbind result_bind].
  assert (0 <= sqrt a <= 1) as [Hs0 Hs1].
  { split; [apply sqrt_pos|]. rewrite <- sqrt_1. by apply sqrt_le_1_alt. }
  unfold Geo.math_asin.
  destruct (Rlt_dec (sqrt a) (-1)) as [Hlo|_]; [lra|].
  destruct (Rlt_dec 1 (sqrt a)) as [Hhi|_]; [lra|].
  reflexivity.
Qed.

Lemma haversine_symmetric (lon1 lat1 lon2 lat2 : R) :
  Geo.haversine lon1 lat1 lon2 lat2 = Geo.haversine lon2 lat2 lon1 lat1.
Proof.
  rewrite !haversine_value.
  assert (∀ x y, sin ((x - y) / 2) ^ 2 = sin ((y - x) / 2) ^ 2) as Hflip.
  { intros x y. rewrite !sin_half_sqr.
    replace (x - y) with (- (y - x)) by ring. by rewrite cos_neg. }
  rewrite (Hflip (Geo.radians lat1)), (Hflip (Geo.radians lon1)).
  rewrite (Rmult_comm (cos (Geo.radians lat2))). reflexivity.
Qed.

Lemma haversine_same (lon lat : R) : Geo.haversine lon lat lon lat = Ok 0.
Proof.
  rewrite haversine_value. f_equal.
  rewrite !sin_half_sqr, !Rminus_diag, cos_0.
  replace ((1 - 1) / 2 + cos (Geo.radians lat) * cos (Geo.radians lat) * ((1 - 1) / 2))
    with 0 by field.
  rewrite sqrt_0, asin_0. ring.
Qed.

Lemma asin_mono (x y : R) : -1 <= x → x <= y → y <= 1 → asin x <= asin y.
Proof.
  intros Hx Hxy Hy.
  destruct (Rle_lt_dec (asin x) (asin y)) as [H|H]; [exact H|].
  exfalso. pose proof (asin_bound x) as Bx. pose proof (asin_bound y) as By.
  apply sin_increasing_1 in H; try lra.
  rewrite !sin_asin in H by lra. lra.
Qed.

Lemma sqrt_unit (a : R) : 0 <= a <= 1 → 0 <= sqrt a <= 1.
Proof.
  intros [H0 H1]. split; [apply sqrt_pos|].
  rewrite <- sqrt_1. by apply sqrt_le_1_alt.
Qed.

Lemma haversine_nonneg (lon1 lat1 lon2 lat2 d : R) :
  Geo.haversine lon1 lat1 lon2 lat2 = Ok d → 0 <= d.
Proof.
  rewrite haversine_value. intros H.
  set (v := 2 * asin _ * 6371) in H.
  assert (d = v) as -> by congruence. subst v. clear H.
  pose proof (sqrt_unit _ (hav_bounds (Geo.radians lat1) (Geo.radians lat2)
                             (Geo.radians lon2 - Geo.radians lon1))) as [H0 H1].
  pose proof (asin_mono 0 _ ltac:(lra) H0 H1) as Ha. rewrite asin_0 in Ha.
  lra.
Qed.

(** C7: the distance is symmetric in its two points, exactly and hence
    within any relative tolerance, it is always returned, and it is zero
    between a point and itself. *)
Theorem haversine_symmetric_zero (lon1 lat1 lon2 lat2 : R) :
  (∃ d, Geo.haversine lon1 lat1 lon2 lat2 = Ok d
        ∧ Geo.haversine lon2 lat2 lon1 lat1 = Ok d
        ∧ 0 <= d
        ∧ Rabs (d - d) <= 1 / 1000000000 * Rmax (Rabs d) (Rabs d))
  ∧ Geo.haversine lon1 lat1 lon1 lat1 = Ok 0.
Proof.
  split; [|apply haversine_same].
  rewrite <- (haversine_symmetric lon1 lat1 lon2 lat2).
  rewrite haversine_value. eexists. split; [reflexivity|]. split; [reflexivity|].
  split.
  - eapply haversine_nonneg. apply haversine_value.
  - rewrite Rminus_diag, Rabs_R0.
    apply Rmult_le_pos; [lra|]. unfold Rmax. destruct (Rle_dec _ _); apply Rabs_pos.
Qed.

End Haversine.

(** ** The nearest station *)

Section Nearest.

Local Open Scope R_scope.
Local Open Scope list_scope.

(** [first_min] keeps the first least entry of what it has scanned. *)
Lemma first_min_spec (ds pre : list R) (best_i : nat) (best : R) :
  pre !! best_i = Some best →
  (∀ j d, pre !! j = Some d → best <= d) →
  (∀ j d, (j < best_i)%nat → pre !! j = Some d → best < d) →
  ∃ m, (pre ++ ds) !! Geo.first_min best_i best (length pre) ds = Some m
       ∧ (∀ j d, (pre ++ ds) !! j = Some d → m <= d)
       ∧ (∀ j d, (j < Geo.first_min best_i best (length pre) ds)%nat →
                 (pre ++ ds) !! j = Some d → m < d).
Proof.
  revert pre best_i best.
  induction ds as [|d0 rest IH]; intros pre best_i best Hbest Hle Hlt.
  - simpl. rewrite app_nil_r. eauto.
  - simpl Geo.first_min.
    replace (pre ++ d0 :: rest) with ((pre ++ [d0]) ++ rest)
      by (by rewrite <- app_assoc).
    replace (S (length pre)) with (length (pre ++ [d0]))
      by (rewrite length_app; simpl; lia).
    pose proof (lookup_lt_Some _ _ _ Hbest) as Hi.
    destruct (Rlt_dec d0 best) as [Hnew|Hold].
    + apply IH.
      * by rewrite list_lookup_middle.
      * intros j d [Hj|[_ Hj]]%lookup_app_Some.
        -- specialize (Hle j d Hj). lra.
        -- destruct (j - length pre)%nat; [|done].
           injection Hj as <-. lra.
      * intros j d Hj Hd. rewrite lookup_app_l in Hd by exact Hj.
        specialize (Hle j d Hd). lra.
    + apply IH.
      * by rewrite lookup_app_l.
      * intros j d [Hj|[_ Hj]]%lookup_app_Some.
        -- by apply (Hle j).
        -- destruct (j - length pre)%nat; [|done].
           injection Hj as <-. lra.
      * intros j d Hj Hd. rewrite lookup_app_l in Hd by lia.
        by apply (Hlt j).
Qed.

Lemma idxmin_spec (ds : list R) :
  ds ≠ [] →
  ∃ i m, Geo.idxmin ds = Ok i ∧ ds !! i = Some m
         ∧ (∀ j d, ds !! j = Some d → m <= d)
         ∧ (∀ j d, (j < i)%nat → ds !! j = Some d → m < d).
Proof.
  destruct ds as [|d0 rest]; [done|]. intros _.
  destruct (first_min_spec rest [d0] 0 d0) as (m & Hm & Hle & Hlt).
  - reflexivity.
  - intros [|j] d; [|done]. intros [= <-]. lra.
  - intros j d Hj. lia.
  - exists (Geo.first_min 0 d0 1 rest), m. split; [reflexivity|]. eauto.
Qed.

(** Every row has a distance: the frame of distances is as long as the
    frame of stations and holds each row's distance at its position. *)
Lemma distances_total (metro_df : list MetroRow) (user_lat user_lon : Q) :
  ∃ ds, Geo.distances metro_df user_lat user_lon = Ok ds
        ∧ Forall2 (λ row d, Geo.distance_to user_lat user_lon row = Ok d) metro_df ds.
Proof.
  unfold Geo.distances. induction metro_df as [|row rows (ds & Hds & Hall)].
  - exists []. split; [reflexivity | constructor].
  - assert (∃ d, Geo.distance_to user_lat user_lon row = Ok d) as [d Hrow].
    { unfold Geo.distance_to. rewrite haversine_value. eauto. }
    exists (d :: ds). split.
    + rewrite mapM_result_cons, Hrow, Hds. reflexivity.
    + constructor; [exact Hrow | exact Hall].
Qed.

Lemma find_closest_metro_spec (metro_df : list MetroRow) (user_lat user_lon : Q) :
  metro_df ≠ [] →
  ∃ (i : nat) (row : MetroRow) (d : R),
    Geo.find_closest_metro metro_df user_lat user_lon = Ok (Some row)
    ∧ metro_df !! i = Some row
    ∧ Geo.distance_to user_lat user_lon row = Ok d
    ∧ ∀ (j : nat) (row' : MetroRow),
        metro_df !! j = Some row' →
        ∃ d', Geo.distance_to user_lat user_lon row' = Ok d'
              ∧ d <= d' ∧ ((j < i)%nat → d < d').
Proof.
  intros Hne.
  destruct (distances_total metro_df user_lat user_lon) as (ds & Hds & Hall).
  assert (ds ≠ []) as Hds_ne.
  { intros ->. apply Forall2_nil_inv_r in Hall. contradiction. }
  destruct (idxmin_spec ds Hds_ne) as (i & m & Hidx & Him & Hle & Hlt).
  destruct (Forall2_lookup_r _ _ _ _ _ Hall Him) as (row & Hrow & Hd).
  exists i, row, m. split; [|split; [exact Hrow|split; [exact Hd|]]].
  - unfold Geo.find_closest_metro. destruct metro_df as [|r0 rows]; [done|].
    rewrite Hds. cbn [mbind result_bind]. rewrite Hidx. cbn [mbind result_bind].
    by rewrite Hrow.
  - intros j row' Hj.
    destruct (Forall2_lookup_l _ _ _ _ _ Hall Hj) as (d' & Hd' & Hdist).
    exists d'. split; [exact Hdist|]. split; [by apply (Hle j) | intros Hji; by apply (Hlt j)].
Qed.

End Nearest.

(** ** The nearest station over doubles *)

Section Nearest64.

Local Open Scope Q_scope.
Local Open Scope list_scope.

Lemma negative_true (q : Q) : Double.negative q = true → q < 0.
Proof.
  unfold Double.negative. intros H%negb_true_iff.
  apply Qnot_le_lt. intros Hle%Qle_bool_iff. congruence.
Qed.

Lemma negative_false (q : Q) : Double.negative q = false → 0 <= q.
Proof. unfold Double.negative. intros H%negb_false_iff. by apply Qle_bool_iff. Qed.

(** The distance that the lookup takes to a row is the distance of the
    specification from the query to the position of the row. *)
Lemma distance_to_spec (lm : Libm) (user_lat user_lon : Q) (row : MetroRow) :
  Geo64.distance_to lm user_lat user_lon row
  = Spec.distance lm user_lat user_lon (latitude row) (longitude row).
Proof.
  unfold Geo64.distance_to, Geo64.haversine, Spec.distance,
    Geo64.math_sqrt, Geo64.math_asin, Geo64.radians, Geo64.deg_to_rad.
  cbv zeta. destruct (Double.negative _); [reflexivity|]. rewrite bind_Ok.
  destruct (Double.negative _); [reflexivity|].
  destruct (Double.negative _); reflexivity.
Qed.

(** [first_min] keeps the first least entry of what it has scanned. *)
Lemma first_min64_spec (ds pre : list Q) (best_i : nat) (best : Q) :
  pre !! best_i = Some best →
  (∀ j d, pre !! j = Some d → best <= d) →
  (∀ j d, (j < best_i)%nat → pre !! j = Some d → best < d) →
  ∃ m, (pre ++ ds) !! Geo64.first_min best_i best (length pre) ds = Some m
       ∧ (∀ j d, (pre ++ ds) !! j = Some d → m <= d)
       ∧ (∀ j d, (j < Geo64.first_min best_i best (length pre) ds)%nat →
                 (pre ++ ds) !! j = Some d → m < d).
Proof.
  revert pre best_i best.
  induction ds as [|d0 rest IH]; intros pre best_i best Hbest Hle Hlt.
  - simpl. rewrite app_nil_r. eauto.
  - simpl Geo64.first_min.
    replace (pre ++ d0 :: rest) with ((pre ++ [d0]) ++ rest)
      by (by rewrite <- app_assoc).
    replace (S (length pre)) with (length (pre ++ [d0]))
      by (rewrite length_app; simpl; lia).
    pose proof (lookup_lt_Some _ _ _ Hbest) as Hi.
    destruct (Double.negative (d0 - best)) eqn:Hcmp.
    + apply negative_true in Hcmp. apply IH.
      * by rewrite list_lookup_middle.
      * intros j d [Hj|[_ Hj]]%lookup_app_Some.
        -- specialize (Hle j d Hj). lra.
        -- destruct (j - length pre)%nat; [|done].
           injection Hj as <-. lra.
      * intros j d Hj Hd. rewrite lookup_app_l in Hd by exact Hj.
        specialize (Hle j d Hd). lra.
    + apply negative_false in Hcmp. apply IH.
      * by rewrite lookup_app_l.
      * intros j d [Hj|[_ Hj]]%lookup_app_Some.
        -- by apply (Hle j).
        -- destruct (j - length pre)%nat; [|done].
           injection Hj as <-. lra.
      * intros j d Hj Hd. rewrite lookup_app_l in Hd by lia.
        by apply (Hlt j).
Qed.

Lemma idxmin64_spec (ds : list Q) :
  ds ≠ [] →
  ∃ i m, Geo64.idxmin ds = Ok i ∧ ds !! i = Some m
         ∧ (∀ j d, ds !! j = Some d → m <= d)
         ∧ (∀ j d, (j < i)%nat → ds !! j = Some d → m < d).
Proof.
  destruct ds as [|d0 rest]; [done|]. intros _.
  destruct (first_min64_spec rest [d0] 0 d0) as (m & Hm & Hle & Hlt).
  - reflexivity.
  - intros [|j] d; [|done]. intros [= <-]. lra.
  - intros j d Hj. lia.
  - exists (Geo64.first_min 0 d0 1 rest), m. split; [reflexivity|]. eauto.
Qed.

(** When every row has a distance, the frame of distances holds each
    row's distance at its position; a row without one makes the frame
    raise. *)
Lemma distances64_ok (lm : Libm) (metro_df : list MetroRow) (user_lat user_lon : Q) :
  (∀ row, row ∈ metro_df → ∃ d, Geo64.distance_to lm user_lat user_lon row = Ok d) →
  ∃ ds, Geo64.distances lm metro_df user_lat user_lon = Ok ds
        ∧ Forall2 (λ row d, Geo64.distance_to lm user_lat user_lon row = Ok d)
                  metro_df ds.
Proof.
  unfold Geo64.distances. induction metro_df as [|row rows IH]; intros Hall.
  - exists []. split; [reflexivity | constructor].
  - destruct (Hall row (list_elem_of_here _ _)) as [d Hrow].
    destruct IH as (ds & Hds & Hrows);
      [intros r Hr; by apply Hall, list_elem_of_further|].
    exists (d :: ds). split.
    + rewrite mapM_result_cons, Hrow, Hds. reflexivity.
    + constructor; [exact Hrow | exact Hrows].
Qed.

Lemma distances64_raise (lm : Libm) (metro_df : list MetroRow) (user_lat user_lon : Q)
      (row : MetroRow) (e : exn) :
  row ∈ metro_df → Geo64.distance_to lm user_lat user_lon row = Raise e →
  ∃ e', Geo64.distances lm metro_df user_lat user_lon = Raise e'.
Proof.
  unfold Geo64.distances. intros Hin Hrow.
  induction metro_df as [|r rows IH]; [by apply elem_of_nil in Hin|].
  rewrite mapM_result_cons.
  destruct (Geo64.distance_to lm user_lat user_lon r) as [d|e0] eqn:Hr; [|by eexists].
  rewrite bind_Ok. apply elem_of_cons in Hin as [-> | Hin]; [congruence|].
  destruct (IH Hin) as [e' ->]. by eexists.
Qed.

(** C6: on a non-empty frame, when the distance of the specification
    from the query can be taken to every stored row in double precision,
    the lookup returns a stored row whose computed distance is least, and
    of the rows at that computed distance the first in frame order.  When
    the distance to some row cannot be taken, because rounding has put the
    argument of the square root below zero or that of the arc sine above
    one, the lookup raises.  With P1 at (0, 0) and P2 at (10, 10) stored
    in either order, the query (1, 1) returns P1. *)
Theorem find_closest_metro_in_doubles :
  (∀ (lm : Libm) (metro_df : list MetroRow) (user_lat user_lon : Q),
      metro_df ≠ [] →
      (∀ row, row ∈ metro_df →
              ∃ d, Spec.distance lm user_lat user_lon (latitude row) (longitude row)
                   = Ok d) →
      ∃ (i : nat) (row : MetroRow) (d : Q),
        Geo64.find_closest_metro lm metro_df user_lat user_lon = Ok (Some row)
        ∧ metro_df !! i = Some row
        ∧ Spec.distance lm user_lat user_lon (latitude row) (longitude row) = Ok d
        ∧ ∀ (j : nat) (row' : MetroRow),
            metro_df !! j = Some row' →
            ∃ d', Spec.distance lm user_lat user_lon (latitude row') (longitude row')
                  = Ok d'
                  ∧ d <= d' ∧ ((j < i)%nat → d < d'))
  ∧ (∀ (lm : Libm) (metro_df : list MetroRow) (user_lat user_lon : Q)
       (row : MetroRow) (e : exn),
        row ∈ metro_df →
        Spec.distance lm user_lat user_lon (latitude row) (longitude row) = Raise e →
        ∃ e', Geo64.find_closest_metro lm metro_df user_lat user_lon = Raise e')
  ∧ Geo64.find_closest_metro Sample.libm [Sample.P1; Sample.P2] 1 1 = Ok (Some Sample.P1)
  ∧ Geo64.find_closest_metro Sample.libm [Sample.P2; Sample.P1] 1 1 = Ok (Some Sample.P1).
Proof.
  split; [|split; [|split; vm_compute; reflexivity]].
  - intros lm metro_df user_lat user_lon Hne Hall.
    destruct (distances64_ok lm metro_df user_lat user_lon) as (ds & Hds & Hrows).
    { intros row Hrow. rewrite distance_to_spec. by apply Hall. }
    assert (ds ≠ []) as Hds_ne.
    { intros ->. apply Forall2_nil_inv_r in Hrows. contradiction. }
    destruct (idxmin64_spec ds Hds_ne) as (i & m & Hidx & Him & Hle & Hlt).
    destruct (Forall2_lookup_r _ _ _ _ _ Hrows Him) as (row & Hrow & Hd).
    exists i, row, m. split; [|split; [exact Hrow|split]].
    + unfold Geo64.find_closest_metro. destruct metro_df as [|r0 rows]; [done|].
      rewrite Hds, bind_Ok, Hidx, bind_Ok. by rewrite Hrow.
    + by rewrite <- distance_to_spec.
    + intros j row' Hj.
      destruct (Forall2_lookup_l _ _ _ _ _ Hrows Hj) as (d' & Hd' & Hdist).
      exists d'. rewrite <- distance_to_spec. split; [exact Hdist|].
      split; [by apply (Hle j) | intros Hji; by apply (Hlt j)].
  - intros lm metro_df user_lat user_lon row e Hin Hraise.
    rewrite <- distance_to_spec in Hraise.
    destruct (distances64_raise lm metro_df user_lat user_lon row e Hin Hraise)
      as [e' He'].
    exists e'. unfold Geo64.find_closest_metro.
    destruct metro_df as [|r0 rows]; [by apply elem_of_nil in Hin|].
    by rewrite He'.
Qed.

Lemma find_closest_metro_in_doubles_witness :
  ∃ (i : nat) (row : MetroRow) (d : Q),
    Geo64.find_closest_metro Sample.libm [Sample.P2; Sample.P1] 1 1 = Ok (Some row)
    ∧ [Sample.P2; Sample.P1] !! i = Some row
    ∧ Spec.distance Sample.libm 1 1 (latitude row) (longitude row) = Ok d
    ∧ ∀ (j : nat) (row' : MetroRow),
        [Sample.P2; Sample.P1] !! j = Some row' →
        ∃ d', Spec.distance Sample.libm 1 1 (latitude row') (longitude row') = Ok d'
              ∧ d <= d' ∧ ((j < i)%nat → d < d').
Proof.
  apply (proj1 find_closest_metro_in_doubles Sample.libm [Sample.P2; Sample.P1] 1 1).
  - discriminate.
  - intros row Hrow.
    repeat (apply elem_of_cons in Hrow as [-> | Hrow];
            [eexists; vm_compute; reflexivity|]).
    by apply elem_of_nil in Hrow.
Defined.

(** The lookup does not return the first of the rows at the least
    great-circle distance, and it does not return for every query.  The
    stations North and South lie on one meridian, an eighth of a degree
    to either side of the query: their great-circle distances are equal
    and North is stored first, yet in doubles the distance to North comes
    out as 13.899365830570039 and that to South as 13.899365830569684,
    and South is returned.  For a query across the pole from a station
    (latitude 154.9999, which the form accepts) rounding puts the argument
    of the square root below zero, and the lookup raises. *)
Lemma find_closest_metro_not_first_nearest :
  Geo.distance_to (2425 # 100) (5525 # 100) Sample.north
  = Geo.distance_to (2425 # 100) (5525 # 100) Sample.south
  ∧ Geo.find_closest_metro [Sample.north; Sample.south] (2425 # 100) (5525 # 100)
    = Ok (Some Sample.north)
  ∧ Geo64.distances Sample.libm [Sample.north; Sample.south] (2425 # 100) (5525 # 100)
    = Ok [Double.literal 13899365830570039 (-15); Double.literal 13899365830569684 (-15)]
  ∧ Geo64.find_closest_metro Sample.libm [Sample.north; Sample.south]
      (2425 # 100) (5525 # 100)
    = Ok (Some Sample.south)
  ∧ Geo64.find_closest_metro Sample.libm [Sample.near_tropic]
      (Double.literal 1549999 (-4)) (Double.literal 2350001 (-4))
    = Raise (DomainError "sqrt").
Proof.
  assert (Geo.distance_to (2425 # 100) (5525 # 100) Sample.north
          = Geo.distance_to (2425 # 100) (5525 # 100) Sample.south) as Htie.
  { unfold Geo.distance_to. rewrite !haversine_value.
    cbn [Sample.north Sample.south latitude longitude]. unfold Geo.radians.
    assert (Q2R (24375 # 1000) = (Q2R (2425 # 100) + 1 / 8)%R) as ->
      by (unfold Q2R; simpl; lra).
    assert (Q2R (24125 # 1000) = (Q2R (2425 # 100) - 1 / 8)%R) as ->
      by (unfold Q2R; simpl; lra).
    set (lat := Q2R (2425 # 100)). set (lon := Q2R (5525 # 100)).
    replace ((lon * (PI / 180) - lon * (PI / 180)) / 2)%R with 0%R by lra.
    rewrite sin_0.
    replace (((lat + 1 / 8) * (PI / 180) - lat * (PI / 180)) / 2)%R
      with (- (((lat - 1 / 8) * (PI / 180) - lat * (PI / 180)) / 2))%R by lra.
    rewrite sin_neg.
    match goal with
    | |- Ok (2 * asin (sqrt ?a) * 6371)%R = Ok (2 * asin (sqrt ?b) * 6371)%R =>
        replace a with b by ring
    end.
    reflexivity. }
  split; [exact Htie|]. split; [|repeat split; vm_compute; reflexivity].
  destruct (find_closest_metro_spec [Sample.north; Sample.south]
              (2425 # 100) (5525 # 100) ltac:(done))
    as (i & row & d & Hres & Hrow & Hd & Hothers).
  rewrite Hres. destruct i as [|[|i]]; [by injection Hrow as <- | | done].
  exfalso. injection Hrow as <-.
  destruct (Hothers 0%nat Sample.north eq_refl) as (d' & Hd' & _ & Hlt).
  specialize (Hlt ltac:(lia)). rewrite Htie, Hd in Hd'.
  injection Hd' as <-. revert Hlt. apply Rlt_irrefl.
Qed.

End Nearest64.

(** ** The scaling stage *)

Section Scaling.

Implicit Types (df : gmap string PyVal) (cols : list string).

(** After the safety net a column is what it was, or zero when it was
    absent and the scaler lists it. *)
Lemma fill_missing_lookup df cols (col : string) :
  Predict.fill_missing df cols !! col =
    match df !! col with
    | Some v => Some v
    | None => if decide (col ∈ cols) then Some (PNum 0) else None
    end.
Proof.
  unfold Predict.fill_missing. revert df.
  induction cols as [|c cols IH]; intros df.
  - cbn [foldl]. destruct (df !! col); [done|].
    destruct (decide (col ∈ [])) as [Hin|_]; [|done].
    by apply elem_of_nil in Hin.
  - cbn [foldl]. rewrite IH.
    assert (col ∈ c :: cols ↔ col = c ∨ col ∈ cols) as Hcons by apply elem_of_cons.
    destruct (df !! c) eqn:Hc.
    + destruct (df !! col) eqn:Hcol; [done|].
      assert (col ≠ c) as Hne by congruence.
      destruct (decide (col ∈ cols)), (decide (col ∈ c :: cols)); try done; tauto.
    + destruct (decide (col = c)) as [->|Hne].
      * rewrite lookup_insert_eq, Hc.
        destruct (decide (c ∈ c :: cols)); [done | tauto].
      * rewrite lookup_insert_ne by done.
        destruct (df !! col); [done|].
        destruct (decide (col ∈ cols)), (decide (col ∈ c :: cols)); try done; tauto.
Qed.

Lemma fill_missing_listed df cols (col : string) :
  col ∈ cols →
  Predict.fill_missing df cols !! col = Some (default (PNum 0) (df !! col)).
Proof.
  intros Hin. rewrite fill_missing_lookup.
  destruct (df !! col); [done|]. by rewrite decide_True.
Qed.

(** Selecting the listed columns after the safety net cannot miss one. *)
Lemma select_filled df cols :
  Predict.select (Predict.fill_missing df cols) cols =
    Ok ((λ col, default (PNum 0) (df !! col)) <$> cols).
Proof.
  unfold Predict.select.
  assert (∀ sub, sub ⊆ cols →
            mapM (λ col, Predict.fill_missing df cols !! col) sub
            = Some ((λ col, default (PNum 0) (df !! col)) <$> sub)) as Hsub.
  { induction sub as [|c sub IH]; intros Hincl; [done|].
    apply mapM_Some_2. constructor.
    - apply fill_missing_listed, Hincl, list_elem_of_here.
    - apply mapM_Some_1, IH. intros x Hx. by apply Hincl, list_elem_of_further. }
  by rewrite Hsub.
Qed.

(** C9: the cells handed to the scaler are the row's own cells for the
    columns the row has and the number zero for each listed column the
    row lacks; the stage fails only if the scaler's transform or the
    write-back does, never on a missing column. *)
Theorem scaler_columns_defaulted (scaler : Scaler) df cols :
  ∃ data_to_scale : list PyVal,
    length data_to_scale = length cols
    ∧ (∀ (i : nat) (col : string),
          cols !! i = Some col →
          (df !! col = None → data_to_scale !! i = Some (PNum 0))
          ∧ (∀ v, df !! col = Some v → data_to_scale !! i = Some v))
    ∧ Predict.apply_scaling scaler cols df =
        match cols with
        | [] => Ok df
        | _ => scaled_data ← transform scaler data_to_scale;
               Predict.assign (Predict.fill_missing df cols) cols scaled_data
        end.
Proof.
  exists ((λ col, default (PNum 0) (df !! col)) <$> cols).
  split; [by rewrite length_fmap|]. split.
  - intros i col Hi. rewrite list_lookup_fmap, Hi. simpl.
    split; [intros -> | intros v ->]; reflexivity.
  - unfold Predict.apply_scaling. destruct cols as [|c cols]; [done|].
    by rewrite select_filled.
Qed.

End Scaling.

(** ** The inference call *)

Section Inference.

Lemma predict_body_missing (dir : ModelDir) (input_df : gmap string PyVal) :
  some_file_missing dir → ∃ e, Predict.predict_body dir input_df = Raise e.
Proof.
  intros Hmiss. unfold Predict.predict_body.
  destruct (scaler_joblib dir) as [|?|scaler] eqn:E1; cbn; eauto.
  destruct (scaled_features_list_joblib dir) as [|?|cols] eqn:E2; cbn; eauto.
  destruct (Predict.apply_scaling scaler cols input_df) as [processed|?]; cbn; eauto.
  destruct (random_forest_joblib dir) as [|?|rf] eqn:E3; cbn; eauto.
  destruct (xgboost_joblib dir) as [|?|xgb] eqn:E4; cbn; eauto.
  destruct (linear_reg_joblib dir) as [|?|lin] eqn:E5; cbn; eauto.
  destruct (meta_model_joblib dir) as [|?|meta] eqn:E6; cbn; eauto.
  exfalso. unfold some_file_missing in Hmiss. rewrite E1, E2, E3, E4, E5, E6 in Hmiss.
  naive_solver.
Qed.

Lemma get_prediction_raise (rt : Runtime) (dir : ModelDir)
      (input_df : gmap string PyVal) (raw_output : bool) (e : exn) :
  Predict.predict_body dir input_df = Raise e →
  ∃ msg, Predict.get_prediction rt dir input_df raw_output = PStr msg.
Proof.
  intros H. unfold Predict.get_prediction. rewrite H. destruct e; eauto.
Qed.

End Inference.

Section InferenceResult.

(** C10: [get_prediction] always returns a value.  When the pipeline
    succeeds it is the number, or its formatted text; when anything in
    the pipeline raises it is a message text, whatever [raw_output] is:
    the missing-file message for a [FileNotFoundError], the
    unexpected-error message otherwise.  Any absent artifact file makes
    the pipeline raise, so a caller that asked for the raw number then
    receives text. *)
Theorem get_prediction_returns_text :
  (∀ (rt : Runtime) (dir : ModelDir) (input_df : gmap string PyVal) (raw_output : bool),
      match Predict.predict_body dir input_df with
      | Ok v =>
          Predict.get_prediction rt dir input_df raw_output
          = if raw_output then PNum v else PStr (format_aed rt v)
      | Raise e =>
          (∃ f, e = FileNotFoundError f
                ∧ Predict.get_prediction rt dir input_df raw_output
                  = PStr ("Error: A required model file was not found. Please check your 'model' directory. Missing file: "
                          +:+ f))
          ∨ ((∀ f, e ≠ FileNotFoundError f)
             ∧ Predict.get_prediction rt dir input_df raw_output
               = PStr ("An unexpected error occurred in prediction: " +:+ exn_str rt e
                       +:+ newline +:+ format_exc rt e))
      end)
  ∧ (∀ (rt : Runtime) (dir : ModelDir) (input_df : gmap string PyVal) (raw_output : bool),
        some_file_missing dir →
        ∃ msg, Predict.get_prediction rt dir input_df raw_output = PStr msg)
  ∧ (∃ (rt : Runtime) (dir : ModelDir) (input_df : gmap string PyVal) (msg : string),
        Predict.get_prediction rt dir input_df true = PStr msg).
Proof.
  split; [|split].
  - intros rt dir input_df raw_output. unfold Predict.get_prediction.
    destruct (Predict.predict_body dir input_df) as [v|e]; [reflexivity|].
    destruct e; try (right; split; [intros f; discriminate | reflexivity]).
    left. eauto.
  - intros rt dir input_df raw_output Hmiss.
    destruct (predict_body_missing dir input_df Hmiss) as [e He].
    by eapply get_prediction_raise.
  - exists Sample.rt, Sample.dir_without_scaler, ∅. eexists. vm_compute. reflexivity.
Qed.

Lemma get_prediction_returns_text_witness :
  some_file_missing Sample.dir_without_scaler
  ∧ ∃ msg, Predict.get_prediction Sample.rt Sample.dir_without_scaler ∅ true = PStr msg.
Proof.
  assert (some_file_missing Sample.dir_without_scaler) as Hmiss by (left; reflexivity).
  split; [exact Hmiss|].
  exact (proj1 (proj2 get_prediction_returns_text) Sample.rt Sample.dir_without_scaler ∅ true Hmiss).
Defined.

End InferenceResult.

(** ** Text among the predictions *)

Section TextPredictions.

Lemma lt_same_kind (a b : PyVal) (r : bool) :
  Py.lt a b = Ok r → Py.is_str a = Py.is_str b.
Proof. destruct a, b; simpl; congruence. Qed.

Lemma gt_same_kind (a b : PyVal) (r : bool) :
  Py.gt a b = Ok r → Py.is_str a = Py.is_str b.
Proof. destruct a, b; simpl; congruence. Qed.

(** A scan that returns has compared values of one kind only. *)
Lemma scan_same_kind (better : PyVal → PyVal → result bool)
      (items : list PyVal) (best v : PyVal) :
  (∀ a b r, better a b = Ok r → Py.is_str a = Py.is_str b) →
  Py.scan better best items = Ok v →
  Py.is_str v = Py.is_str best
  ∧ ∀ x, x ∈ items → Py.is_str x = Py.is_str best.
Proof.
  intros Hkind. revert best.
  induction items as [|item rest IH]; intros best Hscan; simpl in Hscan.
  - injection Hscan as <-. split; [done|]. intros x Hx. by apply elem_of_nil in Hx.
  - destruct (better item best) as [b|e] eqn:Hb; [|discriminate].
    pose proof (Hkind _ _ _ Hb) as Hitem. simpl in Hscan.
    assert (Py.is_str (if b then item else best) = Py.is_str best) as Hnext
      by (by destruct b).
    destruct (IH _ Hscan) as [Hv Hrest]. rewrite Hnext in Hv, Hrest.
    split; [exact Hv|].
    intros x [->|Hx]%elem_of_cons; [exact Hitem | by apply Hrest].
Qed.

Lemma min_of_text (predictions : list PyVal) (s : string) (v : PyVal) :
  PStr s ∈ predictions → Py.min predictions = Ok v → Py.is_str v = true.
Proof.
  destruct predictions as [|x rest]; [intros Hin; by apply elem_of_nil in Hin|].
  intros Hin Hmin. simpl in Hmin.
  destruct (scan_same_kind _ _ _ _ lt_same_kind Hmin) as [Hv Hall].
  rewrite Hv. apply elem_of_cons in Hin as [<-|Hin]; [done|].
  by rewrite <- (Hall _ Hin).
Qed.

Lemma max_of_text (predictions : list PyVal) (s : string) (v : PyVal) :
  PStr s ∈ predictions → Py.max predictions = Ok v → Py.is_str v = true.
Proof.
  destruct predictions as [|x rest]; [intros Hin; by apply elem_of_nil in Hin|].
  intros Hin Hmax. simpl in Hmax.
  destruct (scan_same_kind _ _ _ _ gt_same_kind Hmax) as [Hv Hall].
  rewrite Hv. apply elem_of_cons in Hin as [<-|Hin]; [done|].
  by rewrite <- (Hall _ Hin).
Qed.

(** One message text among the predictions makes the chart range raise. *)
Lemma range_of_text_raises (predictions : list PyVal) (s : string) :
  PStr s ∈ predictions → ∃ e, Chart.calculate_y_axis_range predictions = Raise e.
Proof.
  intros Hin. unfold Chart.calculate_y_axis_range.
  destruct (Py.min predictions) as [min_val|e] eqn:Hmin; [|eauto].
  destruct (Py.max predictions) as [max_val|e] eqn:Hmax; [|eauto].
  pose proof (min_of_text _ _ _ Hin Hmin) as Hk1.
  pose proof (max_of_text _ _ _ Hin Hmax) as Hk2.
  destruct min_val as [?|t1]; [discriminate|].
  destruct max_val as [?|t2]; [discriminate|].
  cbn. destruct (String.eqb t1 t2); cbn; eauto.
Qed.

Lemma ltb_irrefl (s : string) : String.ltb s s = false.
Proof.
  unfold String.ltb. pose proof (String.compare_antisym s s) as H.
  destruct (String.compare s s); try reflexivity. discriminate.
Qed.

Lemma min_one_text (s : string) :
  Py.min [PStr s; PStr s; PStr s; PStr s] = Ok (PStr s).
Proof. cbn. rewrite ltb_irrefl. cbn. rewrite ltb_irrefl. cbn. by rewrite ltb_irrefl. Qed.

Lemma max_one_text (s : string) :
  Py.max [PStr s; PStr s; PStr s; PStr s] = Ok (PStr s).
Proof. cbn. rewrite ltb_irrefl. cbn. rewrite ltb_irrefl. cbn. by rewrite ltb_irrefl. Qed.

(** Four copies of one message text: the extremes are equal, and the
    padding [min_val * 0.1] is what raises. *)
Lemma range_of_one_text (s : string) :
  Chart.calculate_y_axis_range [PStr s; PStr s; PStr s; PStr s]
  = Raise (TypeError "can't multiply sequence by non-int of type 'float'").
Proof.
  unfold Chart.calculate_y_axis_range.
  rewrite min_one_text, max_one_text, !bind_Ok.
  cbn [Py.eqb]. rewrite String.eqb_refl. reflexivity.
Qed.

End TextPredictions.

(** ** The projection route *)

Section ProjectionRoute.

Lemma py_range_four (y : Z) :
  Route.py_range y (y + 4) = [y; y + 1; y + 2; y + 3]%Z.
Proof.
  unfold Route.py_range. replace (y + 4 - y)%Z with 4%Z by lia.
  unfold seqZ. cbn [Z.to_nat Pos.to_nat Pos.iter_op Init.Nat.add seq fmap list_fmap].
  assert (∀ a b c d : Z, a = y → b = (y + 1)%Z → c = (y + 2)%Z → d = (y + 3)%Z →
                         [a; b; c; d] = [y; y + 1; y + 2; y + 3]%Z) as Hfour
    by (by intros ???? -> -> -> ->).
  apply Hfour; lia.
Qed.

Lemma find_closest_single (row : MetroRow) (user_lat user_lon : Q) :
  Geo.find_closest_metro [row] user_lat user_lon = Ok (Some row).
Proof.
  destruct (find_closest_metro_spec [row] user_lat user_lon ltac:(done))
    as (i & row' & d & Hres & Hrow & _).
  rewrite Hres. destruct i as [|i]; [by injection Hrow as <- | done].
Qed.

Lemma find_closest_none (metro_df : list MetroRow) (user_lat user_lon : Q) :
  Geo.find_closest_metro metro_df user_lat user_lon = Ok None ↔ metro_df = [].
Proof.
  split; [|by intros ->].
  destruct metro_df as [|row rows]; [done|]. intros Hnone.
  destruct (find_closest_metro_spec (row :: rows) user_lat user_lon ltac:(done))
    as (i & row' & d & Hres & _).
  congruence.
Qed.

Lemma locate_found (rt : Runtime) (app : App) (form : gmap string string)
      (user_lat user_lon : Q) (row : MetroRow) :
  Route.form_float rt form "latitude" (252048 # 10000) = Ok user_lat →
  Route.form_float rt form "longitude" (552708 # 10000) = Ok user_lon →
  Geo.find_closest_metro (metro_df app) user_lat user_lon = Ok (Some row) →
  Route.locate rt app form = Ok (user_lat, user_lon, row).
Proof.
  intros Hlat Hlon Hrow. unfold Route.locate.
  by rewrite Hlat, bind_Ok, Hlon, bind_Ok, Hrow, bind_Ok.
Qed.

Lemma locate_empty (rt : Runtime) (app : App) (form : gmap string string)
      (user_lat user_lon : Q) :
  Route.form_float rt form "latitude" (252048 # 10000) = Ok user_lat →
  Route.form_float rt form "longitude" (552708 # 10000) = Ok user_lon →
  metro_df app = [] →
  Route.locate rt app form
  = Raise (ValueError "Could not find closest metro. Check data file.").
Proof.
  intros Hlat Hlon Hempty. unfold Route.locate.
  by rewrite Hlat, bind_Ok, Hlon, bind_Ok, Hempty.
Qed.

(** The second part of the body, with the four years written out. *)
Lemma project_unfold (rt : Runtime) (app : App) (form : gmap string string)
      (user_lat user_lon : Q) (row : MetroRow) :
  Route.project rt app form user_lat user_lon row =
    (rooms ← Route.form_int rt form "rooms" 1;
     let base_df := Route.base_input_data row rooms user_lat user_lon in
     let predictions :=
       (λ year, Predict.get_prediction rt (model_dir app) (Route.iter_df base_df year) true)
         <$> [today_year app; today_year app + 1; today_year app + 2; today_year app + 3]%Z in
     range ← Chart.calculate_y_axis_range predictions;
     Ok (Projection
           (Route.py_str_int
              <$> [today_year app; today_year app + 1; today_year app + 2; today_year app + 3]%Z)
           predictions range.1 range.2)).
Proof. unfold Route.project. by rewrite py_range_four. Qed.

(** A failed inference call makes the rest of the body raise. *)
Lemma project_inference_failure (rt : Runtime) (app : App) (form : gmap string string)
      (user_lat user_lon : Q) (row : MetroRow) (rooms year : Z) (e : exn) :
  Route.form_int rt form "rooms" 1 = Ok rooms →
  year ∈ Route.py_range (today_year app) (today_year app + 4) →
  Predict.predict_body (model_dir app)
    (Route.iter_df (Route.base_input_data row rooms user_lat user_lon) year) = Raise e →
  ∃ e', Route.project rt app form user_lat user_lon row = Raise e'.
Proof.
  intros Hrooms Hyear Hfail. unfold Route.project. rewrite Hrooms, bind_Ok. cbv zeta.
  destruct (get_prediction_raise rt _ _ true _ Hfail) as [msg Hmsg].
  set (predictions := map (λ year : Z, Predict.get_prediction rt (model_dir app) _ true) _).
  assert (PStr msg ∈ predictions) as Hin.
  { unfold predictions. rewrite <- Hmsg.
    apply (list_elem_of_fmap_2
             (λ year, Predict.get_prediction rt (model_dir app)
                        (Route.iter_df (Route.base_input_data row rooms user_lat user_lon) year)
                        true)).
    exact Hyear. }
  destruct (range_of_text_raises _ _ Hin) as [e' He']. rewrite He'. eauto.
Qed.

(** With [scaler.joblib] absent every inference call returns the same
    missing-file text, whatever the frame. *)
Lemma get_prediction_no_scaler (rt : Runtime) (dir : ModelDir)
      (input_df : gmap string PyVal) (raw_output : bool) :
  scaler_joblib dir = Missing →
  Predict.get_prediction rt dir input_df raw_output
  = PStr ("Error: A required model file was not found. Please check your 'model' directory. Missing file: "
          +:+ Predict.resource_path dir "scaler.joblib").
Proof.
  intros Hmiss. unfold Predict.get_prediction, Predict.predict_body.
  rewrite Hmiss. reflexivity.
Qed.

(** The route then reports the [TypeError] of the chart range, not the
    missing file. *)
Lemma project_no_scaler (rt : Runtime) (app : App) (form : gmap string string)
      (user_lat user_lon : Q) (row : MetroRow) (rooms : Z) :
  Route.form_int rt form "rooms" 1 = Ok rooms →
  scaler_joblib (model_dir app) = Missing →
  Route.project rt app form user_lat user_lon row
  = Raise (TypeError "can't multiply sequence by non-int of type 'float'").
Proof.
  intros Hrooms Hmiss. rewrite project_unfold, Hrooms, bind_Ok. cbv zeta.
  cbn [fmap list_fmap]. rewrite !(get_prediction_no_scaler _ _ _ _ Hmiss).
  by rewrite range_of_one_text.
Qed.

(** C5: when the first part of the body raises (the lookup finds no
    station, or a form field does not parse), or when the inference call
    of any of the four years fails, the route hands the template an error
    message and nothing else: no labels, values or range. *)
Theorem projection_all_or_nothing (rt : Runtime) (app : App) (form : gmap string string) :
  ((∃ e, Route.locate rt app form = Raise e)
   ∨ (∃ (user_lat user_lon : Q) (row : MetroRow) (rooms year : Z) (e : exn),
         Route.locate rt app form = Ok (user_lat, user_lon, row)
         ∧ Route.form_int rt form "rooms" 1 = Ok rooms
         ∧ year ∈ Route.py_range (today_year app) (today_year app + 4)
         ∧ Predict.predict_body (model_dir app)
             (Route.iter_df (Route.base_input_data row rooms user_lat user_lon) year)
           = Raise e)) →
  ∃ msg, projection_data (Route.index rt app POST form) = Some (ProjectionError msg).
Proof.
  intros [[e He] | (user_lat & user_lon & row & rooms & year & e & Hloc & Hrooms & Hyear & Hfail)];
    unfold Route.index.
  - rewrite He. cbn. eauto.
  - rewrite Hloc. cbn [projection_data].
    destruct (project_inference_failure rt app form user_lat user_lon row rooms year e
                Hrooms Hyear Hfail) as [e' He'].
    rewrite He'. unfold Route.error_data. eauto.
Qed.

Lemma sample_locate (app : App) :
  metro_df app = [Sample.station] →
  Route.locate Sample.rt app ∅ = Ok (252048 # 10000, 552708 # 10000, Sample.station).
Proof.
  intros Hdf. apply locate_found; [reflexivity | reflexivity |].
  rewrite Hdf. apply find_closest_single.
Qed.

Lemma projection_all_or_nothing_witness :
  ∃ msg, projection_data (Route.index Sample.rt Sample.app_without_scaler POST ∅)
         = Some (ProjectionError msg).
Proof.
  apply projection_all_or_nothing. right.
  exists (252048 # 10000), (552708 # 10000), Sample.station, 1%Z, 2025%Z.
  eexists. split; [by apply sample_locate|]. split; [reflexivity|]. split.
  - apply list_elem_of_here.
  - vm_compute. reflexivity.
Defined.

(** When exactly one artifact file is absent and the scaling stage goes
    through, the pipeline stops at the load of that file. *)
Lemma predict_body_only_missing (dir : ModelDir) (input_df : gmap string PyVal)
      (a : Artifact) :
  only_missing dir a →
  (∀ scaler cols, scaler_joblib dir = Stored scaler →
                  scaled_features_list_joblib dir = Stored cols →
                  ∃ df, Predict.apply_scaling scaler cols input_df = Ok df) →
  Predict.predict_body dir input_df
  = Raise (FileNotFoundError (Predict.resource_path dir (artifact_filename a))).
Proof.
  intros [Hmiss Hothers] Hscale. unfold Predict.predict_body.
  assert (a = ScalerFile ∨ ∃ x, scaler_joblib dir = Stored x) as [-> | [scaler E1]]
    by (destruct a; first [by left | right; by apply (Hothers ScalerFile)]).
  { cbn in Hmiss. by rewrite Hmiss. }
  rewrite E1. cbn [Predict.joblib_load]. rewrite bind_Ok.
  assert (a = FeaturesFile ∨ ∃ x, scaled_features_list_joblib dir = Stored x)
    as [-> | [cols E2]]
    by (destruct a; first [by left | right; by apply (Hothers FeaturesFile)]).
  { cbn in Hmiss. by rewrite Hmiss. }
  rewrite E2. cbn [Predict.joblib_load]. rewrite bind_Ok.
  destruct (Hscale scaler cols E1 E2) as [processed_df ->]. rewrite bind_Ok.
  rewrite !mapM_result_cons. cbn [Predict.base_model_file String.eqb Ascii.eqb Bool.eqb].
  assert (a = RandomForestFile ∨ ∃ x, random_forest_joblib dir = Stored x)
    as [-> | [rf E3]]
    by (destruct a; first [by left | right; by apply (Hothers RandomForestFile)]).
  { cbn in Hmiss. by rewrite Hmiss. }
  rewrite E3. cbn [Predict.joblib_load]. rewrite !bind_Ok.
  assert (a = XgboostFile ∨ ∃ x, xgboost_joblib dir = Stored x) as [-> | [xgb E4]]
    by (destruct a; first [by left | right; by apply (Hothers XgboostFile)]).
  { cbn in Hmiss. by rewrite Hmiss. }
  rewrite E4. cbn [Predict.joblib_load]. rewrite !bind_Ok.
  assert (a = LinearRegFile ∨ ∃ x, linear_reg_joblib dir = Stored x) as [-> | [lin E5]]
    by (destruct a; first [by left | right; by apply (Hothers LinearRegFile)]).
  { cbn in Hmiss. by rewrite Hmiss. }
  rewrite E5. cbn [Predict.joblib_load]. rewrite !bind_Ok.
  cbn [mapM mret result_ret]. rewrite !bind_Ok.
  destruct a; cbn in Hmiss; try congruence.
  by rewrite Hmiss.
Qed.

(** [get_prediction] then names the absent file in the text it returns,
    and the route, given that text four times, reports the [TypeError]
    of the chart range instead. *)
Lemma only_missing_file_is_named (rt : Runtime) (dir : ModelDir)
      (input_df : gmap string PyVal) (raw_output : bool) (a : Artifact) :
  only_missing dir a →
  (∀ scaler cols, scaler_joblib dir = Stored scaler →
                  scaled_features_list_joblib dir = Stored cols →
                  ∃ df, Predict.apply_scaling scaler cols input_df = Ok df) →
  Predict.get_prediction rt dir input_df raw_output
  = PStr ("Error: A required model file was not found. Please check your 'model' directory. Missing file: "
          +:+ Predict.resource_path dir (artifact_filename a)).
Proof.
  intros Hmiss Hscale. unfold Predict.get_prediction.
  by rewrite (predict_body_only_missing dir input_df a Hmiss Hscale).
Qed.

Lemma only_missing_file_is_lost (rt : Runtime) (app : App) (form : gmap string string)
      (user_lat user_lon : Q) (row : MetroRow) (rooms : Z) (a : Artifact) :
  Route.locate rt app form = Ok (user_lat, user_lon, row) →
  Route.form_int rt form "rooms" 1 = Ok rooms →
  only_missing (model_dir app) a →
  (∀ input_df scaler cols,
      scaler_joblib (model_dir app) = Stored scaler →
      scaled_features_list_joblib (model_dir app) = Stored cols →
      ∃ df, Predict.apply_scaling scaler cols input_df = Ok df) →
  projection_data (Route.index rt app POST form)
  = Some (ProjectionError "Error: can't multiply sequence by non-int of type 'float'").
Proof.
  intros Hloc Hrooms Hmiss Hscale. unfold Route.index. rewrite Hloc.
  cbn [projection_data]. rewrite project_unfold, Hrooms, bind_Ok. cbv zeta.
  cbn [fmap list_fmap].
  rewrite !(only_missing_file_is_named rt _ _ true a Hmiss (Hscale _)).
  by rewrite range_of_one_text.
Qed.




(** C8: on an empty frame the lookup returns [None], neither a row nor
    an exception; it returns [None] on no other frame; and the route turns
    that [None] into its own error message. *)
Theorem empty_store_reported :
  (∀ user_lat user_lon : Q, Geo.find_closest_metro [] user_lat user_lon = Ok None)
  ∧ (∀ (metro_df : list MetroRow) (user_lat user_lon : Q),
        Geo.find_closest_metro metro_df user_lat user_lon = Ok None → metro_df = [])
  ∧ (∀ (rt : Runtime) (app : App) (form : gmap string string) (user_lat user_lon : Q),
        metro_df app = [] →
        Route.form_float rt form "latitude" (252048 # 10000) = Ok user_lat →
        Route.form_float rt form "longitude" (552708 # 10000) = Ok user_lon →
        Route.index rt app POST form
        = {| projection_data :=
               Some (ProjectionError "Error: Could not find closest metro. Check data file.");
             form_data := form;
             closest_metro_name := None |}).
Proof.
  split; [reflexivity|]. split.
  - intros metro_df user_lat user_lon. apply find_closest_none.
  - intros rt app form user_lat user_lon Hempty Hlat Hlon.
    unfold Route.index. by rewrite (locate_empty _ _ _ _ _ Hlat Hlon Hempty).
Qed.

Lemma empty_store_reported_witness :
  Route.index Sample.rt Sample.app_without_stations POST ∅
  = {| projection_data :=
         Some (ProjectionError "Error: Could not find closest metro. Check data file.");
       form_data := ∅;
       closest_metro_name := None |}.
Proof.
  exact (proj2 (proj2 empty_store_reported) Sample.rt Sample.app_without_stations ∅
           (252048 # 10000) (552708 # 10000) eq_refl eq_refl eq_refl).
Defined.

(** C4: with [scaler.joblib] absent, [get_prediction] returns a text
    that names the file, yet the request ends in the message of the
    [TypeError] that this text causes in the chart range. *)
Theorem missing_file_name_is_lost :
  (∀ (input_df : gmap string PyVal) (raw_output : bool),
      Predict.get_prediction Sample.rt Sample.dir_without_scaler input_df raw_output
      = PStr "Error: A required model file was not found. Please check your 'model' directory. Missing file: model/scaler.joblib")
  ∧ Route.index Sample.rt Sample.app_without_scaler POST ∅
    = {| projection_data :=
           Some (ProjectionError "Error: can't multiply sequence by non-int of type 'float'");
         form_data := ∅;
         closest_metro_name := Some "Union" |}.
Proof.
  split.
  - intros input_df raw_output.
    by rewrite (get_prediction_no_scaler _ Sample.dir_without_scaler _ _ eq_refl).
  - unfold Route.index. rewrite (sample_locate Sample.app_without_scaler eq_refl).
    rewrite (project_no_scaler Sample.rt Sample.app_without_scaler ∅ _ _ _ 1);
      reflexivity.
Qed.

End ProjectionRoute.

(** * Further properties of the code *)

(** ** The chart range beyond the two documented cases *)

Section ChartRangeMore.

Local Open Scope Q_scope.

(** X2: on a list of numbers whose least and greatest value differ and
    whose greatest value is not positive, [math.log10] raises its domain
    error: prices that differ and are all at most zero have no range.  On
    the empty list [min] raises. *)
Theorem y_axis_range_needs_positive_max :
  Chart.calculate_y_axis_range [] = Raise (EmptyArg "min")
  ∧ ∀ (qs : list Q) (mn mx : Q),
      mn ∈ qs → mx ∈ qs → (∀ x, x ∈ qs → mn <= x ∧ x <= mx) → ¬ mn == mx →
      mx <= 0 →
      Chart.calculate_y_axis_range (PNum <$> qs) = Raise (DomainError "log10").
Proof.
  split; [reflexivity|].
  intros qs mn mx Hmn Hmx Hall Hne Hle.
  destruct (extremes qs mn mx Hmn Hmx Hall) as (m & M & Hm & HM & Em & EM).
  rewrite (calculate_y_axis_range_nums _ m M Hm HM).
  rewrite Qeq_bool_false by (rewrite Em, EM; exact Hne).
  assert (Qle_bool M 0 = true) as ->; [|reflexivity].
  apply Qle_bool_iff. rewrite EM. exact Hle.
Qed.

Lemma y_axis_range_needs_positive_max_witness :
  Chart.calculate_y_axis_range (PNum <$> [-5; -2]) = Raise (DomainError "log10").
Proof.
  refine (proj2 y_axis_range_needs_positive_max [-5; -2] (-5) (-2) _ _ _ _ _).
  - apply list_elem_of_here.
  - apply list_elem_of_further, list_elem_of_here.
  - intros x Hx.
    repeat (apply elem_of_cons in Hx as [-> | Hx]; [split; discriminate|]).
    by apply elem_of_nil in Hx.
  - discriminate.
  - discriminate.
Defined.

End ChartRangeMore.

(** ** The chart range over doubles beyond the rounding rule *)

Section ChartRange64More.

Local Open Scope Q_scope.

(** X21: in doubles, when every prediction equals [v], the range is [v]
    less and plus the padding [|v * 0.1|], product, difference and sum
    each rounded to a double, and [(-1.0, 1.0)] when [v] is zero; so
    [100, 100, 100] gives [(90.0, 110.0)]. *)
Theorem y_axis_range_constant_in_doubles :
  (∀ (lm : Libm) (qs : list Q) (v : Q),
      qs ≠ [] → (∀ x, x ∈ qs → x == v) →
      Chart64.calculate_y_axis_range lm qs =
        if Qeq_bool v 0
        then Ok (NFloat (Double.Finite (-1)), NFloat (Double.Finite 1))
        else
          let padding :=
            Double.abs (Double.round (v * Double.literal 1 (-1))) in
          Ok (NFloat (Double.sub (Double.Finite v) padding),
              NFloat (Double.add (Double.Finite v) padding)))
  ∧ Chart64.calculate_y_axis_range Sample.libm [100; 100; 100]
    = Ok (NFloat (Double.Finite 90), NFloat (Double.Finite 110))
  ∧ Chart64.calculate_y_axis_range Sample.libm [0; 0; 0]
    = Ok (NFloat (Double.Finite (-1)), NFloat (Double.Finite 1)).
Proof.
  split; [|split; vm_compute; reflexivity].
  intros lm qs v Hne Hall.
  destruct (min_nums qs Hne) as (m0 & _ & Hm0 & _).
  destruct (extremes64 qs m0 m0 Hm0 Hm0) as (m & M & Hm & HM & Em & EM).
  { intros x Hx. rewrite (Hall x Hx), (Hall m0 Hm0). split; apply Qle_refl. }
  pose proof (Hall m0 Hm0) as E0. rewrite E0 in Em, EM.
  unfold Chart64.calculate_y_axis_range. rewrite Hm, HM, !bind_Ok.
  assert (Qeq_bool m M = true) as -> by (apply Qeq_bool_iff; by rewrite Em, EM).
  assert (Qeq_bool m 0 = Qeq_bool v 0) as ->.
  { destruct (Qeq_bool v 0) eqn:Ev.
    - apply Qeq_bool_iff. apply Qeq_bool_iff in Ev. by rewrite Em.
    - apply Qeq_bool_false. intros H. rewrite Em in H.
      apply Qeq_bool_iff in H. congruence. }
  destruct (Qeq_bool v 0) eqn:Ev; cbn [negb].
  - apply Qeq_bool_iff in Ev. rewrite bind_Ok.
    cbn [Py64.sub Py64.add Py64.arith Py64.float].
    change (Double.round (inject_Z 1)) with (Double.round 1).
    assert (Double.round 1 = Double.Finite 1) as -> by (vm_compute; reflexivity).
    rewrite !bind_Ok. cbn [Double.sub Double.add Double.opp].
    rewrite (round_proper (m + - (1)) (-1)) by (rewrite Em, Ev; reflexivity).
    rewrite (round_proper (M + 1) 1) by (rewrite EM, Ev; reflexivity).
    vm_compute. reflexivity.
  - cbn [Py64.mul Py64.arith Py64.float]. rewrite !bind_Ok.
    cbn [Py64.abs Py64.sub Py64.add Py64.arith Py64.float Double.mul].
    rewrite !bind_Ok. cbv zeta.
    rewrite (round_proper (m * Double.literal 1 (-1)) (v * Double.literal 1 (-1)))
      by (by rewrite Em).
    destruct (Double.abs (Double.round (v * Double.literal 1 (-1)))) as [p| |];
      cbn [Double.sub Double.add Double.opp]; try reflexivity.
    rewrite (round_proper (m + - p) (v + - p)) by (by rewrite Em).
    rewrite (round_proper (M + p) (v + p)) by (by rewrite EM).
    reflexivity.
Qed.

Lemma y_axis_range_constant_in_doubles_witness :
  Chart64.calculate_y_axis_range Sample.libm [100; 100; 100] =
    if Qeq_bool 100 0
    then Ok (NFloat (Double.Finite (-1)), NFloat (Double.Finite 1))
    else
      let padding :=
        Double.abs (Double.round (100 * Double.literal 1 (-1))) in
      Ok (NFloat (Double.sub (Double.Finite 100) padding),
          NFloat (Double.add (Double.Finite 100) padding)).
Proof.
  apply (proj1 y_axis_range_constant_in_doubles Sample.libm [100; 100; 100] 100).
  - discriminate.
  - intros x Hx. repeat (apply elem_of_cons in Hx as [-> | Hx]; [reflexivity|]).
    by apply elem_of_nil in Hx.
Defined.

(** X22: in doubles the second adjustment is reached.  On
    [0.7, 0.7000000000000001] both quotients by the unit [0.01] round to
    [70.0], so both products are [0.7000000000000001] and each bound
    moves out by one unit. *)
Theorem y_axis_range_collapses_in_doubles :
  Double.round (Double.literal 7 (-1) / Double.literal 1 (-2)) = Double.Finite 70
  ∧ Double.round (Double.literal 7000000000000001 (-16) / Double.literal 1 (-2))
    = Double.Finite 70
  ∧ Double.round (70 * Double.literal 1 (-2))
    = Double.Finite (Double.literal 7000000000000001 (-16))
  ∧ Chart64.calculate_y_axis_range Sample.libm
      [Double.literal 7 (-1); Double.literal 7000000000000001 (-16)]
    = Ok (NFloat (Double.Finite (Double.literal 6900000000000001 (-16))),
          NFloat (Double.Finite (Double.literal 7100000000000001 (-16)))).
Proof. repeat split; vm_compute; reflexivity. Qed.

(** X23: in doubles, a greatest value that is not positive makes
    [math.log10] raise its domain error whenever the extremes differ, and
    a positive one does not ensure a range: on [0.0, 5e-324] the unit
    [10 ** -325] underflows to zero and the request raises. *)
Theorem y_axis_range_raises_in_doubles :
  (∀ (lm : Libm) (qs : list Q) (mn mx : Q),
      mn ∈ qs → mx ∈ qs → (∀ x, x ∈ qs → mn <= x ∧ x <= mx) → ¬ mn == mx →
      mx <= 0 →
      Chart64.calculate_y_axis_range lm qs = Raise (DomainError "log10"))
  ∧ Math.pow Sample.libm 10 (-325) = 0
  ∧ ∃ e, Chart64.calculate_y_axis_range Sample.libm [0; Double.literal 5 (-324)] = Raise e.
Proof.
  split; [|split; [vm_compute; reflexivity | eexists; vm_compute; reflexivity]].
  intros lm qs mn mx Hmn Hmx Hall Hne Hle.
  destruct (extremes64 qs mn mx Hmn Hmx Hall) as (m & M & Hm & HM & Em & EM).
  unfold Chart64.calculate_y_axis_range. rewrite Hm, HM, !bind_Ok.
  rewrite Qeq_bool_false by (rewrite Em, EM; exact Hne).
  unfold Py64.math_log10.
  assert (Qle_bool M 0 = true) as -> by (apply Qle_bool_iff; by rewrite EM).
  reflexivity.
Qed.

Lemma y_axis_range_raises_in_doubles_witness :
  Chart64.calculate_y_axis_range Sample.libm [-5; -2] = Raise (DomainError "log10").
Proof.
  refine (proj1 y_axis_range_raises_in_doubles Sample.libm [-5; -2] (-5) (-2) _ _ _ _ _).
  - apply list_elem_of_here.
  - apply list_elem_of_further, list_elem_of_here.
  - intros x Hx.
    repeat (apply elem_of_cons in Hx as [-> | Hx]; [split; discriminate|]).
    by apply elem_of_nil in Hx.
  - discriminate.
  - discriminate.
Defined.

End ChartRange64More.

(** ** More on the distance and the lookup *)

Section GeoMore.

Local Open Scope R_scope.
Local Open Scope list_scope.

(** X4: a distance that the function returns is never negative and never
    more than half the circumference of the sphere, [pi * 6371] km. *)
Theorem haversine_bounded (lon1 lat1 lon2 lat2 d : R) :
  Geo.haversine lon1 lat1 lon2 lat2 = Ok d → 0 <= d ∧ d <= PI * 6371.
Proof.
  intros Hd. split; [by eapply haversine_nonneg|].
  rewrite haversine_value in Hd.
  match type of Hd with
  | Ok (2 * asin ?s * 6371) = _ => pose proof (asin_bound s) as [_ Hb]
  end.
  set (v := 2 * asin _ * 6371) in Hd, Hb |- *.
  assert (d = v) as -> by congruence. unfold v. lra.
Qed.

Lemma haversine_bounded_witness : 0 <= 0 ∧ 0 <= PI * 6371.
Proof. exact (haversine_bounded 55 25 55 25 0 (haversine_same 55 25)). Defined.

Lemma abs_sin_small (y : R) : Rabs y <= PI / 2 → Rabs (sin y) = sin (Rabs y).
Proof.
  intros Hy. pose proof PI_RGT_0 as Hpi.
  destruct (Rle_lt_dec 0 y) as [Hpos|Hneg].
  - rewrite (Rabs_pos_eq y) in * by exact Hpos.
    apply Rabs_pos_eq. apply sin_ge_0; lra.
  - rewrite (Rabs_left y) in * by exact Hneg.
    assert (0 <= sin (- y)) as H by (apply sin_ge_0; lra).
    rewrite sin_neg in *. rewrite Rabs_left1 by lra. reflexivity.
Qed.

(** X5: between two points of one meridian at most 180 degrees of
    latitude apart, the distance is the arc: the radius times the
    difference of latitude in radians. *)
Theorem haversine_along_meridian (lon lat1 lat2 : R) :
  Rabs (lat2 - lat1) <= 180 →
  Geo.haversine lon lat1 lon lat2 = Ok (6371 * (Rabs (lat2 - lat1) * (PI / 180))).
Proof.
  intros Hdeg. rewrite haversine_value. f_equal.
  pose proof PI_RGT_0 as Hpi.
  set (y := (Geo.radians lat2 - Geo.radians lat1) / 2).
  assert (Rabs y = Rabs (lat2 - lat1) * (PI / 180) / 2) as Hy.
  { unfold y, Geo.radians.
    replace ((lat2 * (PI / 180) - lat1 * (PI / 180)) / 2)
      with ((lat2 - lat1) * (PI / 360)) by field.
    rewrite Rabs_mult, (Rabs_pos_eq (PI / 360)) by lra. field. }
  assert (Rabs y <= PI / 2) as Hsmall.
  { rewrite Hy. apply Rle_trans with (180 * (PI / 180) / 2); [|lra].
    apply Rmult_le_compat_r; [lra|]. apply Rmult_le_compat_r; lra. }
  rewrite Rminus_diag. replace (0 / 2) with 0 by field. rewrite sin_0.
  replace (sin y ^ 2 + cos (Geo.radians lat1) * cos (Geo.radians lat2) * 0 ^ 2)
    with (Rsqr (sin y)) by (unfold Rsqr; ring).
  rewrite sqrt_Rsqr_abs, abs_sin_small by exact Hsmall.
  rewrite asin_sin; [rewrite Hy; field|].
  pose proof (Rabs_pos y). lra.
Qed.

Lemma haversine_along_meridian_witness :
  Geo.haversine 55 25 55 26 = Ok (6371 * (Rabs (26 - 25) * (PI / 180))).
Proof.
  apply haversine_along_meridian.
  replace (26 - 25) with 1 by ring. rewrite Rabs_R1. lra.
Defined.

(** X6: a longitude and the same longitude plus 360 degrees give the same
    distance. *)
Theorem haversine_longitude_period (lon1 lat1 lon2 lat2 : R) :
  Geo.haversine (lon1 + 360) lat1 lon2 lat2 = Geo.haversine lon1 lat1 lon2 lat2.
Proof.
  rewrite !haversine_value.
  assert (Geo.radians (lon1 + 360) = Geo.radians lon1 + 2 * PI) as ->
    by (unfold Geo.radians; field).
  assert (∀ a b, sin ((a - (b + 2 * PI)) / 2) ^ 2 = sin ((a - b) / 2) ^ 2) as Hshift.
  { intros a b. rewrite !sin_half_sqr.
    replace (a - (b + 2 * PI)) with ((a - b) - 2 * PI) by ring.
    rewrite cos_minus, cos_2PI, sin_2PI. field. }
  rewrite Hshift. reflexivity.
Qed.

(** X7: when the query is the position of a stored station, the lookup
    returns a station at distance zero. *)
Theorem find_closest_metro_at_station (metro_df : list MetroRow)
        (user_lat user_lon : Q) (station : MetroRow) :
  station ∈ metro_df →
  (latitude station == user_lat)%Q → (longitude station == user_lon)%Q →
  ∃ row, Geo.find_closest_metro metro_df user_lat user_lon = Ok (Some row)
         ∧ row ∈ metro_df
         ∧ Geo.distance_to user_lat user_lon row = Ok 0.
Proof.
  intros Hin Hlat Hlon.
  assert (metro_df ≠ []) as Hne by (intros ->; by apply elem_of_nil in Hin).
  destruct (find_closest_metro_spec metro_df user_lat user_lon Hne)
    as (i & row & d & Hres & Hrow & Hd & Hothers).
  apply list_elem_of_lookup_1 in Hin as [j Hj].
  destruct (Hothers j station Hj) as (d' & Hd' & Hle & _).
  unfold Geo.distance_to in Hd'.
  rewrite (Qeq_eqR _ _ Hlat), (Qeq_eqR _ _ Hlon), haversine_same in Hd'.
  assert (d' = 0) as -> by congruence.
  pose proof (haversine_nonneg _ _ _ _ _ Hd) as Hd0.
  assert (d = 0) as -> by lra.
  exists row. split; [exact Hres|]. split; [|exact Hd].
  by eapply list_elem_of_lookup_2.
Qed.

Lemma find_closest_metro_at_station_witness :
  ∃ row, Geo.find_closest_metro [Sample.station] (25266 # 1000) (55314 # 1000)
         = Ok (Some row)
         ∧ row ∈ [Sample.station]
         ∧ Geo.distance_to (25266 # 1000) (55314 # 1000) row = Ok 0.
Proof.
  apply (find_closest_metro_at_station [Sample.station] _ _ Sample.station).
  - apply list_elem_of_here.
  - reflexivity.
  - reflexivity.
Defined.

End GeoMore.

(** ** More on the scaling stage *)

Section ScalingMore.

Implicit Types (df : gmap string PyVal) (cols : list string) (data : list Q).

Lemma write_back_other df cols data (col : string) :
  col ∉ cols →
  foldl (λ df cv, <[cv.1 := PNum cv.2]> df) df (zip cols data) !! col = df !! col.
Proof.
  revert df data. induction cols as [|c cols IH]; intros df data Hnot; [done|].
  destruct data as [|v data]; [done|]. cbn [zip zip_with foldl].
  rewrite IH by (intros H; apply Hnot; by apply list_elem_of_further).
  cbn. apply lookup_insert_ne. intros ->. apply Hnot, list_elem_of_here.
Qed.

Lemma write_back_listed df cols data (col : string) :
  length cols = length data → col ∈ cols →
  ∃ q, foldl (λ df cv, <[cv.1 := PNum cv.2]> df) df (zip cols data) !! col
       = Some (PNum q).
Proof.
  revert df data. induction cols as [|c cols IH]; intros df data Hlen Hin.
  - by apply elem_of_nil in Hin.
  - destruct data as [|v data]; [discriminate|]. cbn [zip zip_with foldl].
    destruct (decide (col ∈ cols)) as [Hlater|Hnot].
    + apply IH; [by injection Hlen | exact Hlater].
    + apply elem_of_cons in Hin as [->|Hin]; [|contradiction].
      exists v. rewrite write_back_other by exact Hnot. cbn. apply lookup_insert_eq.
Qed.

Lemma write_back_at df cols data (i : nat) (c : string) (v : Q) :
  NoDup cols → cols !! i = Some c → data !! i = Some v →
  foldl (λ df cv, <[cv.1 := PNum cv.2]> df) df (zip cols data) !! c = Some (PNum v).
Proof.
  revert df data i. induction cols as [|c0 cols IH]; intros df data i Hnd Hc Hv; [done|].
  destruct data as [|v0 data]; [done|]. cbn [zip zip_with foldl].
  apply NoDup_cons in Hnd as [Hfresh Hnd].
  destruct i as [|i].
  - injection Hc as ->. injection Hv as ->.
    rewrite write_back_other by exact Hfresh. cbn. apply lookup_insert_eq.
  - by apply (IH _ _ i).
Qed.

Lemma apply_scaling_inv (scaler : Scaler) df cols (processed : gmap string PyVal) :
  cols ≠ [] →
  Predict.apply_scaling scaler cols df = Ok processed →
  ∃ scaled,
    transform scaler ((λ col, default (PNum 0) (df !! col)) <$> cols) = Ok scaled
    ∧ length cols = length scaled
    ∧ processed
      = foldl (λ df cv, <[cv.1 := PNum cv.2]> df) (Predict.fill_missing df cols)
              (zip cols scaled).
Proof.
  intros Hne. unfold Predict.apply_scaling. destruct cols as [|c cols]; [done|].
  rewrite select_filled, bind_Ok.
  destruct (transform scaler _) as [scaled|e]; [|discriminate]. rewrite bind_Ok.
  unfold Predict.assign. destruct (Nat.eqb _ _) eqn:Hlen; [|discriminate].
  apply Nat.eqb_eq in Hlen. intros [= <-]. eauto.
Qed.

(** X8: a scaling stage that goes through leaves every column outside
    the scaler's list as the input frame had it (absent columns stay
    absent), and leaves a number in every listed column. *)
Theorem scaling_touches_listed_only (scaler : Scaler) df cols
        (processed : gmap string PyVal) :
  Predict.apply_scaling scaler cols df = Ok processed →
  (∀ col, col ∉ cols → processed !! col = df !! col)
  ∧ (∀ col, col ∈ cols → ∃ q, processed !! col = Some (PNum q)).
Proof.
  intros Hok. destruct cols as [|c cols].
  - injection Hok as <-. split; [done|]. intros col Hin. by apply elem_of_nil in Hin.
  - destruct (apply_scaling_inv scaler df (c :: cols) processed ltac:(done) Hok)
      as (scaled & _ & Hlen & ->).
    split.
    + intros col Hnot. rewrite write_back_other by exact Hnot.
      rewrite fill_missing_lookup. destruct (df !! col); [done|].
      by rewrite decide_False.
    + intros col Hin. by apply write_back_listed.
Qed.

Lemma scaling_touches_listed_only_witness :
  (∀ col, col ∉ ["latitude"; "distance"] →
          ({[ "latitude" := PNum 0; "distance" := PNum 0; "year" := PNum 2025 ]}
             : gmap string PyVal) !! col
          = ({[ "latitude" := PNum 25; "year" := PNum 2025 ]} : gmap string PyVal) !! col)
  ∧ (∀ col, col ∈ ["latitude"; "distance"] →
            ∃ q, ({[ "latitude" := PNum 0; "distance" := PNum 0; "year" := PNum 2025 ]}
                    : gmap string PyVal) !! col = Some (PNum q)).
Proof.
  apply (scaling_touches_listed_only Sample.scaler
           {[ "latitude" := PNum 25; "year" := PNum 2025 ]} ["latitude"; "distance"]).
  vm_compute. reflexivity.
Defined.

(** X9: when the scaler's list names no column twice and the stage goes
    through, the column named at each position of the list holds the
    number that the transform returned at that position; the transform
    was run on the row's cells with zero for the columns the row lacks. *)
Theorem scaled_values_land (scaler : Scaler) df cols (processed : gmap string PyVal) :
  cols ≠ [] → NoDup cols →
  Predict.apply_scaling scaler cols df = Ok processed →
  ∃ scaled,
    transform scaler ((λ col, default (PNum 0) (df !! col)) <$> cols) = Ok scaled
    ∧ length scaled = length cols
    ∧ ∀ (i : nat) (col : string) (v : Q),
        cols !! i = Some col → scaled !! i = Some v →
        processed !! col = Some (PNum v).
Proof.
  intros Hne Hnd Hok.
  destruct (apply_scaling_inv scaler df cols processed Hne Hok)
    as (scaled & Htr & Hlen & ->).
  exists scaled. split; [exact Htr|]. split; [done|].
  intros i col v Hc Hv. by apply (write_back_at _ _ _ i).
Qed.

Lemma scaled_values_land_witness :
  ∃ scaled,
    transform Sample.scaler
      ((λ col, default (PNum 0)
                 (({[ "latitude" := PNum 25; "year" := PNum 2025 ]} : gmap string PyVal)
                    !! col)) <$> ["latitude"; "distance"]) = Ok scaled
    ∧ length scaled = length ["latitude"; "distance"]
    ∧ ∀ (i : nat) (col : string) (v : Q),
        ["latitude"; "distance"] !! i = Some col → scaled !! i = Some v →
        ({[ "latitude" := PNum 0; "distance" := PNum 0; "year" := PNum 2025 ]}
           : gmap string PyVal) !! col = Some (PNum v).
Proof.
  apply (scaled_values_land Sample.scaler
           {[ "latitude" := PNum 25; "year" := PNum 2025 ]} ["latitude"; "distance"]).
  - discriminate.
  - repeat constructor; set_solver.
  - vm_compute. reflexivity.
Defined.

End ScalingMore.

(** ** The two layers of the stacked model *)

Section Stacking.

Implicit Types (df : gmap string PyVal) (cols : list string).

Lemma select_present df cols :
  (∀ col, col ∈ cols → is_Some (df !! col)) →
  ∃ cells, Predict.select df cols = Ok cells
           ∧ length cells = length cols
           ∧ ∀ (i : nat) (col : string), cols !! i = Some col → cells !! i = df !! col.
Proof.
  intros Hall. unfold Predict.select.
  destruct (mapM (λ col, df !! col) cols) as [cells|] eqn:Hm.
  - exists cells. split; [done|]. apply mapM_Some_1 in Hm.
    split; [symmetry; by eapply Forall2_length|].
    intros i col Hi.
    destruct (Forall2_lookup_l _ _ _ _ _ Hm Hi) as (cell & Hcell & Hdf). congruence.
  - apply mapM_None_1, Exists_exists in Hm as (col & Hin & Hnone).
    destruct (Hall col Hin) as [v Hv]. congruence.
Qed.

Lemma select_absent df cols (col : string) :
  col ∈ cols → df !! col = None →
  ∃ missing, Predict.select df cols = Raise (KeyError missing) ∧ col ∈ missing.
Proof.
  intros Hin Hnone. unfold Predict.select.
  rewrite (mapM_None_2 (λ col, df !! col) cols)
    by (apply Exists_exists; eauto).
  eexists. split; [reflexivity|]. by apply list_elem_of_filter.
Qed.

(** The pipeline once all six files load and the scaling stage has
    produced [processed]: the three base models in order, then the meta
    model on the frame of their predictions. *)
Lemma predict_body_loaded (dir : ModelDir) df (scaler : Scaler) cols
      (processed : gmap string PyVal) (rf xgb lin meta : Regressor) :
  scaler_joblib dir = Stored scaler →
  scaled_features_list_joblib dir = Stored cols →
  random_forest_joblib dir = Stored rf →
  xgboost_joblib dir = Stored xgb →
  linear_reg_joblib dir = Stored lin →
  meta_model_joblib dir = Stored meta →
  Predict.apply_scaling scaler cols df = Ok processed →
  Predict.predict_body dir df =
    (x1 ← Predict.select processed (feature_names rf);
     p1 ← predict rf x1;
     x2 ← Predict.select processed (feature_names xgb);
     p2 ← predict xgb x2;
     x3 ← Predict.select processed (feature_names lin);
     p3 ← predict lin x3;
     x ← Predict.select
            (<["linear_reg" := PNum p3]>
               (<["xgboost" := PNum p2]> (<["random_forest" := PNum p1]> ∅)))
            (feature_names meta);
     predict meta x).
Proof.
  intros E1 E2 E3 E4 E5 E6 Hscale. unfold Predict.predict_body.
  rewrite E1, E2. cbn [Predict.joblib_load]. rewrite !bind_Ok, Hscale, bind_Ok.
  rewrite !mapM_result_cons.
  cbn [Predict.base_model_file String.eqb Ascii.eqb Bool.eqb].
  rewrite E3, E4, E5, E6. cbn [Predict.joblib_load mapM mret result_ret].
  rewrite !bind_Ok. rewrite !mapM_result_cons. cbn [fst snd mapM mret result_ret].
  destruct (Predict.select processed (feature_names rf)) as [x1|?]; [|done].
  rewrite !bind_Ok. destruct (predict rf x1) as [p1|?]; [|done]. rewrite !bind_Ok.
  destruct (Predict.select processed (feature_names xgb)) as [x2|?]; [|done].
  rewrite !bind_Ok. destruct (predict xgb x2) as [p2|?]; [|done]. rewrite !bind_Ok.
  destruct (Predict.select processed (feature_names lin)) as [x3|?]; [|done].
  rewrite !bind_Ok. destruct (predict lin x3) as [p3|?]; [|done]. rewrite !bind_Ok.
  reflexivity.
Qed.

(** X10: with all six files loaded and the scaling stage and the three
    base models gone through, the meta model is run on the base predictions
    picked by the names in its own feature list: at each position stands
    the prediction of the base model named there.  A feature name that is
    none of the three base names makes the pipeline raise a [KeyError]
    that lists it. *)
Theorem meta_model_sees_base_predictions (dir : ModelDir) df (scaler : Scaler) cols
        (processed : gmap string PyVal) (rf xgb lin meta : Regressor)
        (x1 x2 x3 : list PyVal) (p1 p2 p3 : Q) :
  scaler_joblib dir = Stored scaler →
  scaled_features_list_joblib dir = Stored cols →
  random_forest_joblib dir = Stored rf →
  xgboost_joblib dir = Stored xgb →
  linear_reg_joblib dir = Stored lin →
  meta_model_joblib dir = Stored meta →
  Predict.apply_scaling scaler cols df = Ok processed →
  Predict.select processed (feature_names rf) = Ok x1 → predict rf x1 = Ok p1 →
  Predict.select processed (feature_names xgb) = Ok x2 → predict xgb x2 = Ok p2 →
  Predict.select processed (feature_names lin) = Ok x3 → predict lin x3 = Ok p3 →
  ((∀ n, n ∈ feature_names meta → n ∈ ["random_forest"; "xgboost"; "linear_reg"]) →
   ∃ cells,
     Predict.predict_body dir df = predict meta cells
     ∧ length cells = length (feature_names meta)
     ∧ ∀ i : nat,
         (feature_names meta !! i = Some "random_forest" → cells !! i = Some (PNum p1))
         ∧ (feature_names meta !! i = Some "xgboost" → cells !! i = Some (PNum p2))
         ∧ (feature_names meta !! i = Some "linear_reg" → cells !! i = Some (PNum p3)))
  ∧ (∀ n, n ∈ feature_names meta → n ∉ ["random_forest"; "xgboost"; "linear_reg"] →
          ∃ missing, n ∈ missing
                     ∧ Predict.predict_body dir df = Raise (KeyError missing)).
Proof.
  intros E1 E2 E3 E4 E5 E6 Hscale Hx1 Hp1 Hx2 Hp2 Hx3 Hp3.
  rewrite (predict_body_loaded dir df scaler cols processed rf xgb lin meta
             E1 E2 E3 E4 E5 E6 Hscale).
  rewrite Hx1, bind_Ok, Hp1, bind_Ok, Hx2, bind_Ok, Hp2, bind_Ok, Hx3, bind_Ok, Hp3, bind_Ok.
  set (meta_features_df := <["linear_reg" := PNum p3]> _).
  assert (meta_features_df !! "random_forest" = Some (PNum p1)) as Hrf by done.
  assert (meta_features_df !! "xgboost" = Some (PNum p2)) as Hxgb by done.
  assert (meta_features_df !! "linear_reg" = Some (PNum p3)) as Hlin by done.
  split.
  - intros Hknown.
    destruct (select_present meta_features_df (feature_names meta))
      as (cells & Hsel & Hlen & Hcells).
    { intros n Hn. specialize (Hknown n Hn).
      repeat (apply elem_of_cons in Hknown as [-> | Hknown]; [by eexists|]).
      by apply elem_of_nil in Hknown. }
    exists cells. rewrite Hsel, bind_Ok. split; [done|]. split; [done|].
    intros i. repeat split; intros Hi; rewrite (Hcells i _ Hi); assumption.
  - intros n Hn Hforeign.
    destruct (select_absent meta_features_df (feature_names meta) n Hn)
      as (missing & Hsel & Hin).
    { unfold meta_features_df.
      rewrite !lookup_insert_ne; [done | | |]; intros <-; apply Hforeign;
        repeat first [apply list_elem_of_here | apply list_elem_of_further]. }
    exists missing. by rewrite Hsel.
Qed.

Lemma meta_model_sees_base_predictions_witness :
  ∃ cells,
    Predict.predict_body Sample.dir {[ "year" := PNum 2025; "rooms_en" := PNum 1 ]}
    = predict Sample.meta cells
    ∧ length cells = length (feature_names Sample.meta)
    ∧ ∀ i : nat,
        (feature_names Sample.meta !! i = Some "random_forest" → cells !! i = Some (PNum 90))
        ∧ (feature_names Sample.meta !! i = Some "xgboost" → cells !! i = Some (PNum 100))
        ∧ (feature_names Sample.meta !! i = Some "linear_reg" → cells !! i = Some (PNum 110)).
Proof.
  refine (proj1 (meta_model_sees_base_predictions Sample.dir
                   {[ "year" := PNum 2025; "rooms_en" := PNum 1 ]}
                   Sample.scaler _ _ _ _ _ Sample.meta
                   [PNum 2025; PNum 1] [PNum 2025; PNum 1] [PNum 2025; PNum 1] 90 100 110
                   eq_refl eq_refl eq_refl eq_refl eq_refl eq_refl
                   _ _ _ _ _ _ _) _).
  - vm_compute. reflexivity.
  - vm_compute. reflexivity.
  - reflexivity.
  - vm_compute. reflexivity.
  - reflexivity.
  - vm_compute. reflexivity.
  - reflexivity.
  - intros n Hn. exact Hn.
Defined.

Lemma apply_scaling_keeps_other (scaler : Scaler) df cols
      (processed : gmap string PyVal) (col : string) :
  Predict.apply_scaling scaler cols df = Ok processed →
  col ∉ cols → processed !! col = df !! col.
Proof.
  intros Hok Hnot. destruct cols as [|c cols]; [by injection Hok as <-|].
  destruct (apply_scaling_inv scaler df (c :: cols) processed ltac:(done) Hok)
    as (scaled & _ & _ & ->).
  rewrite write_back_other by exact Hnot.
  rewrite fill_missing_lookup. destruct (df !! col); [done|]. by rewrite decide_False.
Qed.

(** X11: the safety net covers the scaler's columns only.  When the input
    frame lacks a column that is not in the scaler's list and that one of
    the three base models names among its features, the pipeline raises,
    whatever else the files hold, and [get_prediction] returns a message
    text instead of a price. *)
Theorem model_feature_not_defaulted (rt : Runtime) (dir : ModelDir) df
        (col : string) (raw_output : bool) :
  df !! col = None →
  (∀ cols, scaled_features_list_joblib dir = Stored cols → col ∉ cols) →
  ((∃ m, random_forest_joblib dir = Stored m ∧ col ∈ feature_names m)
   ∨ (∃ m, xgboost_joblib dir = Stored m ∧ col ∈ feature_names m)
   ∨ (∃ m, linear_reg_joblib dir = Stored m ∧ col ∈ feature_names m)) →
  (∃ e, Predict.predict_body dir df = Raise e)
  ∧ ∃ msg, Predict.get_prediction rt dir df raw_output = PStr msg.
Proof.
  intros Hnone Hunlisted Hneeded.
  assert (∃ e, Predict.predict_body dir df = Raise e) as [e He];
    [|split; [eauto | by eapply get_prediction_raise]].
  destruct (scaler_joblib dir) as [|?|scaler] eqn:E1;
    [unfold Predict.predict_body; rewrite E1; cbn; eauto..|].
  destruct (scaled_features_list_joblib dir) as [|?|cols] eqn:E2;
    [unfold Predict.predict_body; rewrite E1, E2; cbn; eauto..|].
  destruct (random_forest_joblib dir) as [|?|rf] eqn:E3;
    [eapply predict_body_missing; unfold some_file_missing; eauto 10
    |unfold Predict.predict_body; rewrite E1, E2; cbn [Predict.joblib_load];
     rewrite !bind_Ok; destruct (Predict.apply_scaling _ _ _); [|cbn; eauto];
     rewrite bind_Ok, mapM_result_cons;
     cbn [Predict.base_model_file String.eqb Ascii.eqb Bool.eqb];
     rewrite E3; cbn; eauto|].
  destruct (xgboost_joblib dir) as [|?|xgb] eqn:E4;
    [eapply predict_body_missing; unfold some_file_missing; eauto 10
    |unfold Predict.predict_body; rewrite E1, E2; cbn [Predict.joblib_load];
     rewrite !bind_Ok; destruct (Predict.apply_scaling _ _ _); [|cbn; eauto];
     rewrite bind_Ok, !mapM_result_cons;
     cbn [Predict.base_model_file String.eqb Ascii.eqb Bool.eqb];
     rewrite E3, E4; cbn; eauto|].
  destruct (linear_reg_joblib dir) as [|?|lin] eqn:E5;
    [eapply predict_body_missing; unfold some_file_missing; eauto 10
    |unfold Predict.predict_body; rewrite E1, E2; cbn [Predict.joblib_load];
     rewrite !bind_Ok; destruct (Predict.apply_scaling _ _ _); [|cbn; eauto];
     rewrite bind_Ok, !mapM_result_cons;
     cbn [Predict.base_model_file String.eqb Ascii.eqb Bool.eqb];
     rewrite E3, E4, E5; cbn; eauto|].
  destruct (meta_model_joblib dir) as [|?|meta] eqn:E6;
    [eapply predict_body_missing; unfold some_file_missing; eauto 10
    |unfold Predict.predict_body; rewrite E1, E2; cbn [Predict.joblib_load];
     rewrite !bind_Ok; destruct (Predict.apply_scaling _ _ _); [|cbn; eauto];
     rewrite bind_Ok, !mapM_result_cons;
     cbn [Predict.base_model_file String.eqb Ascii.eqb Bool.eqb];
     rewrite E3, E4, E5, E6; cbn; eauto|].
  destruct (Predict.apply_scaling scaler cols df) as [processed|e] eqn:Hscale;
    [|unfold Predict.predict_body; rewrite E1, E2; cbn [Predict.joblib_load];
      rewrite !bind_Ok, Hscale; cbn; eauto].
  rewrite (predict_body_loaded dir df scaler cols processed rf xgb lin meta
             E1 E2 E3 E4 E5 E6 Hscale).
  assert (processed !! col = None) as Hgone.
  { rewrite (apply_scaling_keeps_other _ _ _ _ _ Hscale); [done | by apply Hunlisted]. }
  assert (∀ m : Regressor, col ∈ feature_names m →
            ∃ missing, Predict.select processed (feature_names m) = Raise (KeyError missing))
    as Hfail.
  { intros m Hm. destruct (select_absent processed _ col Hm Hgone) as (? & ? & _). eauto. }
  destruct (Predict.select processed (feature_names rf)) as [x1|?] eqn:S1; [|cbn; eauto].
  rewrite bind_Ok. destruct (predict rf x1) as [p1|?]; [|cbn; eauto]. rewrite bind_Ok.
  destruct (Predict.select processed (feature_names xgb)) as [x2|?] eqn:S2; [|cbn; eauto].
  rewrite bind_Ok. destruct (predict xgb x2) as [p2|?]; [|cbn; eauto]. rewrite bind_Ok.
  destruct (Predict.select processed (feature_names lin)) as [x3|?] eqn:S3; [|cbn; eauto].
  exfalso.
  destruct Hneeded as [(m & Em & Hm) | [(m & Em & Hm) | (m & Em & Hm)]];
    destruct (Hfail m Hm) as [missing Hsel]; congruence.
Qed.

Lemma model_feature_not_defaulted_witness :
  (∃ e, Predict.predict_body Sample.dir {[ "year" := PNum 2025 ]} = Raise e)
  ∧ ∃ msg, Predict.get_prediction Sample.rt Sample.dir {[ "year" := PNum 2025 ]} true
           = PStr msg.
Proof.
  apply (model_feature_not_defaulted Sample.rt Sample.dir {[ "year" := PNum 2025 ]}
           "rooms_en" true).
  - reflexivity.
  - intros cols [= <-]. set_solver.
  - left. exists (Sample.regressor 90). split; [reflexivity|].
    apply list_elem_of_further, list_elem_of_here.
Defined.

(** X12: the files are loaded in a fixed order and all of them before
    any model is run.  When a file is absent, every file loaded before it
    is stored and the scaling stage goes through, [get_prediction] returns
    the missing-file text naming that file, whatever the later files hold
    and whatever the models would compute. *)
Theorem first_missing_file_is_named (rt : Runtime) (dir : ModelDir) df
        (raw_output : bool) (a : Artifact) :
  artifact_missing dir a →
  (∀ b, artifact_rank b < artifact_rank a → artifact_stored dir b) →
  (∀ scaler cols, scaler_joblib dir = Stored scaler →
                  scaled_features_list_joblib dir = Stored cols →
                  ∃ processed, Predict.apply_scaling scaler cols df = Ok processed) →
  Predict.get_prediction rt dir df raw_output
  = PStr ("Error: A required model file was not found. Please check your 'model' directory. Missing file: "
          +:+ Predict.resource_path dir (artifact_filename a)).
Proof.
  intros Hmiss Hearlier Hscale.
  assert (Predict.predict_body dir df
          = Raise (FileNotFoundError (Predict.resource_path dir (artifact_filename a))))
    as Hbody; [|unfold Predict.get_prediction; by rewrite Hbody].
  unfold Predict.predict_body.
  destruct a; cbn in Hmiss;
    try (destruct (Hearlier ScalerFile ltac:(cbn; lia)) as [scaler E1]);
    try (destruct (Hearlier FeaturesFile ltac:(cbn; lia)) as [cols E2]);
    try (destruct (Hearlier RandomForestFile ltac:(cbn; lia)) as [rf E3]);
    try (destruct (Hearlier XgboostFile ltac:(cbn; lia)) as [xgb E4]);
    try (destruct (Hearlier LinearRegFile ltac:(cbn; lia)) as [lin E5]);
    try (destruct (Hscale _ _ E1 E2) as [processed Hproc]);
    rewrite ?E1, ?E2, ?Hmiss; cbn [Predict.joblib_load]; rewrite ?bind_Ok;
    try reflexivity;
    rewrite Hproc, bind_Ok, !mapM_result_cons;
    cbn [Predict.base_model_file String.eqb Ascii.eqb Bool.eqb];
    rewrite ?E3, ?E4, ?E5, ?Hmiss; cbn [Predict.joblib_load mapM mret result_ret];
    rewrite ?bind_Ok; reflexivity.
Qed.

Lemma first_missing_file_is_named_witness :
  Predict.get_prediction Sample.rt Sample.dir_without_xgboost_linear ∅ true
  = PStr ("Error: A required model file was not found. Please check your 'model' directory. Missing file: "
          +:+ Predict.resource_path Sample.dir_without_xgboost_linear
                (artifact_filename XgboostFile)).
Proof.
  apply (first_missing_file_is_named Sample.rt Sample.dir_without_xgboost_linear ∅ true
           XgboostFile).
  - reflexivity.
  - intros b Hb. destruct b; cbn in Hb; try lia; cbn; eauto.
  - intros scaler cols [= <-] [= <-]. eexists. vm_compute. reflexivity.
Defined.

End Stacking.

(** ** More on the projection route *)

Section RouteMore.

Local Open Scope Q_scope.

(** X14: of the submitted form the route reads the fields [latitude],
    [longitude] and [rooms] only: two forms that agree on these three give
    the same projection or error, and the same station name. *)
Theorem index_reads_three_fields (rt : Runtime) (app : App)
        (form1 form2 : gmap string string) :
  form1 !! "latitude" = form2 !! "latitude" →
  form1 !! "longitude" = form2 !! "longitude" →
  form1 !! "rooms" = form2 !! "rooms" →
  projection_data (Route.index rt app POST form1)
  = projection_data (Route.index rt app POST form2)
  ∧ closest_metro_name (Route.index rt app POST form1)
    = closest_metro_name (Route.index rt app POST form2).
Proof.
  intros Hlat Hlon Hrooms.
  assert (Route.locate rt app form1 = Route.locate rt app form2) as Hloc.
  { unfold Route.locate, Route.form_float. by rewrite Hlat, Hlon. }
  assert (∀ user_lat user_lon row,
            Route.project rt app form1 user_lat user_lon row
            = Route.project rt app form2 user_lat user_lon row) as Hproj.
  { intros. unfold Route.project, Route.form_int. by rewrite Hrooms. }
  unfold Route.index. rewrite Hloc.
  destruct (Route.locate rt app form2) as [[[user_lat user_lon] row]|e]; [|done].
  cbn [projection_data closest_metro_name]. by rewrite Hproj.
Qed.

Lemma index_reads_three_fields_witness :
  projection_data (Route.index Sample.rt Sample.app POST ∅)
  = projection_data (Route.index Sample.rt Sample.app POST {[ "unit" := "sqft" ]})
  ∧ closest_metro_name (Route.index Sample.rt Sample.app POST ∅)
    = closest_metro_name (Route.index Sample.rt Sample.app POST {[ "unit" := "sqft" ]}).
Proof.
  apply index_reads_three_fields; reflexivity.
Defined.

End RouteMore.

(** ** Prices at or below zero *)

Section BelowZero.

Local Open Scope Q_scope.

(** X15: when the four inference calls return numbers that are not all
    equal and of which none is positive, the request ends in an error
    message, the text of the domain error of [math.log10], although every
    inference call went through. *)
Theorem nonpositive_prices_give_error (rt : Runtime) (app : App)
        (form : gmap string string) (user_lat user_lon : Q) (row : MetroRow)
        (rooms : Z) (qs : list Q) (mn mx : Q) :
  Route.locate rt app form = Ok (user_lat, user_lon, row) →
  Route.form_int rt form "rooms" 1 = Ok rooms →
  (λ year, Predict.get_prediction rt (model_dir app)
             (Route.iter_df (Route.base_input_data row rooms user_lat user_lon) year) true)
    <$> Route.py_range (today_year app) (today_year app + 4) = PNum <$> qs →
  mn ∈ qs → mx ∈ qs → (∀ x, x ∈ qs → mn <= x ∧ x <= mx) → ¬ mn == mx → mx <= 0 →
  projection_data (Route.index rt app POST form)
  = Some (ProjectionError ("Error: " +:+ exn_text rt (DomainError "log10"))).
Proof.
  intros Hloc Hrooms Hvalues Hmn Hmx Hall Hne Hle.
  unfold Route.index. rewrite Hloc. cbn [projection_data].
  unfold Route.project. rewrite Hrooms, bind_Ok. cbv zeta.
  change (map ?f ?l) with (f <$> l). rewrite Hvalues.
  destruct (extremes qs mn mx Hmn Hmx Hall) as (m & M & Hm & HM & Em & EM).
  rewrite (calculate_y_axis_range_nums _ m M Hm HM).
  rewrite Qeq_bool_false by (rewrite Em, EM; exact Hne).
  assert (Qle_bool M 0 = true) as -> by (apply Qle_bool_iff; by rewrite EM).
  reflexivity.
Qed.

Lemma nonpositive_prices_give_error_witness :
  projection_data (Route.index Sample.rt Sample.app_below_zero POST ∅)
  = Some (ProjectionError ("Error: " +:+ exn_text Sample.rt (DomainError "log10"))).
Proof.
  apply (nonpositive_prices_give_error Sample.rt Sample.app_below_zero ∅
           (252048 # 10000) (552708 # 10000) Sample.station 1
           [-975; -974; -973; -972] (-975) (-972)).
  - by apply sample_locate.
  - reflexivity.
  - vm_compute. reflexivity.
  - apply list_elem_of_here.
  - do 3 apply list_elem_of_further. apply list_elem_of_here.
  - intros x Hx.
    repeat (apply elem_of_cons in Hx as [-> | Hx]; [split; discriminate|]).
    by apply elem_of_nil in Hx.
  - discriminate.
  - discriminate.
Defined.

End BelowZero.

(** ** The station file *)

Section StationFile.

(** The column-wise load keeps, row by row and in file order, the rows
    whose two coordinates are numbers. *)
Lemma load_metro_rows (to_numeric : string → option Q) (rows : list CsvRow) :
  Loader.load_metro to_numeric (CsvRows rows) =
    omap (λ r, la ← to_numeric (csv_latitude r);
               lo ← to_numeric (csv_longitude r);
               Some {| name := csv_name r; latitude := la; longitude := lo |}) rows.
Proof.
  unfold Loader.load_metro. cbv zeta.
  induction rows as [|r rows IH]; [reflexivity|].
  cbn [fmap list_fmap omap list_omap Loader.dropna].
  destruct (to_numeric (csv_latitude r)) as [la|];
    destruct (to_numeric (csv_longitude r)) as [lo|]; cbn; by rewrite <- IH.
Qed.

(** X16: the stations in memory are exactly the rows of the file whose
    latitude and longitude both read as numbers, with those numbers and
    the row's name; rows with a cell that does not are dropped, and no
    more stations are kept than the file has rows. *)
Theorem load_metro_keeps_numeric_rows (to_numeric : string → option Q)
        (rows : list CsvRow) (station : MetroRow) :
  (station ∈ Loader.load_metro to_numeric (CsvRows rows)
   ↔ ∃ r, r ∈ rows
          ∧ name station = csv_name r
          ∧ to_numeric (csv_latitude r) = Some (latitude station)
          ∧ to_numeric (csv_longitude r) = Some (longitude station))
  ∧ (length (Loader.load_metro to_numeric (CsvRows rows)) <= length rows)%nat.
Proof.
  rewrite load_metro_rows. split;
    [|induction rows as [|r rows IH]; [done|]; cbn [omap list_omap];
      destruct (_ ≫= _); cbn [length]; lia].
  rewrite list_elem_of_omap. split.
  - intros (r & Hr & Hparse). exists r. split; [exact Hr|].
    destruct (to_numeric (csv_latitude r)) as [la|]; [|discriminate].
    destruct (to_numeric (csv_longitude r)) as [lo|]; [|discriminate].
    by injection Hparse as <-.
  - intros (r & Hr & Hname & Hlat & Hlon). exists r. split; [exact Hr|].
    rewrite Hlat, Hlon. cbn. f_equal. destruct station. cbn in *. by rewrite Hname.
Qed.

Lemma load_metro_empty (to_numeric : string → option Q) (file : CsvFile) :
  (file = NoFile
   ∨ ∃ rows, file = CsvRows rows
             ∧ ∀ r, r ∈ rows → to_numeric (csv_latitude r) = None
                               ∨ to_numeric (csv_longitude r) = None) →
  Loader.load_metro to_numeric file = [].
Proof.
  intros [-> | (rows & -> & Hbad)]; [reflexivity|].
  rewrite load_metro_rows. induction rows as [|r rows IH]; [reflexivity|].
  cbn [omap list_omap].
  destruct (Hbad r (list_elem_of_here _ _)) as [-> | Hlon].
  - cbn. apply IH. intros r' Hr'. by apply Hbad, list_elem_of_further.
  - destruct (to_numeric (csv_latitude r)); cbn; rewrite ?Hlon; cbn;
      apply IH; intros r' Hr'; by apply Hbad, list_elem_of_further.
Qed.

(** X17: when the station file is absent, or none of its rows has two
    numeric coordinates, the process still starts, with no station, and
    every request whose coordinates parse gets the error message of the
    failed lookup. *)
Theorem missing_station_file_fails_requests (rt : Runtime) (app : App)
        (form : gmap string string) (to_numeric : string → option Q) (file : CsvFile)
        (user_lat user_lon : Q) :
  metro_df app = Loader.load_metro to_numeric file →
  (file = NoFile
   ∨ ∃ rows, file = CsvRows rows
             ∧ ∀ r, r ∈ rows → to_numeric (csv_latitude r) = None
                               ∨ to_numeric (csv_longitude r) = None) →
  Route.form_float rt form "latitude" (252048 # 10000) = Ok user_lat →
  Route.form_float rt form "longitude" (552708 # 10000) = Ok user_lon →
  projection_data (Route.index rt app POST form)
  = Some (ProjectionError "Error: Could not find closest metro. Check data file.").
Proof.
  intros Hdf Hfile Hlat Hlon. rewrite (load_metro_empty _ _ Hfile) in Hdf.
  unfold Route.index. by rewrite (locate_empty _ _ _ _ _ Hlat Hlon Hdf).
Qed.

Lemma missing_station_file_fails_requests_witness :
  projection_data (Route.index Sample.rt Sample.app_without_stations POST ∅)
  = Some (ProjectionError "Error: Could not find closest metro. Check data file.").
Proof.
  apply (missing_station_file_fails_requests Sample.rt Sample.app_without_stations ∅
           (λ _, None) (CsvRows [{| csv_name := "Union"; csv_latitude := "n/a";
                                    csv_longitude := "55.3" |}])
           (252048 # 10000) (552708 # 10000)).
  - reflexivity.
  - right. eexists. split; [reflexivity|]. intros r Hr. by left.
  - reflexivity.
  - reflexivity.
Defined.

End StationFile.

(** ** The export route *)

Section ExportRoute.

(** X18: the export answers with status 400 and its fixed message
    exactly when the form has no [projection_data] field or an empty one;
    every other request gets status 500 or the file. *)
Theorem download_excel_no_payload (rt : Runtime) (ert : ExportRuntime)
        (form : gmap string string) :
  (form !! "projection_data" = None ∨ form !! "projection_data" = Some EmptyString
   → Download.download_excel rt ert form = Body "Error: No data received." 400)
  ∧ (∀ text, Download.download_excel rt ert form = Body text 400 →
             form !! "projection_data" = None
             ∨ form !! "projection_data" = Some EmptyString).
Proof.
  unfold Download.download_excel. split.
  - intros [-> | ->]; reflexivity.
  - intros text. destruct (form !! "projection_data") as [[|c data_str]|]; eauto.
    destruct (_ ≫= _); discriminate.
Qed.

(** X19: for a payload that decodes to an object whose [labels] and
    [values] are arrays, the file is sent only when the two arrays have
    one length and the writer goes through; its sheet is written from the
    rows that pair the label and the value of each position.  Arrays of
    different lengths give status 500 with the message of the frame
    constructor. *)
Theorem download_excel_arrays (rt : Runtime) (ert : ExportRuntime)
        (form : gmap string string) (data_str : string) (data : Json)
        (ls vs : list Json) :
  form !! "projection_data" = Some data_str → data_str ≠ EmptyString →
  json_loads ert data_str = Ok data →
  Download.getitem ert data "labels" = Ok (JArr ls) →
  Download.getitem ert data "values" = Ok (JArr vs) →
  (length ls ≠ length vs →
   Download.download_excel rt ert form = Body "All arrays must be of the same length" 500)
  ∧ (length ls = length vs →
     Download.download_excel rt ert form =
       match to_excel ert (zip ls vs) with
       | Ok output =>
           Attachment output
             "application/vnd.openxmlformats-officedocument.spreadsheetml.sheet"
             "price_projection.xlsx"
       | Raise e => Body (exn_str rt e) 500
       end)
  ∧ (∀ output mimetype download_name,
        Download.download_excel rt ert form = Attachment output mimetype download_name →
        length ls = length vs
        ∧ to_excel ert (zip ls vs) = Ok output
        ∧ download_name = "price_projection.xlsx").
Proof.
  intros Hform Hne Hjson Hlabels Hvalues.
  assert (Download.download_excel rt ert form =
            match (df ← Download.make_frame ert (JArr ls) (JArr vs); to_excel ert df) with
            | Ok output =>
                Attachment output
                  "application/vnd.openxmlformats-officedocument.spreadsheetml.sheet"
                  "price_projection.xlsx"
            | Raise e => Body (exn_str rt e) 500
            end) as ->.
  { unfold Download.download_excel. rewrite Hform.
    destruct data_str as [|c rest]; [done|].
    by rewrite Hjson, bind_Ok, Hlabels, bind_Ok, Hvalues, bind_Ok. }
  cbn [Download.make_frame]. destruct (Nat.eqb (length ls) (length vs)) eqn:Hlen.
  - apply Nat.eqb_eq in Hlen. rewrite bind_Ok. split; [done|]. split; [done|].
    intros output mimetype download_name.
    destruct (to_excel ert (zip ls vs)); [|discriminate]. by intros [= -> _ <-].
  - apply Nat.eqb_neq in Hlen. split; [done|]. split; [done|]. discriminate.
Qed.

Lemma download_excel_arrays_witness :
  Download.download_excel Sample.rt Sample.ert {[ "projection_data" := "short" ]}
  = Body "All arrays must be of the same length" 500.
Proof.
  refine (proj1 (download_excel_arrays Sample.rt Sample.ert
                   {[ "projection_data" := "short" ]} "short" _
                   [JStr "2025"; JStr "2026"] [JNum 100] _ _ _ _ _) _).
  - reflexivity.
  - discriminate.
  - reflexivity.
  - reflexivity.
  - reflexivity.
  - cbn. lia.
Defined.

(** X20: a payload that does not decode, that decodes to something other
    than an object, or whose object lacks [labels] or [values], gets
    status 500 with the text of the exception; no file is sent and nothing
    is raised out of the route. *)
Theorem download_excel_malformed (rt : Runtime) (ert : ExportRuntime)
        (form : gmap string string) (data_str : string) :
  form !! "projection_data" = Some data_str → data_str ≠ EmptyString →
  (∀ e, json_loads ert data_str = Raise e →
        Download.download_excel rt ert form = Body (exn_str rt e) 500)
  ∧ (∀ data, json_loads ert data_str = Ok data →
             (∀ members, data ≠ JObj members) →
             Download.download_excel rt ert form
             = Body (exn_str rt (subscript_error ert data)) 500)
  ∧ (∀ members key, json_loads ert data_str = Ok (JObj members) →
                    key ∈ ["labels"; "values"] →
                    (∀ kv, kv ∈ members → kv.1 ≠ key) →
                    ∃ text, Download.download_excel rt ert form = Body text 500).
Proof.
  intros Hform Hne. unfold Download.download_excel. rewrite Hform.
  destruct data_str as [|c rest]; [done|]. split; [|split].
  - intros e ->. reflexivity.
  - intros data -> Hobj. rewrite bind_Ok.
    destruct data; try reflexivity. by destruct (Hobj members).
  - intros members key -> Hkey Habsent. rewrite bind_Ok.
    assert (Download.getitem ert (JObj members) key = Raise (KeyError [key])) as Hget.
    { cbn. destruct (list_find _ members) as [[i kv]|] eqn:Hfind; [|done].
      apply list_find_Some in Hfind as (Hi & Hk & _).
      exfalso. apply (Habsent kv); [by eapply list_elem_of_lookup_2 | exact Hk]. }
    apply elem_of_cons in Hkey as [-> | Hkey].
    + rewrite Hget. cbn. eauto.
    + apply list_elem_of_singleton in Hkey as ->.
      destruct (Download.getitem ert (JObj members) "labels"); [|cbn; eauto].
      rewrite bind_Ok, Hget. cbn. eauto.
Qed.

Lemma download_excel_malformed_witness :
  ∃ text, Download.download_excel Sample.rt
            {| json_loads := λ _, Ok (JObj [("labels", JArr [])]);
               subscript_error := subscript_error Sample.ert;
               frame_of_objects := frame_of_objects Sample.ert;
               to_excel := to_excel Sample.ert |}
            {[ "projection_data" := "{}" ]} = Body text 500.
Proof.
  refine (proj2 (proj2 (download_excel_malformed Sample.rt _
                          {[ "projection_data" := "{}" ]} "{}" _ _))
            [("labels", JArr [])] "values" _ _ _).
  - reflexivity.
  - discriminate.
  - reflexivity.
  - apply list_elem_of_further, list_elem_of_here.
  - intros kv ->%list_elem_of_singleton. discriminate.
Defined.

End ExportRoute.
